(** * Validator-staking parameter negotiation of the subnet command line

    A shallow embedding of [cmd/subnetcmd/addValidator.go] and of
    [cmd/subnetcmd/create.go], together with the parts of Go's [time],
    [unicode] and [unicode/utf8] packages that these files call.

    Conventions.
    - A Go [string] is a byte sequence: Rocq's [string], one [ascii] per byte.
    - [int], [int64], [uint64] and [rune] are [Z]; conversions between widths
      are written out ([int64_of_uint64], [uint64_of_int64]).
    - An [error] is a value of the inductive [error]; a function returning
      [(T, error)] returns [Result T].
    - Package-level variables, the operator at the terminal, the clock, the
      files under the application directory and the remote platform API are
      the fields of [World]; the commands are computations in the monad
      [M A := World -> Result A * World]. *)

From Stdlib Require Import ZArith List String Ascii Bool Lia.
From stdpp Require Import base option gmap strings list.

Local Open Scope string_scope.
Local Open Scope Z_scope.

(** ** Machine integers *)

Module GoInt.

Definition two63 : Z := 2 ^ 63.
Definition two64 : Z := 2 ^ 64.

(** [int64(x)] for a [uint64] or an out-of-range intermediate [x]. *)
Definition wrap_int64 (x : Z) : Z := (x + two63) mod two64 - two63.

(** [uint64(x)] for an [int64] [x]. *)
Definition wrap_uint64 (x : Z) : Z := x mod two64.

Definition int64_of_uint64 : Z -> Z := wrap_int64.
Definition uint64_of_int64 : Z -> Z := wrap_uint64.

(** Decimal digits of a non-negative integer, most significant first, as
    [fmt]'s [%d] and [time]'s [appendInt] produce them. *)
Fixpoint digits_fuel (fuel : nat) (u : Z) (acc : string) : string :=
  let q := u / 10 in
  let acc' := String (ascii_of_N (Z.to_N (48 + (u - q * 10)))) acc in
  match fuel with
  | O => acc'
  | S fuel' => if 10 <=? u then digits_fuel fuel' q acc' else acc'
  end.

Definition utoa (u : Z) : string := digits_fuel 20 u EmptyString.

Definition itoa (x : Z) : string :=
  if x <? 0 then String "-" (utoa (- x)) else utoa x.

End GoInt.

(** ** Strings as byte sequences *)

Module strings.

Definition byte (c : ascii) : Z := Z.of_N (N_of_ascii c).

Fixpoint bytes (s : string) : list Z :=
  match s with
  | EmptyString => []
  | String c s' => byte c :: bytes s'
  end.

Definition isEmpty (s : string) : bool :=
  match s with EmptyString => true | _ => false end.

Fixpoint rev_acc (s acc : string) : string :=
  match s with
  | EmptyString => acc
  | String c s' => rev_acc s' (String c acc)
  end.

Definition reverse (s : string) : string := rev_acc s EmptyString.

Fixpoint dropPrefix (p s : string) : option string :=
  match p, s with
  | EmptyString, _ => Some s
  | String a p', String b s' => if Ascii.eqb a b then dropPrefix p' s' else None
  | String _ _, EmptyString => None
  end.

(** [strings.HasSuffix]. *)
Definition HasSuffix (s suffix : string) : bool :=
  match dropPrefix (reverse suffix) (reverse s) with
  | Some _ => true
  | None => false
  end.

(** [strings.TrimSuffix]. *)
Definition TrimSuffix (s suffix : string) : string :=
  match dropPrefix (reverse suffix) (reverse s) with
  | Some r => reverse r
  | None => s
  end.

End strings.

(** ** [unicode/utf8]: the decoding that [for _, r := range s] performs *)

Module utf8.

Definition RuneError : Z := 65533.
Definition RuneSelf : Z := 128.

Definition locb : Z := 128.
Definition hicb : Z := 191.

(** The table [first] together with [acceptRanges]: for a leading byte, the
    length of the sequence and the range accepted for the second byte;
    [None] for the bytes that cannot start a sequence. *)
Definition lead (s0 : Z) : option (nat * Z * Z) :=
  if s0 <? 194 then None
  else if s0 <? 224 then Some (2%nat, locb, hicb)
  else if s0 =? 224 then Some (3%nat, 160, hicb)
  else if s0 <? 237 then Some (3%nat, locb, hicb)
  else if s0 =? 237 then Some (3%nat, locb, 159)
  else if s0 <? 240 then Some (3%nat, locb, hicb)
  else if s0 =? 240 then Some (4%nat, 144, hicb)
  else if s0 <? 244 then Some (4%nat, locb, hicb)
  else if s0 =? 244 then Some (4%nat, locb, 143)
  else None.

Definition cont (b : Z) : bool := (locb <=? b) && (b <=? hicb).

(** [utf8.DecodeRuneInString] on a non-empty byte sequence: the rune and the
    number of bytes it takes.  An invalid sequence gives [RuneError] and
    width 1. *)
Definition DecodeRune (s : list Z) : Z * nat :=
  match s with
  | [] => (RuneError, 0%nat)
  | s0 :: t =>
    if s0 <? RuneSelf then (s0, 1%nat)
    else
      match lead s0 with
      | None => (RuneError, 1%nat)
      | Some (sz, lo, hi) =>
        if (length s <? sz)%nat then (RuneError, 1%nat)
        else
          match t with
          | [] => (RuneError, 1%nat)
          | s1 :: t1 =>
            if (s1 <? lo) || (hi <? s1) then (RuneError, 1%nat)
            else if (sz <=? 2)%nat then
              (Z.lor (Z.shiftl (Z.land s0 31) 6) (Z.land s1 63), 2%nat)
            else
              match t1 with
              | [] => (RuneError, 1%nat)
              | s2 :: t2 =>
                if negb (cont s2) then (RuneError, 1%nat)
                else if (sz <=? 3)%nat then
                  (Z.lor (Z.lor (Z.shiftl (Z.land s0 15) 12)
                                (Z.shiftl (Z.land s1 63) 6))
                         (Z.land s2 63), 3%nat)
                else
                  match t2 with
                  | [] => (RuneError, 1%nat)
                  | s3 :: _ =>
                    if negb (cont s3) then (RuneError, 1%nat)
                    else
                      (Z.lor (Z.lor (Z.lor (Z.shiftl (Z.land s0 7) 18)
                                           (Z.shiftl (Z.land s1 63) 12))
                                    (Z.shiftl (Z.land s2 63) 6))
                             (Z.land s3 63), 4%nat)
                  end
              end
          end
      end
  end.

(** The runes a [range] loop over the string visits, in order.  Every step
    consumes at least one byte, so the length of the input is enough fuel. *)
Fixpoint range_fuel (fuel : nat) (s : list Z) : list Z :=
  match fuel with
  | O => []
  | S fuel' =>
    match s with
    | [] => []
    | _ :: _ =>
      let '(r, sz) := DecodeRune s in
      r :: range_fuel fuel' (drop sz s)
    end
  end.

Definition runes (s : string) : list Z :=
  range_fuel (length (strings.bytes s)) (strings.bytes s).

End utf8.

(** ** [unicode]: classification of runes *)

Module unicode.

Definition MaxASCII : Z := 127.
Definition MaxLatin1 : Z := 255.

(** The range tables for runes above Latin-1 are data of the Go library that
    is not reproduced here; the two classifiers take them as oracles. *)
Class Tables := {
  isLetterExcludingLatin : Z -> bool;
  isNumberExcludingLatin : Z -> bool
}.

(** The entries of [properties] whose [pLmask] bits are set. *)
Definition latin1Letter (r : Z) : bool :=
  ((65 <=? r) && (r <=? 90)) || ((97 <=? r) && (r <=? 122))
  || (r =? 170) || (r =? 181) || (r =? 186)
  || ((192 <=? r) && (r <=? 214)) || ((216 <=? r) && (r <=? 246))
  || ((248 <=? r) && (r <=? 255)).

(** The entries of [properties] whose [pN] bit is set. *)
Definition latin1Number (r : Z) : bool :=
  ((48 <=? r) && (r <=? 57))
  || (r =? 178) || (r =? 179) || (r =? 185)
  || ((188 <=? r) && (r <=? 190)).

Definition IsLetter `{Tables} (r : Z) : bool :=
  if (0 <=? r) && (r <=? MaxLatin1) then latin1Letter r
  else isLetterExcludingLatin r.

Definition IsNumber `{Tables} (r : Z) : bool :=
  if (0 <=? r) && (r <=? MaxLatin1) then latin1Number r
  else isNumberExcludingLatin r.

End unicode.

(** ** [time]: instants, durations, civil dates, parsing and formatting

    A [Time] is the instant it denotes, in nanoseconds since the Unix epoch.
    Locations are not kept: a time is rendered in UTC, which is what Go does
    with the result of [time.Parse] for a layout without a zone (a time
    derived from [time.Now] would be rendered in the local zone).  Monotonic
    clock readings are not kept either: every comparison and subtraction
    below has an operand built by [Parse] or [Unix], for which Go uses the
    wall clock too.  A [Duration] is an [int64] count of nanoseconds.  The
    civil-date arithmetic follows the Go release the program was written
    for (1.18); later releases compute the same dates. *)

Module time.

Import GoInt.

Definition Duration : Type := Z.
Definition Time : Type := Z.

Definition Nanosecond : Duration := 1.
Definition Second : Duration := 1000000000.
Definition Minute : Duration := 60 * Second.
Definition Hour : Duration := 60 * Minute.

Definition minDuration : Duration := - two63.
Definition maxDuration : Duration := two63 - 1.

Definition secondsPerMinute : Z := 60.
Definition secondsPerHour : Z := 60 * secondsPerMinute.
Definition secondsPerDay : Z := 24 * secondsPerHour.
Definition daysPer400Years : Z := 365 * 400 + 97.
Definition daysPer100Years : Z := 365 * 100 + 24.
Definition daysPer4Years : Z := 365 * 4 + 1.

Definition absoluteZeroYear : Z := -292277022399.
Definition internalYear : Z := 1.
(** [(absoluteZeroYear - internalYear) * 365.2425 * secondsPerDay]. *)
Definition absoluteToInternal : Z :=
  (absoluteZeroYear - internalYear) * 3652425 / 10000 * secondsPerDay.
Definition internalToAbsolute : Z := - absoluteToInternal.
Definition unixToInternal : Z :=
  (1969 * 365 + 1969 / 4 - 1969 / 100 + 1969 / 400) * secondsPerDay.
Definition internalToUnix : Z := - unixToInternal.

(** [unixTime(sec, nsec)]: the internal second count is an [int64]. *)
Definition unixTime (sec nsec : Z) : Time :=
  (wrap_int64 (sec + unixToInternal) - unixToInternal) * Second + nsec.

(** [time.Unix]. *)
Definition Unix (sec nsec : Z) : Time :=
  if (nsec <? 0) || (1000000000 <=? nsec) then
    let n := Z.quot nsec 1000000000 in
    let sec := sec + n in
    let nsec := nsec - n * 1000000000 in
    if nsec <? 0 then unixTime (wrap_int64 (sec - 1)) (nsec + 1000000000)
    else unixTime (wrap_int64 sec) nsec
  else unixTime sec nsec.

(** [Time.Add]. *)
Definition Add (t : Time) (d : Duration) : Time := t + d.

(** [Time.Before]. *)
Definition Before (t u : Time) : bool := t <? u.

(** [Time.Sub]: the difference computed in [int64], replaced by the extreme
    duration when it does not fit. *)
Definition Sub (t u : Time) : Duration :=
  let d := wrap_int64 (t - u) in
  if Add u d =? t then d
  else if Before t u then minDuration
  else maxDuration.

(** [Time.abs] for a UTC time: seconds since the absolute zero year. *)
Definition abs (t : Time) : Z :=
  wrap_uint64 (t / Second + (unixToInternal + internalToAbsolute)).

Definition January : Z := 1.
Definition February : Z := 2.
Definition March : Z := 3.

Definition daysBefore : list Z :=
  [0; 31; 59; 90; 120; 151; 181; 212; 243; 273; 304; 334; 365].

Definition daysBeforeAt (i : Z) : Z := nth (Z.to_nat i) daysBefore 0.

Definition isLeap (year : Z) : bool :=
  (Z.rem year 4 =? 0)
  && (negb (Z.rem year 100 =? 0) || (Z.rem year 400 =? 0)).

Definition daysIn (m year : Z) : Z :=
  if (m =? February) && isLeap year then 29
  else daysBeforeAt m - daysBeforeAt (m - 1).

(** [daysSinceEpoch]: days from the absolute epoch to the start of [year]. *)
Definition daysSinceEpoch (year : Z) : Z :=
  let y := wrap_uint64 (year - absoluteZeroYear) in
  let n := y / 400 in
  let y := y - 400 * n in
  let d := daysPer400Years * n in
  let n := y / 100 in
  let y := y - 100 * n in
  let d := d + daysPer100Years * n in
  let n := y / 4 in
  let y := y - 4 * n in
  let d := d + daysPer4Years * n in
  let n := y in
  d + 365 * n.

(** [norm]: carry [lo] into [hi] until [0 <= lo < base]. *)
Definition norm (hi lo base : Z) : Z * Z :=
  let '(hi, lo) :=
    if lo <? 0 then
      let n := Z.quot (- lo - 1) base + 1 in (hi - n, lo + n * base)
    else (hi, lo) in
  if base <=? lo then
    let n := Z.quot lo base in (hi + n, lo - n * base)
  else (hi, lo).

(** [time.Date] in UTC. *)
Definition Date (year month day hour min sec nsec : Z) : Time :=
  let m := month - 1 in
  let '(year, m) := norm year m 12 in
  let month := m + 1 in
  let '(sec, nsec) := norm sec nsec 1000000000 in
  let '(min, sec) := norm min sec 60 in
  let '(hour, min) := norm hour min 60 in
  let '(day, hour) := norm day hour 24 in
  let d := daysSinceEpoch year in
  let d := d + daysBeforeAt (month - 1) in
  let d := if isLeap year && (March <=? month) then d + 1 else d in
  let d := wrap_uint64 (d + wrap_uint64 (day - 1)) in
  let abs := wrap_uint64 (d * secondsPerDay) in
  let abs :=
    wrap_uint64
      (abs + wrap_uint64 (hour * secondsPerHour + min * secondsPerMinute + sec)) in
  let unix := wrap_int64 (wrap_int64 abs + (absoluteToInternal + internalToUnix)) in
  unixTime unix nsec.

(** The part of [absDate] that places a day number below [daysPer400Years]
    in its 400-year cycle: the year within the cycle and the day within
    that year. *)
Definition yearInCycle (d : Z) : Z * Z :=
  let n := d / daysPer100Years in
  let n := n - Z.shiftr n 2 in
  let y := 100 * n in
  let d := d - daysPer100Years * n in
  let n := d / daysPer4Years in
  let y := y + 4 * n in
  let d := d - daysPer4Years * n in
  let n := d / 365 in
  let n := n - Z.shiftr n 2 in
  let y := y + n in
  let d := d - 365 * n in
  (y, d).

(** The part of [absDate] that turns a day of the year into month and day
    of the month. *)
Definition monthDay (leap : bool) (yday : Z) : Z * Z :=
  if leap && (yday =? 31 + 29 - 1) then (February, 29)
  else
    let day := if leap && (31 + 29 - 1 <? yday) then yday - 1 else yday in
    let month := Z.quot day 31 in
    let e := daysBeforeAt (month + 1) in
    let '(month, begin) :=
      if e <=? day then (month + 1, e) else (month, daysBeforeAt month) in
    (month + 1, day - begin + 1).

(** [absDate(abs, true)]: year, month, day of the month, day of the year. *)
Definition absDate (abs : Z) : Z * Z * Z * Z :=
  let d := abs / secondsPerDay in
  let n := d / daysPer400Years in
  let y := 400 * n in
  let d := d - daysPer400Years * n in
  let '(y', d) := yearInCycle d in
  let y := y + y' in
  let year := wrap_int64 y + absoluteZeroYear in
  let yday := d in
  let '(month, day) := monthDay (isLeap year) yday in
  (year, month, day, yday).

(** [absClock]: hour, minute and second within the day. *)
Definition absClock (abs : Z) : Z * Z * Z :=
  let sec := abs mod secondsPerDay in
  let hour := Z.quot sec secondsPerHour in
  let sec := sec - hour * secondsPerHour in
  let min := Z.quot sec secondsPerMinute in
  let sec := sec - min * secondsPerMinute in
  (hour, min, sec).

(** *** Layouts

    [Parse] and [Format] walk the layout chunk by chunk ([nextStdChunk]): a
    literal prefix followed by a reference-time element.  A layout is kept
    here already split; only the elements that the layout of this program
    uses are interpreted. *)

Inductive Std : Type :=
  | stdLongYear      (* "2006" *)
  | stdZeroMonth     (* "01" *)
  | stdZeroDay       (* "02" *)
  | stdHour          (* "15" *)
  | stdZeroMinute    (* "04" *)
  | stdZeroSecond.   (* "05" *)

Record Layout : Type := {
  chunks : list (string * Std);
  suffix : string
}.

Definition len (s : string) : Z := Z.of_nat (String.length s).

(** [s[n:]]. *)
Fixpoint from (n : nat) (s : string) : string :=
  match n, s with
  | O, _ => s
  | S n', String _ s' => from n' s'
  | S _, EmptyString => EmptyString
  end.

(** [s[:n]]. *)
Fixpoint upto (n : nat) (s : string) : string :=
  match n, s with
  | O, _ => EmptyString
  | S n', String c s' => String c (upto n' s')
  | S _, EmptyString => EmptyString
  end.

Definition isDigitByte (c : ascii) : bool :=
  (48 <=? strings.byte c) && (strings.byte c <=? 57).

Definition isDigit (s : string) (i : nat) : bool :=
  match String.get i s with
  | Some c => isDigitByte c
  | None => false
  end.

Definition digitVal (s : string) (i : nat) : Z :=
  match String.get i s with
  | Some c => strings.byte c - 48
  | None => 0
  end.

Definition commaOrPeriod (c : ascii) : bool :=
  Ascii.eqb c "." || Ascii.eqb c ",".

Definition byteAt (s : string) (i : nat) : ascii :=
  match String.get i s with Some c => c | None => Ascii.zero end.

(** [getnum]: a one- or two-digit number; two digits are required when
    [fixed]. *)
Definition getnum (s : string) (fixed : bool) : option (Z * string) :=
  if negb (isDigit s 0) then None
  else if negb (isDigit s 1) then
    if fixed then None else Some (digitVal s 0, from 1 s)
  else Some (digitVal s 0 * 10 + digitVal s 1, from 2 s).

Fixpoint cutspace (s : string) : string :=
  match s with
  | String c s' => if Ascii.eqb c " " then cutspace s' else s
  | EmptyString => s
  end.

(** [skip]: remove [prefix] from [value]; a space of the prefix stands for
    any run of spaces of the value.  Each round shortens the prefix, so its
    length is enough fuel. *)
Fixpoint skip_fuel (fuel : nat) (value prefix : string) : option string :=
  match prefix with
  | EmptyString => Some value
  | String p0 prefix' =>
    match fuel with
    | O => None
    | S fuel' =>
      if Ascii.eqb p0 " " then
        if (0 <? len value) && negb (Ascii.eqb (byteAt value 0) " ") then None
        else skip_fuel fuel' (cutspace value) (cutspace prefix)
      else
        match value with
        | String v0 value' =>
          if Ascii.eqb v0 p0 then skip_fuel fuel' value' prefix' else None
        | EmptyString => None
        end
    end
  end.

Definition skip (value prefix : string) : option string :=
  skip_fuel (String.length prefix) value prefix.

(** [leadingInt]: the leading decimal digits of [s] and the rest. *)
Fixpoint leadingInt_from (x : Z) (s : string) : option (Z * string) :=
  match s with
  | EmptyString => Some (x, s)
  | String c s' =>
    if negb (isDigitByte c) then Some (x, s)
    else if two63 / 10 <? x then None
    else
      let x := x * 10 + strings.byte c - 48 in
      if two63 <? x then None else leadingInt_from x s'
  end.

Definition leadingInt (s : string) : option (Z * string) := leadingInt_from 0 s.

(** [atoi]. *)
Definition atoi (s : string) : option Z :=
  let '(neg, s) :=
    match s with
    | String c s' =>
      if Ascii.eqb c "-" || Ascii.eqb c "+" then (Ascii.eqb c "-", s') else (false, s)
    | EmptyString => (false, s)
    end in
  match leadingInt s with
  | Some (q, EmptyString) =>
    let x := wrap_int64 q in Some (if neg : bool then - x else x)
  | _ => None
  end.

Fixpoint digitRun (s : string) : nat :=
  match s with
  | String c s' => if isDigitByte c then S (digitRun s') else O
  | EmptyString => O
  end.

Fixpoint scale10 (k : nat) (ns : Z) : Z :=
  match k with
  | O => ns
  | S k' => scale10 k' (ns * 10)
  end.

(** [parseNanoseconds]: [value] starts with a comma or period followed by
    digits; [nbytes] counts the separator and the digits. *)
Definition parseNanoseconds (value : string) (nbytes : nat) : option Z :=
  if negb (commaOrPeriod (byteAt value 0)) then None
  else
    let '(value, nbytes) :=
      if (10 <? nbytes)%nat then (upto 10 value, 10%nat) else (value, nbytes) in
    match atoi (from 1 (upto nbytes value)) with
    | None => None
    | Some ns =>
      if ns <? 0 then None else Some (scale10 (10 - nbytes) ns)
    end.

Record Fields : Type := {
  f_year : Z; f_month : Z; f_day : Z;
  f_hour : Z; f_min : Z; f_sec : Z; f_nsec : Z
}.

(** The [switch std & stdMask] of [Parse], one element at a time. *)
Definition parseStd (std : Std) (value : string) (f : Fields)
  : option (string * Fields) :=
  match std with
  | stdLongYear =>
    if (len value <? 4) || negb (isDigit value 0) then None
    else
      match atoi (upto 4 value) with
      | Some year =>
        Some (from 4 value,
              {| f_year := year; f_month := f_month f; f_day := f_day f;
                 f_hour := f_hour f; f_min := f_min f; f_sec := f_sec f;
                 f_nsec := f_nsec f |})
      | None => None
      end
  | stdZeroMonth =>
    match getnum value true with
    | Some (month, value) =>
      if (month <=? 0) || (12 <? month) then None
      else
        Some (value,
              {| f_year := f_year f; f_month := month; f_day := f_day f;
                 f_hour := f_hour f; f_min := f_min f; f_sec := f_sec f;
                 f_nsec := f_nsec f |})
    | None => None
    end
  | stdZeroDay =>
    match getnum value true with
    | Some (day, value) =>
      Some (value,
            {| f_year := f_year f; f_month := f_month f; f_day := day;
               f_hour := f_hour f; f_min := f_min f; f_sec := f_sec f;
               f_nsec := f_nsec f |})
    | None => None
    end
  | stdHour =>
    match getnum value false with
    | Some (hour, value) =>
      if (hour <? 0) || (24 <=? hour) then None
      else
        Some (value,
              {| f_year := f_year f; f_month := f_month f; f_day := f_day f;
                 f_hour := hour; f_min := f_min f; f_sec := f_sec f;
                 f_nsec := f_nsec f |})
    | None => None
    end
  | stdZeroMinute =>
    match getnum value true with
    | Some (min, value) =>
      if (min <? 0) || (60 <=? min) then None
      else
        Some (value,
              {| f_year := f_year f; f_month := f_month f; f_day := f_day f;
                 f_hour := f_hour f; f_min := min; f_sec := f_sec f;
                 f_nsec := f_nsec f |})
    | None => None
    end
  | stdZeroSecond =>
    match getnum value true with
    | Some (sec, value) =>
      if (sec <? 0) || (60 <=? sec) then None
      else
        (* A fractional second in the input that the layout does not
           mention is read all the same. *)
        if (2 <=? len value) && commaOrPeriod (byteAt value 0) && isDigit value 1
        then
          let n := (2 + digitRun (from 2 value))%nat in
          match parseNanoseconds value n with
          | Some nsec =>
            Some (from n value,
                  {| f_year := f_year f; f_month := f_month f; f_day := f_day f;
                     f_hour := f_hour f; f_min := f_min f; f_sec := sec;
                     f_nsec := nsec |})
          | None => None
          end
        else
          Some (value,
                {| f_year := f_year f; f_month := f_month f; f_day := f_day f;
                   f_hour := f_hour f; f_min := f_min f; f_sec := sec;
                   f_nsec := f_nsec f |})
    | None => None
    end
  end.

(** The loop of [Parse] over the chunks of the layout. *)
Fixpoint parseChunks (cs : list (string * Std)) (value : string) (f : Fields)
  : option (string * Fields) :=
  match cs with
  | [] => Some (value, f)
  | (prefix, std) :: cs' =>
    match skip value prefix with
    | None => None
    | Some value =>
      match parseStd std value f with
      | None => None
      | Some (value, f) => parseChunks cs' value f
      end
    end
  end.

(** [time.Parse]; [None] stands for the [*ParseError]. *)
Definition Parse (layout : Layout) (value : string) : option Time :=
  let f0 := {| f_year := 0; f_month := -1; f_day := -1;
               f_hour := 0; f_min := 0; f_sec := 0; f_nsec := 0 |} in
  match parseChunks (chunks layout) value f0 with
  | None => None
  | Some (value, f) =>
    match skip value (suffix layout) with
    | None => None
    | Some value =>
      if negb (len value =? 0) then None
      else
        let month := if f_month f <? 0 then January else f_month f in
        let day := if f_day f <? 0 then 1 else f_day f in
        if (day <? 1) || (daysIn month (f_year f) <? day) then None
        else
          Some (Date (f_year f) month day (f_hour f) (f_min f) (f_sec f) (f_nsec f))
    end
  end.

Fixpoint zeros (n : nat) : string :=
  match n with
  | O => EmptyString
  | S n' => String "0" (zeros n')
  end.

(** [appendInt]: decimal, padded with zeros to [width]. *)
Definition appendInt (x : Z) (width : nat) : string :=
  let sign := if x <? 0 then "-" else EmptyString in
  let u := if x <? 0 then wrap_uint64 (- x) else wrap_uint64 x in
  let ds := utoa u in
  sign ++ zeros (width - String.length ds) ++ ds.

Definition formatStd (std : Std) (t : Time) : string :=
  let '(year, month, day, _) := absDate (abs t) in
  let '(hour, min, sec) := absClock (abs t) in
  match std with
  | stdLongYear => appendInt year 4
  | stdZeroMonth => appendInt month 2
  | stdZeroDay => appendInt day 2
  | stdHour => appendInt hour 2
  | stdZeroMinute => appendInt min 2
  | stdZeroSecond => appendInt sec 2
  end.

Fixpoint formatChunks (cs : list (string * Std)) (t : Time) : string :=
  match cs with
  | [] => EmptyString
  | (prefix, std) :: cs' => prefix ++ formatStd std t ++ formatChunks cs' t
  end.

(** [Time.Format] of a UTC time. *)
Definition Format (t : Time) (layout : Layout) : string :=
  formatChunks (chunks layout) t ++ suffix layout.

End time.

(** ** Identifiers, networks, constants *)

Module ids.

(** [ids.NodeID] is a 20-byte array and [ids.ID] a 32-byte array; both are
    compared with [==], byte by byte. *)
Definition NodeID : Type := string.
Definition ID : Type := string.

Fixpoint zeroBytes (n : nat) : string :=
  match n with
  | O => EmptyString
  | S n' => String Ascii.zero (zeroBytes n')
  end.

Definition Empty : ID := zeroBytes 32.

End ids.

Module models.

(** Modelled from the spec: [models.Network] is declared in [pkg/models],
    which is not among the sources; the spec gives the network selector as
    the enumeration {Fuji, Mainnet}. *)
Inductive Network : Type := Fuji | Mainnet.

Definition Network_eqb (a b : Network) : bool :=
  match a, b with
  | Fuji, Fuji | Mainnet, Mainnet => true
  | _, _ => false
  end.

Definition Network_String (n : Network) : string :=
  match n with
  | Fuji => "Fuji"
  | Mainnet => "Mainnet"
  end.

Record NetworkData : Type := {
  SubnetID : ids.ID;
  BlockchainID : ids.ID
}.

(** The sidecar: the persisted record of a subnet, with the identifiers it
    was given on each network it was deployed to. *)
Record Sidecar : Type := {
  Name : string;
  Networks : gmap string NetworkData
}.

End models.

Module constants.

(** The values declared in [pkg/constants], which is not among the sources:
    the theorems hold for all of them. *)
Class Values : Type := {
  MinStakeWeight : Z;
  MaxStakeWeight : Z;
  DefaultWeight : Z;
  StakingStartLeadTime : time.Duration;
  StakingMinimumLeadTime : time.Duration;
  KeySuffix : string;
  FujiAPIEndpoint : string;
  MainnetAPIEndpoint : string
}.

(** Modelled from the spec: [constants.TimeParseLayout] is declared in
    [pkg/constants], which is not among the sources; the spec and the prompt
    texts give the layout as YYYY-MM-DD HH:MM:SS, in Go's reference time
    [2006-01-02 15:04:05], kept here as [nextStdChunk] splits it. *)
Definition TimeParseLayout : time.Layout :=
  {| time.chunks := [(EmptyString, time.stdLongYear); ("-", time.stdZeroMonth);
                     ("-", time.stdZeroDay); (" ", time.stdHour);
                     (":", time.stdZeroMinute); (":", time.stdZeroSecond)];
     time.suffix := EmptyString |}.

End constants.

(** ** Errors and results *)

Inductive error : Type :=
  | errNoSubnetID
  | errIllegalNameCharacter
  | errIllegalWeight (weight : Z)
      (* "illegal weight, must be between 1 and 100 inclusive: %d" *)
  | errTooSoon
      (* "time should be at least %s in the future " *)
  | errNodeNotFound (nodeID : ids.NodeID)
      (* "nodeID not found in validator set: " + nodeID.String() *)
  | errParse (value : string)
      (* the error of a parser of the libraries *)
  | errCollaborator (what : string)
      (* an error handed back by the prompt, the file system, the platform
         API or the deployer *)
  | panicIndex
      (* run-time panic: index out of range *)
  | outOfFuel.
      (* no error of the program: the bound of a loop of the model *)

Inductive Result (A : Type) : Type :=
  | Ok (a : A)
  | Err (e : error).
Arguments Ok {A} a.
Arguments Err {A} e.

(** What a collaborator answers: a value, or a failure of its own making
    (a transport error, a timeout, a refusal). *)
Inductive Outcome (A : Type) : Type :=
  | Got (a : A)
  | Failed (what : string).
Arguments Got {A} a.
Arguments Failed {A} what.

Definition result_of {A : Type} (o : Outcome A) : Result A :=
  match o with
  | Got a => Ok a
  | Failed what => Err (errCollaborator what)
  end.

(** ** The world around the command *)

(** The package-level variables of [subnetcmd] that the command uses; the
    flags of the command line are parsed into the first five. *)
Record Vars : Type := {
  keyName : string;
  nodeIDStr : string;
  weight : Z;
  startTimeStr : string;
  duration : time.Duration;
  startTimeDefault : time.Time
}.

(** What the operator enters at a prompt. *)
Inductive Answer : Type :=
  | AList (choice : string)
  | ADuration (d : time.Duration)
  | AYesNo (yes : bool)
  | ADate (t : time.Time)
  | ANodeID (n : ids.NodeID)
  | AWeight (w : Z)
  | AError (what : string).

Inductive PromptKind : Type :=
  | KList | KDuration | KYesNo | KDate | KNodeID | KWeight.

(** What the terminal shows. *)
Inductive Output : Type :=
  | Asked (kind : PromptKind) (text : string) (options : list string)
  | Printed (line : string).

(** A record of the current validator set, as the platform API returns it. *)
Record Validator : Type := {
  v_NodeID : ids.NodeID;
  v_EndTime : Z      (* uint64, seconds since the Unix epoch *)
}.

(** The files of the application directory. *)
Record Disk : Type := {
  keyDir : option (list string);       (* file names of the key directory *)
  sidecars : gmap string models.Sidecar;
  genesis : gmap string string
}.

(** The arguments of [deployer.AddValidator]. *)
Record Tx : Type := {
  tx_keyPath : string;
  tx_network : models.Network;
  tx_subnetID : ids.ID;
  tx_nodeID : ids.NodeID;
  tx_weight : Z;      (* uint64 *)
  tx_start : time.Time;
  tx_duration : time.Duration
}.

Record World : Type := {
  vars : Vars;
  script : list Answer;         (* the operator's answers still to come *)
  shown : list Output;          (* what was shown so far, latest first *)
  clock : time.Time;            (* the reading of [time.Now] *)
  disk : Disk;
  currentValidators : string -> Outcome (list Validator);
                                (* [GetCurrentValidators] of the API at a URI *)
  submission : Tx -> option string;
                                (* how the platform answers a transaction *)
  issued : list Tx              (* transactions handed to the deployer *)
}.

(** Pure helpers of packages that are not among the sources. *)
Class Collaborators : Type := {
  NetworkFromString : string -> models.Network;
  NodeIDFromString : string -> option ids.NodeID;
  NodeID_String : ids.NodeID -> string;
  GetKeyPath : string -> string;
  (** Modelled from the spec: [validateSubnetNameAndGetChains] is defined in
      a file of the package that is not among the sources; by the spec the
      persisted configuration is consulted and never mutated, so its result
      is a function of the arguments and of the files. *)
  validateSubnetNameAndGetChains : Disk -> list string -> Outcome (list string)
}.

(** ** The monad of commands *)

Definition M (A : Type) : Type := World -> Result A * World.

#[export] Instance M_ret : MRet M := fun A a w => (Ok a, w).

#[export] Instance M_bind : MBind M := fun A B f m w =>
  match m w with
  | (Ok a, w') => f a w'
  | (Err e, w') => (Err e, w')
  end.

Definition fail {A : Type} (e : error) : M A := fun w => (Err e, w).

Definition lift {A : Type} (r : Result A) : M A := fun w => (r, w).

(** Run [m] and hand its outcome to the caller, as [x, err := m()] does. *)
Definition try {A : Type} (m : M A) : M (Result A) := fun w =>
  let '(r, w') := m w in (Ok r, w').

Definition getVars : M Vars := fun w => (Ok (vars w), w).

Definition setVars (v : Vars) : M unit := fun w =>
  (Ok tt,
   {| vars := v; script := script w; shown := shown w; clock := clock w;
      disk := disk w; currentValidators := currentValidators w;
      submission := submission w; issued := issued w |}).

Definition set_keyName (k : string) : M unit :=
  v ← getVars;
  setVars {| keyName := k; nodeIDStr := nodeIDStr v; weight := weight v;
             startTimeStr := startTimeStr v; duration := duration v;
             startTimeDefault := startTimeDefault v |}.

Definition set_duration (d : time.Duration) : M unit :=
  v ← getVars;
  setVars {| keyName := keyName v; nodeIDStr := nodeIDStr v; weight := weight v;
             startTimeStr := startTimeStr v; duration := d;
             startTimeDefault := startTimeDefault v |}.

Definition getDisk : M Disk := fun w => (Ok (disk w), w).

(** [time.Now]. *)
Definition Now : M time.Time := fun w => (Ok (clock w), w).

Definition show (o : Output) : M unit := fun w =>
  (Ok tt,
   {| vars := vars w; script := script w; shown := o :: shown w;
      clock := clock w; disk := disk w;
      currentValidators := currentValidators w;
      submission := submission w; issued := issued w |}).

(** [ux.Logger.PrintToUser]. *)
Definition PrintToUser (line : string) : M unit := show (Printed line).

(** The operator's next answer; a closed terminal is an error of the
    prompt. *)
Definition answer : M Answer := fun w =>
  match script w with
  | [] => (Err (errCollaborator "EOF"), w)
  | a :: rest =>
    (Ok a,
     {| vars := vars w; script := rest; shown := shown w; clock := clock w;
        disk := disk w; currentValidators := currentValidators w;
        submission := submission w; issued := issued w |})
  end.

Definition mismatch : error := errCollaborator "answer of another kind".

(** The prompts of [app.Prompt], an interface of [pkg/prompts]: a prompt
    shows its text and hands back what the operator enters, or an error.
    The operator is the script of the world; an answer that is not of the
    kind the prompt asks for stands for a script that does not fit the
    dialogue and is an error of the prompt. *)
Module Prompt.

Definition CaptureList (text : string) (options : list string) : M string :=
  _ ← show (Asked KList text options);
  a ← answer;
  match a with
  | AList s => mret s
  | AError what => fail (errCollaborator what)
  | _ => fail mismatch
  end.

Definition CaptureDuration (text : string) : M time.Duration :=
  _ ← show (Asked KDuration text []);
  a ← answer;
  match a with
  | ADuration d => mret d
  | AError what => fail (errCollaborator what)
  | _ => fail mismatch
  end.

Definition CaptureYesNo (text : string) : M bool :=
  _ ← show (Asked KYesNo text []);
  a ← answer;
  match a with
  | AYesNo b => mret b
  | AError what => fail (errCollaborator what)
  | _ => fail mismatch
  end.

Definition CaptureDate (text : string) : M time.Time :=
  _ ← show (Asked KDate text []);
  a ← answer;
  match a with
  | ADate t => mret t
  | AError what => fail (errCollaborator what)
  | _ => fail mismatch
  end.

Definition CaptureNodeID (text : string) : M ids.NodeID :=
  _ ← show (Asked KNodeID text []);
  a ← answer;
  match a with
  | ANodeID n => mret n
  | AError what => fail (errCollaborator what)
  | _ => fail mismatch
  end.

Definition CaptureWeight (text : string) : M Z :=
  _ ← show (Asked KWeight text []);
  a ← answer;
  match a with
  | AWeight x => mret x
  | AError what => fail (errCollaborator what)
  | _ => fail mismatch
  end.

End Prompt.

(** ** The application object and the deployer *)

Module app.

(** [os.ReadDir(app.GetKeyDir())]: the names of the files of the key
    directory. *)
Definition ReadKeyDir : M (list string) :=
  d ← getDisk;
  match keyDir d with
  | Some files => mret files
  | None => fail (errCollaborator "ReadDir")
  end.

(** Modelled from the spec: [app.LoadSidecar] is defined in
    [pkg/application], which is not among the sources; by the spec the
    sidecar is a persisted per-subnet record that this workflow consults and
    never mutates. *)
Definition LoadSidecar (subnetName : string) : M models.Sidecar :=
  d ← getDisk;
  match sidecars d !! subnetName with
  | Some sc => mret sc
  | None => fail (errCollaborator "LoadSidecar")
  end.

(** Modelled from the spec: [app.WriteGenesisFile] and [app.CreateSidecar]
    are defined in [pkg/application]; they are the writes of the persisted
    configuration, used by the create command and by no step of the
    add-validator workflow. *)
Definition WriteGenesisFile (subnetName genesisBytes : string) : M unit := fun w =>
  (Ok tt,
   {| vars := vars w; script := script w; shown := shown w; clock := clock w;
      disk := {| keyDir := keyDir (disk w); sidecars := sidecars (disk w);
                 genesis := <[subnetName := genesisBytes]> (genesis (disk w)) |};
      currentValidators := currentValidators w;
      submission := submission w; issued := issued w |}).

Definition CreateSidecar (sc : models.Sidecar) : M unit := fun w =>
  (Ok tt,
   {| vars := vars w; script := script w; shown := shown w; clock := clock w;
      disk := {| keyDir := keyDir (disk w);
                 sidecars := <[models.Name sc := sc]> (sidecars (disk w));
                 genesis := genesis (disk w) |};
      currentValidators := currentValidators w;
      submission := submission w; issued := issued w |}).

End app.

Module platformvm.

(** [platformvm.NewClient(uri).GetCurrentValidators(ctx, PrimaryNetworkID,
    nil)]: one read of the remote validator set; a timeout or a transport
    failure is an error of the call. *)
Definition GetCurrentValidators (uri : string) : M (list Validator) := fun w =>
  (result_of (currentValidators w uri), w).

End platformvm.

Module subnet.

(** Modelled from the spec: [PublicDeployer.AddValidator] is defined in
    [pkg/subnet], which is not among the sources; by the spec it submits the
    transaction and answers ok or a submission error, and writes neither
    configuration nor key material. *)
Definition AddValidator (tx : Tx) : M unit := fun w =>
  let w' :=
    {| vars := vars w; script := script w; shown := shown w; clock := clock w;
       disk := disk w; currentValidators := currentValidators w;
       submission := submission w; issued := tx :: issued w |} in
  match submission w tx with
  | None => (Ok tt, w')
  | Some what => (Err (errCollaborator what), w')
  end.

End subnet.

(** ** [cmd/subnetcmd] *)

Module subnetcmd.

Section Commands.

Context `{unicode.Tables} `{constants.Values} `{Collaborators}.

(** *** create.go: the check of a subnet name *)

(** The body of the loop of [checkInvalidSubnetNames] over the runes that
    [range name] yields. *)
Fixpoint checkRunes (rs : list Z) : option error :=
  match rs with
  | [] => None
  | r :: rs' =>
    if (unicode.MaxASCII <? r)
       || negb (unicode.IsLetter r || unicode.IsNumber r || (r =? 32))
    then Some errIllegalNameCharacter
    else checkRunes rs'
  end.

Definition checkInvalidSubnetNames (name : string) : option error :=
  checkRunes (utf8.runes name).

(** *** addValidator.go *)

(** The initial values of the package-level variables: [startTimeDefault]
    is computed when the package is initialised, at the clock reading
    [started]; the flags are then parsed into the other variables. *)
Definition package_init (started : time.Time)
    (key nodeID : string) (weightFlag : Z) (startTime : string)
    (stakingPeriod : time.Duration) : Vars :=
  {| keyName := key; nodeIDStr := nodeID; weight := weightFlag;
     startTimeStr := startTime; duration := stakingPeriod;
     startTimeDefault := time.Add started constants.StakingStartLeadTime |}.

Definition promptStart : M time.Time :=
  let txt := "When should the validator start validating? Enter a UTC datetime in 'YYYY-MM-DD HH:MM:SS' format" in
  Prompt.CaptureDate txt.

Definition promptNodeID : M ids.NodeID :=
  let txt := "What is the NodeID of the validator you'd like to whitelist?" in
  Prompt.CaptureNodeID txt.

Definition promptWeight : M Z :=
  let defaultWeight := "Default (" ++ GoInt.itoa constants.DefaultWeight ++ ")" in
  let txt := "What stake weight would you like to assign to the validator?" in
  let weightOptions := [defaultWeight; "Custom"] in
  weightOption ← Prompt.CaptureList txt weightOptions;
  if String.eqb weightOption defaultWeight then mret constants.DefaultWeight
  else Prompt.CaptureWeight txt.

(** The loop of [promptDuration], unrolled at most [fuel] times. *)
Fixpoint promptDuration_fuel (fuel : nat) (start : time.Time) : M time.Duration :=
  match fuel with
  | O => fail outOfFuel
  | S fuel' =>
    let txt := "How long should this validator be validating? Enter a duration, e.g. 8760h" in
    d ← Prompt.CaptureDuration txt;
    let end_ := time.Add start d in
    let confirm := "Your validator will finish staking by "
                   ++ time.Format end_ constants.TimeParseLayout in
    yes ← Prompt.CaptureYesNo confirm;
    if yes : bool then mret d else promptDuration_fuel fuel' start
  end.

(** Every round takes answers from the operator, and a prompt without an
    answer fails: the number of answers still to come bounds the rounds. *)
Definition promptDuration (start : time.Time) : M time.Duration := fun w =>
  promptDuration_fuel (S (length (script w))) start w.

(** The search of [getMaxValidationTime] through the validator set. *)
Fixpoint findValidator (vs : list Validator) (nodeID : ids.NodeID)
    (startTime : time.Time) : Result time.Duration :=
  match vs with
  | [] => Err (errNodeNotFound nodeID)
  | v :: vs' =>
    if String.eqb (v_NodeID v) nodeID then
      Ok (time.Sub (time.Unix (GoInt.int64_of_uint64 (v_EndTime v)) 0) startTime)
    else findValidator vs' nodeID startTime
  end.

Definition getMaxValidationTime (network : models.Network) (nodeID : ids.NodeID)
    (startTime : time.Time) : M time.Duration :=
  let uri :=
    if models.Network_eqb network models.Fuji then constants.FujiAPIEndpoint
    else constants.MainnetAPIEndpoint in
  vs ← platformvm.GetCurrentValidators uri;
  lift (findValidator vs nodeID startTime).

Definition defaultStartOption : string := "Start in five minutes".
Definition defaultDurationOption : string := "Until primary network validator expires".
Definition custom : string := "Custom".

(** [duration, err = m]: the package-level [duration] receives what [m]
    returns, the zero duration next to an error. *)
Definition assign_duration (m : M time.Duration) : M time.Duration :=
  r ← try m;
  match r with
  | Ok d => _ ← set_duration d; mret d
  | Err e => _ ← set_duration 0; fail e
  end.

(** Lines 189 to 216 of [getTimeParameters]: the start time, from the
    prompt when the flag is empty and from the flag otherwise. *)
Definition resolveStart : M time.Time :=
  v ← getVars;
  if strings.isEmpty (startTimeStr v) then
    _ ← PrintToUser
      ("When should your validator start validating?" ++ String "010" EmptyString
       ++ "If you validator is not ready by this time, subnet downtime can occur.");
    let startTimeOptions := [defaultStartOption; custom] in
    startTimeOption ← Prompt.CaptureList "Start time" startTimeOptions;
    if String.eqb startTimeOption defaultStartOption
    then mret (startTimeDefault v)
    else promptStart
  else
    match time.Parse constants.TimeParseLayout (startTimeStr v) with
    | None => fail (errParse (startTimeStr v))
    | Some start =>
      now ← Now;
      if time.Before start (time.Add now constants.StakingMinimumLeadTime)
      then fail errTooSoon
      else mret start
    end.

(** Lines 218 to 238 of [getTimeParameters]: the duration, from the prompt
    when the package-level [duration] is zero and from that variable
    otherwise. *)
Definition resolveDuration (network : models.Network) (nodeID : ids.NodeID)
    (start : time.Time) : M time.Duration :=
  v ← getVars;
  if duration v =? 0 then
    let msg := "How long should your validator validate for?" in
    let durationOptions := [defaultDurationOption; custom] in
    durationOption ← Prompt.CaptureList msg durationOptions;
    if String.eqb durationOption defaultDurationOption
    then assign_duration (getMaxValidationTime network nodeID start)
    else assign_duration (promptDuration start)
  else mret (duration v).

Definition getTimeParameters (network : models.Network) (nodeID : ids.NodeID)
  : M (time.Time * time.Duration) :=
  start ← resolveStart;
  duration ← resolveDuration network nodeID start;
  mret (start, duration).

Definition captureKeyName : M string :=
  files ← app.ReadKeyDir;
  let keys :=
    map (fun f =>
           if strings.HasSuffix f constants.KeySuffix
           then strings.TrimSuffix f constants.KeySuffix
           else EmptyString) files in
  r ← try (Prompt.CaptureList
             "Which private key should be used to issue the transaction?" keys);
  match r with
  | Ok k => _ ← set_keyName k; mret k
  | Err e => _ ← set_keyName EmptyString; fail e
  end.

(** Lines 111 to 118 of [addValidator]: the weight is asked for when the
    variable [weight] is zero, and checked against the legal range
    otherwise. *)
Definition resolveWeight (weight : Z) : M Z :=
  if weight =? 0 then promptWeight
  else if (weight <? constants.MinStakeWeight) || (constants.MaxStakeWeight <? weight)
  then fail (errIllegalWeight weight)
  else mret weight.

Definition addValidator (args : list string) : M unit :=
  (* var ( nodeID ids.NodeID; weight int64; start time.Time; err error ):
     the local [weight] hides the package-level variable of the flag. *)
  let weight := 0 in
  v ← getVars;
  _ ← (if strings.isEmpty (keyName v) then
         r ← try captureKeyName;
         match r with
         | Ok k => set_keyName k
         | Err e => _ ← set_keyName EmptyString; fail e
         end
       else mret tt);
  networkStr ← Prompt.CaptureList
    "Choose a network to deploy on. This command only supports Fuji currently."
    [models.Network_String models.Fuji;
     models.Network_String models.Mainnet ++ " (coming soon)"];
  let network := NetworkFromString networkStr in
  d ← getDisk;
  chains ← lift (result_of (validateSubnetNameAndGetChains d args));
  subnetName ← match chains with
               | [] => fail panicIndex
               | c :: _ => mret c
               end;
  sc ← app.LoadSidecar subnetName;
  let subnetID :=
    match models.Networks sc !! models.Network_String network with
    | Some nd => models.SubnetID nd
    | None => ids.Empty
    end in
  if String.eqb subnetID ids.Empty then fail errNoSubnetID
  else
    nodeID ←
      (if strings.isEmpty (nodeIDStr v) then promptNodeID
       else match NodeIDFromString (nodeIDStr v) with
            | Some n => mret n
            | None => fail (errParse (nodeIDStr v))
            end);
    weight ← resolveWeight weight;
    r ← try (getTimeParameters network nodeID);
    '(start, duration) ←
      match r with
      | Ok (start, d) => _ ← set_duration d; mret (start, d)
      | Err e => _ ← set_duration 0; fail e
      end;
    _ ← PrintToUser ("NodeID: " ++ NodeID_String nodeID);
    _ ← PrintToUser ("Network: " ++ models.Network_String network);
    _ ← PrintToUser ("Start time: " ++ time.Format start constants.TimeParseLayout);
    _ ← PrintToUser ("End time: "
                     ++ time.Format (time.Add start duration) constants.TimeParseLayout);
    _ ← PrintToUser ("Weight: " ++ GoInt.itoa weight);
    _ ← PrintToUser "Inputs complete, issuing transaction to add the provided validator information...";
    v' ← getVars;
    subnet.AddValidator
      {| tx_keyPath := GetKeyPath (keyName v'); tx_network := network;
         tx_subnetID := subnetID; tx_nodeID := nodeID;
         tx_weight := GoInt.uint64_of_int64 weight;
         tx_start := start; tx_duration := duration |}.

End Commands.

End subnetcmd.

(** ** [cmd/subnetcmd/create.go]: the create command *)

Module create.

(** The package-level variables of the flags of the create command; the
    command reads them and never assigns them. *)
Record Flags : Type := {
  forceCreate : bool;
  useSubnetEvm : bool;
  genesisFile : string;
  vmFile : string;
  useCustom : bool
}.

(** The errors with which [createGenesis] ends. *)
Inductive createError : Type :=
  | errConfigExists
      (* "configuration already exists. Use --" + forceFlag + " parameter to overwrite" *)
  | errInvalidName (subnetName : string) (cause : error)
      (* fmt.Errorf("subnet name %q is invalid: %w", subnetName, err) *)
  | errTooManyVMs
      (* "too many VMs selected. Provide at most one VM selection flag" *)
  | errNotImplemented
      (* "not implemented" *)
  | errReturned (e : error)
      (* an error returned as it came: of the prompt, of the VM wizard, of a
         write *)
  | panicArgs.
      (* run-time panic: args[0] without arguments *)

Inductive Ended (A : Type) : Type :=
  | Fine (a : A)
  | Stopped (e : createError).
Arguments Fine {A} a.
Arguments Stopped {A} e.

(** The create command as a computation on the world. *)
Definition C (A : Type) : Type := World -> Ended A * World.

#[export] Instance C_ret : MRet C := fun A a w => (Fine a, w).

#[export] Instance C_bind : MBind C := fun A B f m w =>
  match m w with
  | (Fine a, w') => f a w'
  | (Stopped e, w') => (Stopped e, w')
  end.

Definition stop {A : Type} (e : createError) : C A := fun w => (Stopped e, w).

(** A step of the other commands, its error returned as it comes. *)
Definition returned {A : Type} (m : M A) : C A := fun w =>
  match m w with
  | (Ok a, w') => (Fine a, w')
  | (Err e, w') => (Stopped (errReturned e), w')
  end.

(** What the create command takes from the rest of the program: constants
    of the package and of [pkg/models] that are not among the sources, the
    VM wizards of [pkg/vm], and the file operations of [pkg/application]. *)
Class Setting : Type := {
  forceFlag : string;
  subnetEvm : string;
  customVM : string;
  models_SubnetEvm : string;        (* models.SubnetEvm, a models.VMType *)
  models_CustomVM : string;         (* models.CustomVM *)
  VMTypeFromString : string -> string;
  (** [vm.CreateEvmSubnetConfig(app, subnetName, genesisFile)] and
      [vm.CreateCustomSubnetConfig(app, subnetName, genesisFile, vmFile)]:
      they may prompt and read files, and hand back the genesis bytes and
      the sidecar. *)
  CreateEvmSubnetConfig : string -> string -> M (string * models.Sidecar);
  CreateCustomSubnetConfig : string -> string -> string -> M (string * models.Sidecar);
  (** Why a write fails, if it does, given the files as they are. *)
  writeGenesisFails : Disk -> string -> string -> option string;
  createSidecarFails : Disk -> models.Sidecar -> option string
}.

(** Modelled from the spec: [app.GenesisExists] is defined in
    [pkg/application], which is not among the sources; the persisted
    genesis of a subnet is there once [WriteGenesisFile] has written it. *)
Definition GenesisExists (d : Disk) (subnetName : string) : bool :=
  match genesis d !! subnetName with
  | Some _ => true
  | None => false
  end.

Section Command.

Context `{unicode.Tables} `{Setting}.

(** [app.WriteGenesisFile] and [app.CreateSidecar] with their errors: a
    write that fails leaves the files as they were. *)
Definition WriteGenesisFile (subnetName genesisBytes : string) : C unit := fun w =>
  match writeGenesisFails (disk w) subnetName genesisBytes with
  | Some what => (Stopped (errReturned (errCollaborator what)), w)
  | None => returned (app.WriteGenesisFile subnetName genesisBytes) w
  end.

Definition CreateSidecar (sc : models.Sidecar) : C unit := fun w =>
  match createSidecarFails (disk w) sc with
  | Some what => (Stopped (errReturned (errCollaborator what)), w)
  | None => returned (app.CreateSidecar sc) w
  end.

(** The loop of [moreThanOneVMSelected] over [vmVars]. *)
Fixpoint moreThanOne (firstSelect : bool) (vmVars : list bool) : bool :=
  match vmVars with
  | [] => false
  | val :: rest =>
    if firstSelect && val then true
    else if val then moreThanOne true rest
    else moreThanOne firstSelect rest
  end.

Definition moreThanOneVMSelected (fl : Flags) : bool :=
  let vmVars := [useSubnetEvm fl; useCustom fl] in
  moreThanOne false vmVars.

Definition getVMFromFlag (fl : Flags) : string :=
  if useSubnetEvm fl then models_SubnetEvm
  else if useCustom fl then models_CustomVM
  else EmptyString.

(** Lines 93 to 104 of [createGenesis]: the VM of the flags, or else of
    the operator's choice. *)
Definition chooseVM (fl : Flags) : C string :=
  let subnetType := getVMFromFlag fl in
  if String.eqb subnetType EmptyString then
    subnetTypeStr ← returned (Prompt.CaptureList "Choose your VM"
                                [subnetEvm; customVM]);
    mret (VMTypeFromString subnetTypeStr)
  else mret subnetType.

(** Lines 106 to 136 of [createGenesis]: the configuration of the VM made
    by its wizard, then written: the genesis file first, the sidecar
    second. *)
Definition configure (fl : Flags) (subnetName subnetType : string) : C unit :=
  '(genesisBytes, sc) ←
    (if String.eqb subnetType subnetEvm then
       returned (CreateEvmSubnetConfig subnetName (genesisFile fl))
     else if String.eqb subnetType customVM then
       returned (CreateCustomSubnetConfig subnetName (genesisFile fl) (vmFile fl))
     else stop errNotImplemented);
  _ ← WriteGenesisFile subnetName genesisBytes;
  _ ← CreateSidecar sc;
  returned (PrintToUser "Successfully created subnet configuration").

Definition createGenesis (fl : Flags) (args : list string) : C unit :=
  subnetName ← match args with
               | [] => stop panicArgs
               | a :: _ => mret a
               end;
  d ← returned getDisk;
  if GenesisExists d subnetName && negb (forceCreate fl) then stop errConfigExists
  else
    match subnetcmd.checkInvalidSubnetNames subnetName with
    | Some err => stop (errInvalidName subnetName err)
    | None =>
      if moreThanOneVMSelected fl then stop errTooManyVMs
      else
        subnetType ← chooseVM fl;
        configure fl subnetName subnetType
    end.

End Command.

End create.

(** * A concrete setting

    Values for the constants and stand-ins for the collaborators, to run the
    commands on concrete inputs. *)

Module Demo.

#[export] Instance values : constants.Values := {|
  constants.MinStakeWeight := 1;
  constants.MaxStakeWeight := 100;
  constants.DefaultWeight := 20;
  constants.StakingStartLeadTime := 5 * time.Minute;
  constants.StakingMinimumLeadTime := 25 * time.Second;
  constants.KeySuffix := ".pk";
  constants.FujiAPIEndpoint := "https://api.avax-test.network";
  constants.MainnetAPIEndpoint := "https://api.avax.network"
|}.

#[export] Instance tables : unicode.Tables := {|
  unicode.isLetterExcludingLatin := fun _ => false;
  unicode.isNumberExcludingLatin := fun _ => false
|}.

#[export] Instance collaborators : Collaborators := {|
  NetworkFromString := fun s =>
    if String.eqb s "Fuji" then models.Fuji else models.Mainnet;
  NodeIDFromString := fun s =>
    match strings.dropPrefix "NodeID-" s with
    | Some _ => Some s
    | None => None
    end;
  NodeID_String := fun n => n;
  GetKeyPath := fun k => "key/" ++ k ++ ".pk";
  validateSubnetNameAndGetChains := fun d args =>
    match args with
    | [] => Failed "no subnet name"
    | name :: _ =>
      match sidecars d !! name with
      | Some _ => Got [name]
      | None => Failed "Invalid subnet"
      end
    end
|}.

Definition sidecar : models.Sidecar :=
  {| models.Name := "mysubnet";
     models.Networks :=
       {[ "Fuji" := {| models.SubnetID := "subnet-on-fuji";
                       models.BlockchainID := "chain-on-fuji" |} ]} |}.

Definition files : Disk :=
  {| keyDir := Some ["alice.pk"; "notes.txt"];
     sidecars := {[ "mysubnet" := sidecar ]};
     genesis := ∅ |}.

Definition nodeA : ids.NodeID := "NodeID-A".
Definition nodeB : ids.NodeID := "NodeID-B".

(** The validator set of the spec's example. *)
Definition validatorSet : list Validator :=
  [ {| v_NodeID := nodeA; v_EndTime := 1700000000 |} ].

(** A world in which the platform answers every read with [vs] and accepts
    every transaction. *)
Definition world (v : Vars) (answers : list Answer) (now : time.Time)
    (vs : list Validator) : World :=
  {| vars := v; script := answers; shown := []; clock := now; disk := files;
     currentValidators := fun _ => Got vs;
     submission := fun _ => None;
     issued := [] |}.

(** Midnight before 1 January 2024, UTC. *)
Definition newYear : time.Time := 1704067200 * time.Second.

(** The package as initialised at [newYear], with the given flags. *)
Definition started (key nodeID : string) (weightFlag : Z) (startTime : string)
    (stakingPeriod : time.Duration) : Vars :=
  subnetcmd.package_init newYear key nodeID weightFlag startTime stakingPeriod.

(** The key and the node are given by flags, the start is a day ahead and
    the staking period is a day; the operator picks Fuji and the default
    weight. *)
Definition scripted (weightFlag : Z) : World :=
  world (started "alice" "NodeID-A" weightFlag "2024-01-02 00:00:00" (24 * time.Hour))
        [AList "Fuji"; AList "Default (20)"] newYear validatorSet.

(** The start-time flag is exactly StakingMinimumLeadTime after the clock. *)
Definition boundary : World :=
  world (started "alice" "NodeID-A" 0 "2024-01-01 00:00:25" (24 * time.Hour))
        [] newYear validatorSet.

(** The operator chooses the default start an hour after the program was
    started. *)
Definition late : World :=
  world (started "alice" "NodeID-A" 0 EmptyString (24 * time.Hour))
        [AList "Start in five minutes"] (newYear + time.Hour) validatorSet.

(** A staking period of minus one hour on the command line. *)
Definition backwards : World :=
  world (started "alice" "NodeID-A" 0 "2024-01-02 00:00:00" (- time.Hour))
        [] newYear validatorSet.

(** A validator whose end time lies more than 292 years after the start. *)
Definition distantSet : list Validator :=
  [ {| v_NodeID := nodeA; v_EndTime := 20000000000 |} ].

Definition distant : World :=
  world (started "alice" "NodeID-A" 0 EmptyString 0) [] newYear distantSet.

Definition example : World :=
  world (started "alice" "NodeID-A" 0 EmptyString 0) [] newYear validatorSet.

(** The platform refuses the transaction. *)
Definition refused : World :=
  {| vars := vars (scripted 0); script := script (scripted 0); shown := [];
     clock := newYear; disk := files;
     currentValidators := fun _ => Got validatorSet;
     submission := fun _ => Some "rejected by the platform";
     issued := [] |}.

End Demo.

(** * The vocabulary of the specification *)

Module Spec.

(** One cycle of the duration prompt, as the operator lives it: a candidate
    duration entered, then the confirmation answered. *)
Definition cycle (d : time.Duration) (confirmed : bool) : list Answer :=
  [ADuration d; AYesNo confirmed].

(** The answers of the cycles in which the candidates [ds] are rejected. *)
Definition rejections (ds : list time.Duration) : list Answer :=
  concat (map (fun d => cycle d false) ds).

Definition isDurationPrompt (o : Output) : bool :=
  match o with
  | Asked KDuration _ _ => true
  | _ => false
  end.

(** The number of prompt cycles begun, read off the terminal. *)
Definition cyclesShown (w : World) : nat :=
  length (List.filter isDurationPrompt (shown w)).

(** The characters the spec allows in a subnet name: ASCII letters, ASCII
    digits and the space. *)
Definition asciiLetter (r : Z) : bool :=
  ((65 <=? r) && (r <=? 90)) || ((97 <=? r) && (r <=? 122)).

Definition asciiDigit (r : Z) : bool := (48 <=? r) && (r <=? 57).

Definition legalChar (r : Z) : bool :=
  (0 <=? r) && (r <=? 127) && (asciiLetter r || asciiDigit r || (r =? 32)).

(** A timestamp written out in full: four digits of year, two digits each
    of month, day, hour, minute and second, with the separators of
    YYYY-MM-DD HH:MM:SS and nothing else. *)
Definition canonical (value : string) : bool :=
  match value with
  | String y3 (String y2 (String y1 (String y0 (String p1
    (String m1 (String m0 (String p2
    (String d1 (String d0 (String p3
    (String h1 (String h0 (String p4
    (String i1 (String i0 (String p5
    (String s1 (String s0 EmptyString)))))))))))))))))) =>
    forallb time.isDigitByte [y3; y2; y1; y0; m1; m0; d1; d0; h1; h0; i1; i0; s1; s0]
    && Ascii.eqb p1 "-" && Ascii.eqb p2 "-" && Ascii.eqb p3 " "
    && Ascii.eqb p4 ":" && Ascii.eqb p5 ":"
  | _ => false
  end.

End Spec.

(** * Notions used in the proofs *)

(** ** What a run may end with and what it leaves untouched *)

Module Outcomes.

(** [errs P m]: whenever [m] fails, its error satisfies [P]. *)
Definition errs {A : Type} (P : error -> Prop) (m : M A) : Prop :=
  forall w e, fst (m w) = Err e -> P e.

(** [keeps f m]: running [m] leaves the component [f] of the world as it
    was. *)
Definition keeps {A X : Type} (f : World -> X) (m : M A) : Prop :=
  forall w, f (snd (m w)) = f w.

Definition collab (e : error) : Prop := exists what, e = errCollaborator what.

Definition ofStart (e : error) : Prop :=
  collab e \/ e = errTooSoon \/ exists s, e = errParse s.

Definition ofDuration (nodeID : ids.NodeID) (e : error) : Prop :=
  collab e \/ e = errNodeNotFound nodeID.

(** The errors with which the add-validator workflow can end, apart from
    those that the collaborators hand back. *)
Definition ofTime (nodeID : ids.NodeID) (e : error) : Prop :=
  collab e \/ e = errTooSoon \/ e = errNodeNotFound nodeID
  \/ exists s, e = errParse s.

Definition ofCommand (e : error) : Prop :=
  collab e \/ e = errTooSoon \/ (exists n, e = errNodeNotFound n)
  \/ (exists s, e = errParse s) \/ e = errNoSubnetID \/ e = panicIndex.

(** Everything of the world that no step of the workflow may change: the
    files, the clock reading, the platform, and the package-level variables
    other than [keyName] and [duration]. *)
Definition fixedPart (w : World) :=
  (disk w, clock w, currentValidators w, submission w,
   (nodeIDStr (vars w), weight (vars w), startTimeStr (vars w),
    startTimeDefault (vars w))).

(** [calm m]: [m] leaves the fixed part alone.  [quiet m]: moreover [m]
    hands nothing to the deployer. *)
Definition calm {A : Type} (m : M A) : Prop := keeps fixedPart m.
Definition quiet {A : Type} (m : M A) : Prop :=
  keeps fixedPart m /\ keeps issued m.

(** [handsOver m]: [m] leaves the fixed part alone, and either hands nothing
    to the deployer or hands over one transaction as its last act, ending
    well when the platform accepts it and with the platform's error when it
    does not. *)
Definition handsOver {A : Type} (m : M A) : Prop :=
  forall w,
    fixedPart (snd (m w)) = fixedPart w
    /\ (issued (snd (m w)) = issued w
        \/ exists tx,
             issued (snd (m w)) = tx :: issued w
             /\ ((submission w tx = None /\ exists a, fst (m w) = Ok a)
                 \/ exists what, submission w tx = Some what
                      /\ fst (m w) = Err (errCollaborator what))).

End Outcomes.

(** ** What the terminal shows during the confirmation loop *)

Module Transcript.

(** The world after the operator has given some answers and the terminal
    has shown [outs] (latest first). *)
Definition after (w : World) (rest : list Answer) (outs : list Output) : World :=
  {| vars := vars w; script := rest; shown := outs ++ shown w;
     clock := clock w; disk := disk w;
     currentValidators := currentValidators w;
     submission := submission w; issued := issued w |}.

Definition durationText : string :=
  "How long should this validator be validating? Enter a duration, e.g. 8760h".

Definition confirmText (start : time.Time) (d : time.Duration) : string :=
  "Your validator will finish staking by "
  ++ time.Format (time.Add start d) constants.TimeParseLayout.

(** What one cycle shows, latest first. *)
Definition cycleShown (start : time.Time) (d : time.Duration) : list Output :=
  [Asked KYesNo (confirmText start d) []; Asked KDuration durationText []].

(** What the cycles that reject [ds], in this order, show; latest first. *)
Fixpoint rejectedShown (start : time.Time) (ds : list time.Duration) : list Output :=
  match ds with
  | [] => []
  | d :: ds' => rejectedShown start ds' ++ cycleShown start d
  end.

End Transcript.

(** ** The calendar behind [Date] and [absDate] *)

Module Calendar.

(** Days from the start of a 400-year cycle to the start of its year [y]. *)
Definition cycleDays (y : Z) : Z :=
  time.daysPer100Years * (y / 100)
  + time.daysPer4Years * ((y mod 100) / 4)
  + 365 * (y mod 4).

(** Year [y] of a cycle is a civil year congruent to [y + 1] modulo 400. *)
Definition yearLength (y : Z) : Z := if time.isLeap (y + 1) then 366 else 365.

(** The day of the year of a date, counted from 0. *)
Definition dayOfYear (leap : bool) (month day : Z) : Z :=
  time.daysBeforeAt (month - 1)
  + (if leap && (time.March <=? month) then 1 else 0)
  + (day - 1).

Definition daysInMonth (leap : bool) (month : Z) : Z :=
  if (month =? time.February) && leap then 29
  else time.daysBeforeAt month - time.daysBeforeAt (month - 1).

Definition range (n : nat) : list Z := map Z.of_nat (seq 0 n).

(** What makes a date of the years 0 to 9999 valid. *)
Definition validDate (year month day : Z) : Prop :=
  0 <= year <= 9999 /\ 1 <= month <= 12
  /\ 1 <= day <= time.daysIn month year.

Definition validClock (hour min sec : Z) : Prop :=
  0 <= hour < 24 /\ 0 <= min < 60 /\ 0 <= sec < 60.

(** The cycle and the year in the cycle of a civil year. *)
Definition cycleOf (year : Z) : Z := (year - time.absoluteZeroYear) / 400.
Definition yearOfCycle (year : Z) : Z := (year - time.absoluteZeroYear) mod 400.

End Calendar.

(** ** Timestamps digit by digit *)

Module Digits.

Definition digit (c : ascii) : Z := strings.byte c - 48.

Definition num2 (a b : ascii) : Z := digit a * 10 + digit b.

Definition num4 (a b c d : ascii) : Z :=
  ((digit a * 10 + digit b) * 10 + digit c) * 10 + digit d.

Definition digitChars : list ascii :=
  ["0"; "1"; "2"; "3"; "4"; "5"; "6"; "7"; "8"; "9"]%char.

(** The timestamp with the given digits. *)
Definition stamp (y3 y2 y1 y0 m1 m0 d1 d0 h1 h0 i1 i0 s1 s0 : ascii) : string :=
  String y3 (String y2 (String y1 (String y0 (String "-"
  (String m1 (String m0 (String "-"
  (String d1 (String d0 (String " "
  (String h1 (String h0 (String ":"
  (String i1 (String i0 (String ":"
  (String s1 (String s0 EmptyString)))))))))))))))))).

End Digits.

(** ** The create command: the VM flags and the errors of a run *)

Module Chosen.

(** How many of the VM selection flags are set. *)
Definition selected (vmVars : list bool) : nat :=
  length (List.filter (fun b : bool => b) vmVars).

(** [stops P m]: whenever the create command [m] stops, its error
    satisfies [P]. *)
Definition stops {A : Type} (P : create.createError -> Prop) (m : create.C A) : Prop :=
  forall w e, fst (m w) = create.Stopped e -> P e.

Definition isReturned (e : create.createError) : Prop :=
  exists e', e = create.errReturned e'.

End Chosen.

(** ** The dialogue of the add-validator command *)

Module Keys.

(** The option that the key prompt shows for a file of the key directory:
    its name without the key suffix, and nothing for a file that does not
    end in it. *)
Definition isOption (suffix f option : string) : Prop :=
  (forall stem, f = stem ++ suffix -> option = stem)
  /\ ((forall stem, f <> stem ++ suffix) -> option = EmptyString).

End Keys.

Module Dialogue.

Definition weightText : string :=
  "What stake weight would you like to assign to the validator?".

Definition startText : string :=
  "When should the validator start validating? Enter a UTC datetime in 'YYYY-MM-DD HH:MM:SS' format".

Definition startIntro : string :=
  "When should your validator start validating?" ++ String "010" EmptyString
  ++ "If you validator is not ready by this time, subnet downtime can occur.".

Definition networkText : string :=
  "Choose a network to deploy on. This command only supports Fuji currently.".

Definition networkOptions : list string :=
  [models.Network_String models.Fuji;
   models.Network_String models.Mainnet ++ " (coming soon)"].

End Dialogue.

(** ** The variable of the weight flag *)

Module Flag.

(** The world with the variable of the weight flag set to [x]. *)
Definition withWeight (x : Z) (w : World) : World :=
  {| vars := {| keyName := keyName (vars w); nodeIDStr := nodeIDStr (vars w);
                weight := x; startTimeStr := startTimeStr (vars w);
                duration := duration (vars w);
                startTimeDefault := startTimeDefault (vars w) |};
     script := script w; shown := shown w; clock := clock w; disk := disk w;
     currentValidators := currentValidators w; submission := submission w;
     issued := issued w |}.

(** [blind m]: [m] runs the same way whatever the variable of the weight
    flag holds, and leaves that variable as it found it. *)
Definition blind {A : Type} (m : M A) : Prop :=
  forall x w, m (withWeight x w) = (fst (m w), withWeight x (snd (m w))).

End Flag.

(** ** The transaction that the command hands over *)

Module Handing.

(** [mustHand m]: [m] ends well only by handing a transaction to the
    deployer. *)
Definition mustHand {A : Type} (m : M A) : Prop :=
  forall w a, fst (m w) = Ok a -> exists tx, issued (snd (m w)) = tx :: issued w.

(** [hands d0 P m]: started with the files [d0], [m] hands over a
    transaction only in a world that satisfies [P] with it. *)
Definition hands {A : Type} (d0 : Disk) (P : World -> Tx -> Prop) (m : M A) : Prop :=
  forall w tx, disk w = d0 -> issued (snd (m w)) = tx :: issued w -> P (snd (m w)) tx.

(** The key of the package-level [keyName]. *)
Definition key (w : World) : string := keyName (vars w).

Section Described.

Context `{constants.Values} `{Collaborators}.

(** The lines that the command prints before it hands [tx] over, latest
    first, with the weight [x] as it prints it. *)
Definition summary (tx : Tx) (x : Z) : list Output :=
  [Printed "Inputs complete, issuing transaction to add the provided validator information...";
   Printed ("Weight: " ++ GoInt.itoa x);
   Printed ("End time: "
            ++ time.Format (time.Add (tx_start tx) (tx_duration tx))
                           constants.TimeParseLayout);
   Printed ("Start time: " ++ time.Format (tx_start tx) constants.TimeParseLayout);
   Printed ("Network: " ++ models.Network_String (tx_network tx));
   Printed ("NodeID: " ++ NodeID_String (tx_nodeID tx))].

(** The subnet of [tx] is the one that the sidecar of the command's subnet
    records for the network of [tx]. *)
Definition deployed (args : list string) (d0 : Disk) (tx : Tx) : Prop :=
  exists name more sc nd,
    validateSubnetNameAndGetChains d0 args = Got (name :: more)
    /\ sidecars d0 !! name = Some sc
    /\ models.Networks sc !! models.Network_String (tx_network tx) = Some nd
    /\ models.SubnetID nd = tx_subnetID tx.

Definition shownBefore (w' : World) (tx : Tx) : Prop :=
  exists x earlier,
    shown w' = (summary tx x ++ earlier)%list
    /\ tx_weight tx = GoInt.uint64_of_int64 x.

Definition described (args : list string) (d0 : Disk) (w' : World) (tx : Tx) : Prop :=
  tx_subnetID tx <> ids.Empty
  /\ deployed args d0 tx
  /\ shownBefore w' tx
  /\ tx_keyPath tx = GetKeyPath (keyName (vars w')).

End Described.

End Handing.

(** ** The fields of a timestamp *)

Module StampCheck.

Import Digits.

(** The fields of a timestamp that the calendar and the clock allow. *)
Definition possible (y3 y2 y1 y0 m1 m0 d1 d0 h1 h0 i1 i0 s1 s0 : ascii) : Prop :=
  1 <= num2 m1 m0 <= 12
  /\ 1 <= num2 d1 d0 <= time.daysIn (num2 m1 m0) (num4 y3 y2 y1 y0)
  /\ num2 h1 h0 < 24 /\ num2 i1 i0 < 60 /\ num2 s1 s0 < 60.

End StampCheck.

(** ** The weight prompt on the terminal *)

Module Routing.

(** [grows m]: [m] only adds to what the terminal has shown. *)
Definition grows {A : Type} (m : M A) : Prop :=
  forall w, exists new, shown (snd (m w)) = (new ++ shown w)%list.

Section Weight.

Context `{constants.Values}.

(** The list prompt of the weight step. *)
Definition weightPrompt : Output :=
  Asked KList Dialogue.weightText
        ["Default (" ++ GoInt.itoa constants.DefaultWeight ++ ")"; "Custom"].

(** Between [w] and [w'] the weight prompt was shown. *)
Definition asksWeight (w w' : World) : Prop :=
  exists later earlier,
    shown w' = (later ++ weightPrompt :: earlier ++ shown w)%list.

(** [firstShows m]: [m] shows the weight prompt before anything else. *)
Definition firstShows {A : Type} (m : M A) : Prop :=
  forall w, exists later, shown (snd (m w)) = (later ++ weightPrompt :: shown w)%list.

(** [routed m]: [m] hands a transaction over only after it has shown the
    weight prompt. *)
Definition routed {A : Type} (m : M A) : Prop :=
  forall w tx, issued (snd (m w)) = tx :: issued w -> asksWeight w (snd (m w)).

End Weight.

End Routing.

(** ** Concrete settings for the create command and further worlds *)

Module Scenes.

Import create.

Definition evmGenesis : string := "{ evm genesis }".
Definition customGenesis : string := "{ custom genesis }".

Definition fresh (name : string) : models.Sidecar :=
  {| models.Name := name; models.Networks := ∅ |}.

(** Wizards that answer at once, and files that can be written. *)
#[export] Instance setting : Setting := {|
  forceFlag := "force";
  subnetEvm := "SubnetEVM";
  customVM := "Custom";
  models_SubnetEvm := "SubnetEVM";
  models_CustomVM := "Custom";
  VMTypeFromString := fun s => s;
  CreateEvmSubnetConfig := fun name _ => mret (evmGenesis, fresh name);
  CreateCustomSubnetConfig := fun name _ _ => mret (customGenesis, fresh name);
  writeGenesisFails := fun _ _ _ => None;
  createSidecarFails := fun _ _ => None
|}.

(** The same, with a sidecar directory that cannot be written. *)
Definition readOnlySidecars : Setting := {|
  forceFlag := "force";
  subnetEvm := "SubnetEVM";
  customVM := "Custom";
  models_SubnetEvm := "SubnetEVM";
  models_CustomVM := "Custom";
  VMTypeFromString := fun s => s;
  CreateEvmSubnetConfig := fun name _ => mret (evmGenesis, fresh name);
  CreateCustomSubnetConfig := fun name _ _ => mret (customGenesis, fresh name);
  writeGenesisFails := fun _ _ _ => None;
  createSidecarFails := fun _ _ => Some "permission denied"
|}.

Definition flags (force evm custom : bool) : Flags :=
  {| forceCreate := force; useSubnetEvm := evm; genesisFile := EmptyString;
     vmFile := EmptyString; useCustom := custom |}.

(** The operator's terminal before the create command, with the files of
    [Demo.files]. *)
Definition desk (answers : list Answer) : World :=
  Demo.world (Demo.started EmptyString EmptyString 0 EmptyString 0)
             answers Demo.newYear Demo.validatorSet.

(** No key is given and the key directory cannot be read. *)
Definition lockedOut : World :=
  {| vars := Demo.started EmptyString "NodeID-A" 0 "2024-01-02 00:00:00" (24 * time.Hour);
     script := [AList "alice"; AList "Fuji"]; shown := [];
     clock := Demo.newYear;
     disk := {| keyDir := None; sidecars := sidecars Demo.files;
                genesis := genesis Demo.files |};
     currentValidators := fun _ => Got Demo.validatorSet;
     submission := fun _ => None;
     issued := [] |}.

(** No key is given; the operator picks the key of alice. *)
Definition keyless : World :=
  Demo.world (Demo.started EmptyString "NodeID-A" 0 "2024-01-02 00:00:00" (24 * time.Hour))
             [AList "alice"; AList "Fuji"] Demo.newYear Demo.validatorSet.

(** The operator asks for a custom weight and enters 5000. *)
Definition heavy : World :=
  Demo.world (Demo.started "alice" "NodeID-A" 0 "2024-01-02 00:00:00" (24 * time.Hour))
             [AList "Custom"; AWeight 5000] Demo.newYear Demo.validatorSet.

(** The operator asks for a custom start and enters the Unix epoch. *)
Definition bygone : World :=
  Demo.world (Demo.started "alice" "NodeID-A" 0 EmptyString (24 * time.Hour))
             [AList "Custom"; ADate 0] Demo.newYear Demo.validatorSet.

(** The operator picks the network on which the subnet was not deployed. *)
Definition elsewhere : World :=
  Demo.world (Demo.started "alice" "NodeID-A" 0 "2024-01-02 00:00:00" (24 * time.Hour))
             [AList "Mainnet"] Demo.newYear Demo.validatorSet.

(** The start-time flag names the thirtieth of February. *)
Definition february : World :=
  Demo.world (Demo.started "alice" "NodeID-A" 0 "2024-02-30 00:00:00" (24 * time.Hour))
             [] Demo.newYear Demo.validatorSet.

(** A validator of the primary network until 1 January 2025. *)
Definition lasting : list Validator :=
  [ {| v_NodeID := Demo.nodeA; v_EndTime := 1735689600 |} ].

(** No flag for the start or the staking period; the operator chooses the
    default of both. *)
Definition defaults : World :=
  Demo.world (Demo.started "alice" "NodeID-A" 0 EmptyString 0)
             [AList "Start in five minutes";
              AList "Until primary network validator expires"]
             Demo.newYear lasting.

(** The transaction of the run from [Demo.scripted 0]. *)
Definition sent : Tx :=
  {| tx_keyPath := "key/alice.pk"; tx_network := models.Fuji;
     tx_subnetID := "subnet-on-fuji"; tx_nodeID := "NodeID-A";
     tx_weight := 20;
     tx_start := 1704153600 * time.Second;
     tx_duration := 24 * time.Hour |}.

End Scenes.

(** * Properties *)

(** ** Subnet names *)

Module NameCheck.

Import Spec.

Lemma lor_lower a b : 0 <= a -> 0 <= b -> a <= Z.lor a b.
Proof.
  intros Ha Hb.
  assert (E1 : Z.lor a b = Z.lor a (Z.ldiff b a)).
  { apply Z.bits_inj'. intros n Hn.
    rewrite !Z.lor_spec, Z.ldiff_spec.
    destruct (Z.testbit a n), (Z.testbit b n); reflexivity. }
  assert (E2 : Z.land a (Z.ldiff b a) = 0).
  { apply Z.bits_inj'. intros n Hn.
    rewrite Z.land_spec, Z.ldiff_spec, Z.bits_0.
    destruct (Z.testbit a n), (Z.testbit b n); reflexivity. }
  pose proof (Z.add_lor_land a (Z.ldiff b a)) as E3.
  assert (0 <= Z.ldiff b a) by (apply Z.ldiff_nonneg; lia).
  lia.
Qed.

Lemma land_low a k : 0 <= k -> Z.land a (2 ^ k - 1) = a mod 2 ^ k.
Proof.
  intros Hk. rewrite <- Z.land_ones by assumption.
  f_equal. rewrite Z.ones_equiv. lia.
Qed.

Lemma byte_range c : 0 <= strings.byte c < 256.
Proof.
  unfold strings.byte. destruct c as [[] [] [] [] [] [] [] []]; vm_compute; split; congruence.
Qed.

Lemma DecodeRune_ascii s0 t :
  s0 < 128 -> utf8.DecodeRune (s0 :: t) = (s0, 1%nat).
Proof.
  intros Hs. unfold utf8.DecodeRune, utf8.RuneSelf.
  destruct (Z.ltb_spec s0 128); [reflexivity | lia].
Qed.

Lemma lor_bounds a b :
  0 <= a -> 0 <= b -> a <= Z.lor a b /\ b <= Z.lor a b.
Proof.
  intros Ha Hb. split; [apply lor_lower; assumption|].
  rewrite Z.lor_comm. apply lor_lower; assumption.
Qed.

Lemma land_mask a k m :
  0 <= k -> m = 2 ^ k - 1 -> Z.land a m = a mod 2 ^ k.
Proof. intros Hk ->. apply land_low, Hk. Qed.

Lemma lead_cases s0 sz lo hi :
  utf8.lead s0 = Some (sz, lo, hi) ->
  128 <= lo /\ hi <= 191 /\
  ((sz = 2%nat /\ 194 <= s0 < 224)
   \/ (sz = 3%nat /\ 224 <= s0 < 240 /\ (s0 = 224 -> 160 <= lo))
   \/ (sz = 4%nat /\ 240 <= s0 < 245 /\ (s0 = 240 -> 144 <= lo))).
Proof.
  unfold utf8.lead, utf8.locb, utf8.hicb. intros Hlead.
  repeat match type of Hlead with
  | context [Z.ltb ?a ?b] => destruct (Z.ltb_spec a b)
  | context [Z.eqb ?a ?b] => destruct (Z.eqb_spec a b)
  end; inversion Hlead; subst; lia.
Qed.

Lemma two_byte_lower s0 :
  194 <= s0 < 224 -> 128 <= Z.shiftl (Z.land s0 31) 6.
Proof.
  intros Hs. rewrite Z.shiftl_mul_pow2 by lia.
  rewrite (land_mask s0 5) by (vm_compute; congruence).
  change (2 ^ 5) with 32. change (2 ^ 6) with 64.
  Z.div_mod_to_equations. lia.
Qed.

Lemma three_byte_lower s0 s1 :
  224 <= s0 < 240 -> 128 <= s1 <= 191 -> (s0 = 224 -> 160 <= s1) ->
  128 <= Z.lor (Z.shiftl (Z.land s0 15) 12) (Z.shiftl (Z.land s1 63) 6).
Proof.
  intros Hs0 Hs1 Hlo. rewrite !Z.shiftl_mul_pow2 by lia.
  rewrite (land_mask s0 4), (land_mask s1 6) by (vm_compute; congruence).
  change (2 ^ 4) with 16. change (2 ^ 6) with 64. change (2 ^ 12) with 4096.
  set (a := s0 mod 16 * 4096). set (b := s1 mod 64 * 64).
  assert (Ha : 0 <= a) by (subst a; Z.div_mod_to_equations; lia).
  assert (Hb : 0 <= b) by (subst b; Z.div_mod_to_equations; lia).
  destruct (lor_bounds a b Ha Hb) as [La Lb].
  destruct (Z.eq_dec s0 224) as [E|E].
  - assert (128 <= b) by (subst b; specialize (Hlo E); Z.div_mod_to_equations; lia).
    lia.
  - assert (128 <= a) by (subst a; Z.div_mod_to_equations; lia).
    lia.
Qed.

Lemma four_byte_lower s0 s1 :
  240 <= s0 < 245 -> 128 <= s1 <= 191 -> (s0 = 240 -> 144 <= s1) ->
  128 <= Z.lor (Z.shiftl (Z.land s0 7) 18) (Z.shiftl (Z.land s1 63) 12).
Proof.
  intros Hs0 Hs1 Hlo. rewrite !Z.shiftl_mul_pow2 by lia.
  rewrite (land_mask s0 3), (land_mask s1 6) by (vm_compute; congruence).
  change (2 ^ 3) with 8. change (2 ^ 6) with 64.
  change (2 ^ 12) with 4096. change (2 ^ 18) with 262144.
  set (a := s0 mod 8 * 262144). set (b := s1 mod 64 * 4096).
  assert (Ha : 0 <= a) by (subst a; Z.div_mod_to_equations; lia).
  assert (Hb : 0 <= b) by (subst b; Z.div_mod_to_equations; lia).
  destruct (lor_bounds a b Ha Hb) as [La Lb].
  destruct (Z.eq_dec s0 240) as [E|E].
  - assert (128 <= b) by (subst b; specialize (Hlo E); Z.div_mod_to_equations; lia).
    lia.
  - assert (128 <= a) by (subst a; Z.div_mod_to_equations; lia).
    lia.
Qed.

Lemma lor_keeps_lower a b c : c <= a -> 0 <= a -> 0 <= b -> c <= Z.lor a b.
Proof. intros Hc Ha Hb. pose proof (lor_lower a b Ha Hb). lia. Qed.

Lemma tail_nonneg x k : 0 <= k -> 0 <= Z.shiftl (Z.land x 63) k.
Proof.
  intros Hk. apply Z.shiftl_nonneg. apply Z.land_nonneg. right. lia.
Qed.

(** A byte of 128 or more never starts an ASCII rune: whatever follows, the
    loop sees a rune above [MaxASCII] and advances. *)
Lemma DecodeRune_high s0 t :
  128 <= s0 ->
  127 < fst (utf8.DecodeRune (s0 :: t)) /\ (1 <= snd (utf8.DecodeRune (s0 :: t)))%nat.
Proof.
  intros Hs. unfold utf8.DecodeRune, utf8.RuneSelf.
  destruct (Z.ltb_spec s0 128) as [|_]; [lia|].
  assert (Herr : 127 < utf8.RuneError) by (unfold utf8.RuneError; lia).
  assert (H63 : forall x, 0 <= Z.land x 63)
    by (intros x; apply Z.land_nonneg; right; lia).
  destruct (utf8.lead s0) as [[[sz lo] hi]|] eqn:Hlead; [|simpl; lia].
  apply lead_cases in Hlead as (Hlo & Hhi & Hsz).
  destruct (length (s0 :: t) <? sz)%nat; [simpl; lia|].
  destruct t as [|s1 t1]; [simpl; lia|].
  destruct (Z.ltb_spec s1 lo) as [|Hs1lo]; [simpl; lia|].
  destruct (Z.ltb_spec hi s1) as [|Hs1hi]; [simpl; lia|].
  cbn [orb].
  destruct Hsz as [[-> Hs0]|[(-> & Hs0 & Hfirst)|(-> & Hs0 & Hfirst)]]; cbn [Nat.leb].
  - cbn [fst snd]. split; [|lia].
    pose proof (two_byte_lower s0 Hs0).
    pose proof (lor_lower (Z.shiftl (Z.land s0 31) 6) (Z.land s1 63)
                  ltac:(lia) (H63 s1)).
    lia.
  - destruct t1 as [|s2 t2]; [simpl; lia|].
    destruct (utf8.cont s2); cbn [negb]; [|simpl; lia].
    cbn [fst snd]. split; [|lia].
    pose proof (three_byte_lower s0 s1 Hs0 ltac:(lia) ltac:(lia)).
    apply Z.lt_le_trans with 128; [lia|].
    apply lor_keeps_lower; [assumption|lia|apply H63].
  - destruct t1 as [|s2 t2]; [simpl; lia|].
    destruct (utf8.cont s2); cbn [negb]; [|simpl; lia].
    destruct t2 as [|s3 t3]; [simpl; lia|].
    destruct (utf8.cont s3); cbn [negb]; [|simpl; lia].
    cbn [fst snd]. split; [|lia].
    pose proof (four_byte_lower s0 s1 Hs0 ltac:(lia) ltac:(lia)).
    apply Z.lt_le_trans with 128; [lia|].
    apply lor_keeps_lower; [| |apply H63].
    + apply lor_keeps_lower; [assumption|lia|apply tail_nonneg; lia].
    + apply Z.lor_nonneg. split; [lia|apply tail_nonneg; lia].
Qed.

Section WithTables.

Context `{unicode.Tables}.

(** On a rune that [range] can yield, the test of the loop is the negation
    of the spec's character class; the range tables above Latin-1 are never
    consulted for a rune within ASCII. *)
Lemma test_is_not_legal r :
  0 <= r ->
  (unicode.MaxASCII <? r)
  || negb (unicode.IsLetter r || unicode.IsNumber r || (r =? 32))
  = negb (legalChar r).
Proof.
  intros Hr. unfold legalChar, unicode.MaxASCII.
  destruct (Z.ltb_spec 127 r) as [Hhi|Hlo].
  - destruct (Z.leb_spec r 127); [lia|].
    now rewrite andb_false_r.
  - unfold unicode.IsLetter, unicode.IsNumber, unicode.MaxLatin1,
      unicode.latin1Letter, unicode.latin1Number, asciiLetter, asciiDigit.
    repeat match goal with
    | |- context [Z.leb ?a ?b] => destruct (Z.leb_spec a b); try lia
    | |- context [Z.eqb ?a ?b] => destruct (Z.eqb_spec a b); try lia
    end; reflexivity.
Qed.

Lemma checkRunes_cases rs :
  subnetcmd.checkRunes rs = None
  \/ subnetcmd.checkRunes rs = Some errIllegalNameCharacter.
Proof.
  induction rs as [|r rs IH]; simpl; [now left|].
  destruct (_ || _); [now right|exact IH].
Qed.

Lemma checkRunes_None rs :
  Forall (fun r => 0 <= r) rs ->
  subnetcmd.checkRunes rs = None <-> Forall (fun r => legalChar r = true) rs.
Proof.
  induction 1 as [|r rs Hr _ IH]; simpl.
  - split; [constructor|reflexivity].
  - rewrite (test_is_not_legal r Hr).
    destruct (legalChar r) eqn:E; simpl.
    + rewrite IH. split; [now constructor|now inversion 1].
    + split; [discriminate|]. inversion 1; congruence.
Qed.

Lemma checkRunes_Some rs :
  Forall (fun r => 0 <= r) rs ->
  subnetcmd.checkRunes rs = Some errIllegalNameCharacter
  <-> Exists (fun r => legalChar r = false) rs.
Proof.
  induction 1 as [|r rs Hr _ IH]; simpl.
  - split; [discriminate|inversion 1].
  - rewrite (test_is_not_legal r Hr).
    destruct (legalChar r) eqn:E; simpl.
    + rewrite IH. split; [now right|].
      inversion 1; [congruence|assumption].
    + split; [now left|reflexivity].
Qed.

End WithTables.

Lemma bytes_range s : Forall (fun b => 0 <= b < 256) (strings.bytes s).
Proof.
  induction s as [|c s IH]; simpl; constructor; [apply byte_range|exact IH].
Qed.

Lemma DecodeRune_nonneg s0 t :
  0 <= s0 -> 0 <= fst (utf8.DecodeRune (s0 :: t)).
Proof.
  intros Hs. destruct (Z.lt_ge_cases s0 128) as [Hlt|Hge].
  - rewrite DecodeRune_ascii by assumption. exact Hs.
  - pose proof (DecodeRune_high s0 t Hge). lia.
Qed.

Lemma range_fuel_nonneg fuel s :
  Forall (fun b => 0 <= b < 256) s ->
  Forall (fun r => 0 <= r) (utf8.range_fuel fuel s).
Proof.
  revert s. induction fuel as [|fuel IH]; intros s Hs; simpl; [constructor|].
  destruct s as [|s0 t]; [constructor|].
  destruct (utf8.DecodeRune (s0 :: t)) as [r sz] eqn:E.
  constructor.
  - change r with (fst (r, sz)). rewrite <- E.
    apply DecodeRune_nonneg. inversion Hs; lia.
  - apply IH. apply Forall_drop. exact Hs.
Qed.

(** A string of ASCII bytes is visited byte by byte. *)
Lemma range_fuel_ascii fuel s :
  (length s <= fuel)%nat ->
  Forall (fun b => b < 128) s ->
  utf8.range_fuel fuel s = s.
Proof.
  revert s. induction fuel as [|fuel IH]; intros s Hlen Hs.
  - destruct s; [reflexivity|simpl in Hlen; lia].
  - destruct s as [|s0 t]; [reflexivity|].
    inversion Hs as [|? ? H0 Ht]; subst.
    cbn [utf8.range_fuel]. rewrite (DecodeRune_ascii s0 t H0).
    cbn [drop]. f_equal. apply IH; [simpl in Hlen; lia|exact Ht].
Qed.

Lemma legalChar_ascii b : legalChar b = true -> b < 128.
Proof.
  unfold legalChar. intros Hb.
  apply andb_true_iff in Hb as [Hb _]. apply andb_true_iff in Hb as [_ Hb].
  apply Z.leb_le in Hb. lia.
Qed.

Section Bytes.

Context `{unicode.Tables}.

(** If the loop finds nothing to object to, every byte of the input is a
    legal character. *)
Lemma range_fuel_accepts fuel s :
  Forall (fun b => 0 <= b < 256) s ->
  (length s <= fuel)%nat ->
  subnetcmd.checkRunes (utf8.range_fuel fuel s) = None ->
  Forall (fun b => legalChar b = true) s.
Proof.
  revert s. induction fuel as [|fuel IH]; intros s Hs Hlen Hnone.
  - destruct s; [constructor|simpl in Hlen; lia].
  - destruct s as [|s0 t]; [constructor|].
    inversion Hs as [|? ? H0 Ht]; subst.
    cbn [utf8.range_fuel] in Hnone.
    destruct (Z.lt_ge_cases s0 128) as [Hlt|Hge].
    + rewrite (DecodeRune_ascii s0 t Hlt) in Hnone.
      cbn [drop subnetcmd.checkRunes] in Hnone.
      rewrite (test_is_not_legal s0) in Hnone by lia.
      destruct (legalChar s0) eqn:E; [|discriminate].
      constructor; [exact E|].
      apply IH; [exact Ht|simpl in Hlen; lia|exact Hnone].
    + pose proof (DecodeRune_high s0 t Hge) as [Hr _].
      destruct (utf8.DecodeRune (s0 :: t)) as [r sz].
      cbn [fst] in Hr. cbn [subnetcmd.checkRunes] in Hnone.
      rewrite (test_is_not_legal r) in Hnone by lia.
      assert (E : legalChar r = false).
      { unfold legalChar. destruct (Z.leb_spec r 127); [lia|].
        now rewrite andb_false_r. }
      rewrite E in Hnone. discriminate.
Qed.

End Bytes.

End NameCheck.

(** ** C3 *)

Section C3.

Context `{unicode.Tables}.

(** C3.  The name check returns either no error or the invalid-name error;
    it returns the invalid-name error exactly when some character of the
    name (a rune of its UTF-8 decoding) is non-ASCII or is not an ASCII
    letter, an ASCII digit or a space; and it succeeds exactly when every
    byte of the name is an ASCII letter, an ASCII digit or a space. *)
Theorem checkInvalidSubnetNames_legal_iff (name : string) :
  (subnetcmd.checkInvalidSubnetNames name = None
   \/ subnetcmd.checkInvalidSubnetNames name = Some errIllegalNameCharacter)
  /\ (subnetcmd.checkInvalidSubnetNames name = Some errIllegalNameCharacter
      <-> Exists (fun r => Spec.legalChar r = false) (utf8.runes name))
  /\ (subnetcmd.checkInvalidSubnetNames name = None
      <-> Forall (fun b => Spec.legalChar b = true) (strings.bytes name)).
Proof.
  unfold subnetcmd.checkInvalidSubnetNames, utf8.runes.
  pose proof (NameCheck.bytes_range name) as Hb.
  split; [apply NameCheck.checkRunes_cases|]. split.
  - apply NameCheck.checkRunes_Some, NameCheck.range_fuel_nonneg, Hb.
  - split.
    + apply NameCheck.range_fuel_accepts; [exact Hb|lia].
    + intros Hall.
      rewrite NameCheck.range_fuel_ascii.
      * apply NameCheck.checkRunes_None; [|exact Hall].
        eapply Forall_impl; [exact Hb|]. simpl. intros; lia.
      * lia.
      * eapply Forall_impl; [exact Hall|].
        intros b. apply NameCheck.legalChar_ascii.
Qed.

End C3.

(** ** Reasoning about runs *)

Module Run.

Export Outcomes.

#[global] Arguments time.Parse : simpl never.
#[global] Arguments time.Format : simpl never.

Lemma bind_run {A B : Type} (m : M A) (f : A -> M B) (w : World) :
  (m ≫= f) w =
  match m w with
  | (Ok a, w') => f a w'
  | (Err e, w') => (Err e, w')
  end.
Proof. reflexivity. Qed.

Section Rules.

Context {A B : Type}.

Lemma errs_weaken (P Q : error -> Prop) (m : M A) :
  (forall e, P e -> Q e) -> errs P m -> errs Q m.
Proof. intros HPQ Hm w e He. apply HPQ, (Hm w e He). Qed.

Lemma errs_ret P (a : A) : errs P (mret a).
Proof. intros w e He. discriminate He. Qed.

Lemma errs_fail (P : error -> Prop) e : P e -> errs P (@fail A e).
Proof. intros HP w e' He. simpl in He. congruence. Qed.

Lemma errs_bind P (m : M A) (f : A -> M B) :
  errs P m -> (forall a, errs P (f a)) -> errs P (m ≫= f).
Proof.
  intros Hm Hf w e. rewrite bind_run.
  specialize (Hm w). destruct (m w) as [[a|e'] w'].
  - apply Hf.
  - simpl. intros [= <-]. now apply Hm.
Qed.

Lemma errs_try P (m : M A) : errs P (try m).
Proof.
  intros w e. unfold try. destruct (m w). discriminate.
Qed.

Lemma errs_try_bind P (m : M A) (k : Result A -> M B) :
  errs P m ->
  (forall a, errs P (k (Ok a))) ->
  (forall e, P e -> errs P (k (Err e))) ->
  errs P (try m ≫= k).
Proof.
  intros Hm Hok Herr w e. rewrite bind_run. unfold try.
  specialize (Hm w). destruct (m w) as [[a|e'] w']; cbn in *.
  - apply Hok.
  - apply Herr. now apply Hm.
Qed.

Lemma errs_result_of P (o : Outcome A) :
  (forall what, P (errCollaborator what)) -> errs P (lift (result_of o)).
Proof.
  intros HP w e. destruct o; simpl; [discriminate|]. intros [= <-]. apply HP.
Qed.

Lemma keeps_ret {X} (g : World -> X) (a : A) : keeps g (mret a).
Proof. intros w. reflexivity. Qed.

Lemma keeps_fail {X} (g : World -> X) e : keeps g (@fail A e).
Proof. intros w. reflexivity. Qed.

Lemma keeps_lift {X} (g : World -> X) (r : Result A) : keeps g (lift r).
Proof. intros w. reflexivity. Qed.

Lemma keeps_bind {X} (g : World -> X) (m : M A) (f : A -> M B) :
  keeps g m -> (forall a, keeps g (f a)) -> keeps g (m ≫= f).
Proof.
  intros Hm Hf w. rewrite bind_run.
  specialize (Hm w). destruct (m w) as [[a|e'] w']; simpl in *.
  - rewrite Hf. exact Hm.
  - exact Hm.
Qed.

Lemma keeps_try {X} (g : World -> X) (m : M A) : keeps g m -> keeps g (try m).
Proof.
  intros Hm w. unfold try. specialize (Hm w). destruct (m w). exact Hm.
Qed.

End Rules.

(** The primitives fail with errors of the collaborators only, and none of
    them writes a file. *)

Create HintDb run.

Lemma errs_getVars P : errs P getVars.
Proof. intros w e He. discriminate He. Qed.

Lemma errs_setVars P v : errs P (setVars v).
Proof. intros w e He. discriminate He. Qed.

Lemma errs_getDisk P : errs P getDisk.
Proof. intros w e He. discriminate He. Qed.

Lemma errs_Now P : errs P Now.
Proof. intros w e He. discriminate He. Qed.

Lemma errs_show P o : errs P (show o).
Proof. intros w e He. discriminate He. Qed.

Lemma errs_answer : errs collab answer.
Proof.
  intros w e. unfold answer. destruct (script w); simpl; [|discriminate].
  intros [= <-]. now eexists.
Qed.

Lemma collab_mismatch : collab mismatch.
Proof. now eexists. Qed.

Lemma collab_intro what : collab (errCollaborator what).
Proof. now eexists. Qed.

#[export] Hint Resolve errs_ret errs_getVars errs_setVars errs_getDisk errs_Now
  errs_show errs_answer errs_try collab_mismatch collab_intro : run.

(** One step through the text of a command. *)
Ltac errs_step :=
  lazymatch goal with
  | |- errs _ (mret _) => apply errs_ret
  | |- errs _ (fail _) => apply errs_fail
  | |- errs _ (try _ ≫= _) => apply errs_try_bind; [|intros ?|intros ? ?]
  | |- errs _ (_ ≫= _) => apply errs_bind; [|intros ?]
  | |- errs _ (try _) => apply errs_try
  | |- errs _ (if ?b then _ else _) => destruct b
  | |- errs _ (match ?x with _ => _ end) => destruct x
  end.

Ltac errs_leaf :=
  first
    [ assumption
    | solve [eauto with run]
    | solve [eapply errs_weaken; [|solve [eauto with run]];
             cbv beta; intros; intuition (eauto with run)] ].

Ltac errs_walk := repeat (errs_step; try errs_leaf).

Lemma errs_set_keyName P k : errs P (set_keyName k).
Proof. unfold set_keyName. errs_walk. Qed.

Lemma errs_set_duration P d : errs P (set_duration d).
Proof. unfold set_duration. errs_walk. Qed.

Lemma errs_PrintToUser P line : errs P (PrintToUser line).
Proof. apply errs_show. Qed.

#[export] Hint Resolve errs_set_keyName errs_set_duration errs_PrintToUser : run.

Lemma errs_CaptureList text options : errs collab (Prompt.CaptureList text options).
Proof. unfold Prompt.CaptureList. errs_walk. Qed.

Lemma errs_CaptureDuration text : errs collab (Prompt.CaptureDuration text).
Proof. unfold Prompt.CaptureDuration. errs_walk. Qed.

Lemma errs_CaptureYesNo text : errs collab (Prompt.CaptureYesNo text).
Proof. unfold Prompt.CaptureYesNo. errs_walk. Qed.

Lemma errs_CaptureDate text : errs collab (Prompt.CaptureDate text).
Proof. unfold Prompt.CaptureDate. errs_walk. Qed.

Lemma errs_CaptureNodeID text : errs collab (Prompt.CaptureNodeID text).
Proof. unfold Prompt.CaptureNodeID. errs_walk. Qed.

Lemma errs_CaptureWeight text : errs collab (Prompt.CaptureWeight text).
Proof. unfold Prompt.CaptureWeight. errs_walk. Qed.

Lemma errs_ReadKeyDir : errs collab app.ReadKeyDir.
Proof. unfold app.ReadKeyDir. errs_walk. Qed.

Lemma errs_LoadSidecar name : errs collab (app.LoadSidecar name).
Proof. unfold app.LoadSidecar. errs_walk. Qed.

Lemma errs_GetCurrentValidators uri : errs collab (platformvm.GetCurrentValidators uri).
Proof.
  intros w e. unfold platformvm.GetCurrentValidators. simpl.
  destruct (currentValidators w uri); simpl; [discriminate|].
  intros [= <-]. now eexists.
Qed.

Lemma errs_AddValidator tx : errs collab (subnet.AddValidator tx).
Proof.
  intros w e. unfold subnet.AddValidator.
  destruct (submission w tx); simpl; [|discriminate].
  intros [= <-]. now eexists.
Qed.

#[export] Hint Resolve errs_CaptureList errs_CaptureDuration errs_CaptureYesNo
  errs_CaptureDate errs_CaptureNodeID errs_CaptureWeight errs_ReadKeyDir
  errs_LoadSidecar errs_GetCurrentValidators errs_AddValidator : run.

End Run.

(** ** The confirmation loop of the custom duration *)

Module Loop.

Import Run Spec.
Export Transcript.

Lemma after_after w r1 o1 r2 o2 :
  after (after w r1 o1) r2 o2 = after w r2 (o2 ++ o1)%list.
Proof. unfold after. simpl. now rewrite app_assoc. Qed.

Lemma round_rejected fuel start w d rest :
  script w = ADuration d :: AYesNo false :: rest ->
  subnetcmd.promptDuration_fuel (S fuel) start w
  = subnetcmd.promptDuration_fuel fuel start (after w rest (cycleShown start d)).
Proof.
  intros Hs. cbn [subnetcmd.promptDuration_fuel].
  unfold Prompt.CaptureDuration, Prompt.CaptureYesNo.
  rewrite !bind_run. unfold show at 1. unfold answer at 1. cbn [script].
  rewrite Hs. rewrite !bind_run. reflexivity.
Qed.

Lemma round_confirmed fuel start w d rest :
  script w = ADuration d :: AYesNo true :: rest ->
  subnetcmd.promptDuration_fuel (S fuel) start w
  = (Ok d, after w rest (cycleShown start d)).
Proof.
  intros Hs. cbn [subnetcmd.promptDuration_fuel].
  unfold Prompt.CaptureDuration, Prompt.CaptureYesNo.
  rewrite !bind_run. unfold show at 1. unfold answer at 1. cbn [script].
  rewrite Hs. rewrite !bind_run. reflexivity.
Qed.

Lemma cyclesShown_after w rest outs :
  cyclesShown (after w rest outs)
  = (length (List.filter isDurationPrompt outs) + cyclesShown w)%nat.
Proof.
  unfold cyclesShown, after. cbn [shown].
  now rewrite List.filter_app, length_app.
Qed.

Lemma rejectedShown_count start ds :
  length (List.filter isDurationPrompt (rejectedShown start ds))
  = length ds.
Proof.
  induction ds as [|d ds IH]; [reflexivity|].
  cbn [rejectedShown]. rewrite List.filter_app, length_app, IH.
  cbn. lia.
Qed.

(** With fuel for every cycle, the loop runs through the rejected candidates
    and returns the confirmed one. *)
Lemma loop_confirmed start ds : forall fuel w d rest,
  (length ds < fuel)%nat ->
  script w = (rejections ds ++ cycle d true ++ rest)%list ->
  subnetcmd.promptDuration_fuel fuel start w
  = (Ok d, after w rest (cycleShown start d ++ rejectedShown start ds)%list).
Proof.
  induction ds as [|d0 ds IH]; intros fuel w d rest Hfuel Hs.
  - destruct fuel as [|fuel]; [simpl in Hfuel; lia|].
    rewrite (round_confirmed fuel start w d rest Hs).
    cbn [rejectedShown]. now rewrite app_nil_r.
  - destruct fuel as [|fuel]; [simpl in Hfuel; lia|].
    rewrite (round_rejected fuel start w d0 (rejections ds ++ cycle d true ++ rest)%list Hs).
    rewrite (IH fuel _ d rest); [|simpl in Hfuel; lia|reflexivity].
    rewrite after_after. cbn [rejectedShown]. now rewrite app_assoc.
Qed.

(** One cycle either confirms, or rejects, or fails at a prompt. *)
Lemma round_cases fuel start w :
  (exists d rest, script w = ADuration d :: AYesNo true :: rest)
  \/ (exists d rest, script w = ADuration d :: AYesNo false :: rest)
  \/ (exists e w', collab e
        /\ subnetcmd.promptDuration_fuel (S fuel) start w = (Err e, w')).
Proof.
  destruct (script w) as [|a rest] eqn:Hs.
  { right; right. cbn [subnetcmd.promptDuration_fuel].
    unfold Prompt.CaptureDuration. rewrite !bind_run.
    unfold show at 1, answer at 1. cbn [script]. rewrite Hs.
    eexists _, _. split; [|reflexivity]. apply collab_intro. }
  destruct a as [c|d|b|t|n|x|what];
    [right; right| |right; right|right; right|right; right|right; right|right; right];
    try (cbn [subnetcmd.promptDuration_fuel];
         unfold Prompt.CaptureDuration; rewrite !bind_run;
         unfold show at 1, answer at 1; cbn [script]; rewrite Hs;
         eexists _, _; split; [|reflexivity]; eauto with run).
  destruct rest as [|a rest'].
  { right; right. cbn [subnetcmd.promptDuration_fuel].
    unfold Prompt.CaptureDuration, Prompt.CaptureYesNo. rewrite !bind_run.
    unfold show at 1, answer at 1. cbn [script]. rewrite Hs.
    eexists _, _. split; [|reflexivity]. apply collab_intro. }
  destruct a as [c|d'|b|t|n|x|what];
    try (right; right; cbn [subnetcmd.promptDuration_fuel];
         unfold Prompt.CaptureDuration, Prompt.CaptureYesNo; rewrite !bind_run;
         unfold show at 1, answer at 1; cbn [script]; rewrite Hs;
         eexists _, _; split; [|reflexivity]; eauto with run).
  destruct b; [left|right; left]; eauto.
Qed.

(** The fuel that [promptDuration] takes from the script is never used up. *)
Lemma loop_never_starves start : forall fuel w,
  (length (script w) < fuel)%nat ->
  fst (subnetcmd.promptDuration_fuel fuel start w) <> Err outOfFuel.
Proof.
  induction fuel as [|fuel IH]; intros w Hlen; [lia|].
  destruct (round_cases fuel start w)
    as [(d & rest & Hs)|[(d & rest & Hs)|(e & w' & [what ->] & ->)]].
  - rewrite (round_confirmed _ _ _ _ _ Hs). discriminate.
  - rewrite (round_rejected _ _ _ _ _ Hs). apply IH.
    rewrite Hs in Hlen. cbn in Hlen |- *. lia.
  - discriminate.
Qed.

(** Whatever the loop returns was entered in a cycle that the operator
    confirmed, after cycles that were all rejected. *)
Lemma loop_returns start : forall fuel w d w',
  subnetcmd.promptDuration_fuel fuel start w = (Ok d, w') ->
  exists ds,
    script w = (rejections ds ++ cycle d true ++ script w')%list
    /\ w' = after w (script w') (cycleShown start d ++ rejectedShown start ds)%list.
Proof.
  induction fuel as [|fuel IH]; intros w d w' Hrun; [discriminate|].
  destruct (round_cases fuel start w)
    as [(d0 & rest & Hs)|[(d0 & rest & Hs)|(e & w0 & _ & Hfail)]].
  - rewrite (round_confirmed _ _ _ _ _ Hs) in Hrun.
    injection Hrun as <- <-. exists []. cbn [script after].
    split; [exact Hs|]. cbn [rejectedShown]. now rewrite app_nil_r.
  - rewrite (round_rejected _ _ _ _ _ Hs) in Hrun.
    apply IH in Hrun as (ds & Hscript & Hw').
    exists (d0 :: ds). cbn [after script] in Hscript. split.
    + rewrite Hs. unfold rejections. cbn [map concat cycle app].
      do 2 f_equal. exact Hscript.
    + rewrite Hw' at 1. rewrite after_after. cbn [rejectedShown].
      now rewrite app_assoc.
  - congruence.
Qed.

End Loop.

(** ** C6 *)

Section C6.

(** C6.  When the operator's answers to the custom-duration prompt are a
    run of rejected candidates followed by a confirmed one, the loop returns
    the candidate of the confirmed cycle, consumes exactly these answers and
    has begun one prompt cycle per answer given to the confirmation.
    Conversely, whatever the loop returns is the candidate of a confirmed
    cycle that came after rejected cycles only: a rejected candidate is
    never what a cycle returns. *)
Theorem promptDuration_confirmation_loop (start : time.Time) (w : World) :
  (forall (ds : list time.Duration) (d : time.Duration) (rest : list Answer),
      script w = (Spec.rejections ds ++ Spec.cycle d true ++ rest)%list ->
      exists w',
        subnetcmd.promptDuration start w = (Ok d, w')
        /\ script w' = rest
        /\ Spec.cyclesShown w' = (Spec.cyclesShown w + (length ds + 1))%nat)
  /\ (forall (d : time.Duration) (w' : World),
      subnetcmd.promptDuration start w = (Ok d, w') ->
      exists ds,
        script w = (Spec.rejections ds ++ Spec.cycle d true ++ script w')%list
        /\ Spec.cyclesShown w' = (Spec.cyclesShown w + (length ds + 1))%nat).
Proof.
  assert (Hcount : forall ds d rest,
    Spec.cyclesShown
      (Transcript.after w rest (Transcript.cycleShown start d ++ Transcript.rejectedShown start ds)%list)
    = (Spec.cyclesShown w + (length ds + 1))%nat).
  { intros ds d rest. rewrite Loop.cyclesShown_after.
    rewrite List.filter_app, length_app, Loop.rejectedShown_count. cbn. lia. }
  split.
  - intros ds d rest Hs. eexists. unfold subnetcmd.promptDuration.
    rewrite (Loop.loop_confirmed start ds _ w d rest); [| |exact Hs].
    + split; [reflexivity|]. split; [reflexivity|]. apply Hcount.
    + rewrite Hs. rewrite !length_app. cbn.
      unfold Spec.rejections.
      assert (length ds <= length (concat (map (fun d0 => Spec.cycle d0 false) ds)))%nat.
      { clear. induction ds as [|x ds IH]; cbn; lia. }
      lia.
  - intros d w' Hrun. unfold subnetcmd.promptDuration in Hrun.
    apply Loop.loop_returns in Hrun as (ds & Hs & Hw').
    exists ds. split; [exact Hs|]. rewrite Hw'. apply Hcount.
Qed.

(** The spec's example: the operator rejects two candidates and confirms
    the third. *)
Lemma promptDuration_confirmation_loop_witness :
  let w := Demo.world (Demo.started EmptyString EmptyString 0 EmptyString 0)
             [ADuration (1 * time.Hour); AYesNo false;
              ADuration (2 * time.Hour); AYesNo false;
              ADuration (3 * time.Hour); AYesNo true;
              AList "left for later"]
             Demo.newYear Demo.validatorSet in
  exists w',
    subnetcmd.promptDuration Demo.newYear w = (Ok (3 * time.Hour), w')
    /\ script w' = [AList "left for later"]
    /\ Spec.cyclesShown w' = 3%nat.
Proof.
  intros w.
  destruct (proj1 (promptDuration_confirmation_loop Demo.newYear w)
              [1 * time.Hour; 2 * time.Hour] (3 * time.Hour)
              [AList "left for later"] eq_refl)
    as (w' & Hrun & Hrest & Hcount).
  exists w'. split; [exact Hrun|]. split; [exact Hrest|exact Hcount].
Defined.

End C6.

(** ** The errors of the commands *)

Module Errors.

Import Run.

Lemma errs_promptDuration_fuel start : forall fuel w e,
  (length (script w) < fuel)%nat ->
  fst (subnetcmd.promptDuration_fuel fuel start w) = Err e -> collab e.
Proof.
  induction fuel as [|fuel IH]; intros w e Hlen; [lia|].
  destruct (Loop.round_cases fuel start w)
    as [(d & rest & Hs)|[(d & rest & Hs)|(e' & w' & Hc & ->)]].
  - rewrite (Loop.round_confirmed _ _ _ _ _ Hs). discriminate.
  - rewrite (Loop.round_rejected _ _ _ _ _ Hs). apply IH.
    rewrite Hs in Hlen. cbn in Hlen |- *. lia.
  - cbn. intros [= <-]. exact Hc.
Qed.

Lemma errs_promptDuration start : errs collab (subnetcmd.promptDuration start).
Proof.
  intros w e. unfold subnetcmd.promptDuration.
  apply errs_promptDuration_fuel. lia.
Qed.

Section WithSetting.

Context `{constants.Values} `{Collaborators}.

Lemma errs_promptWeight : errs collab subnetcmd.promptWeight.
Proof. unfold subnetcmd.promptWeight. cbv zeta. errs_walk. Qed.

Lemma errs_promptStart : errs collab subnetcmd.promptStart.
Proof. unfold subnetcmd.promptStart. eauto with run. Qed.

Lemma errs_promptNodeID : errs collab subnetcmd.promptNodeID.
Proof. unfold subnetcmd.promptNodeID. eauto with run. Qed.

Lemma errs_findValidator vs nodeID start e :
  subnetcmd.findValidator vs nodeID start = Err e -> e = errNodeNotFound nodeID.
Proof.
  induction vs as [|v vs IH]; cbn.
  - now intros [= <-].
  - destruct (String.eqb _ _); [discriminate|exact IH].
Qed.

Lemma errs_getMaxValidationTime network nodeID start :
  errs (fun e => collab e \/ e = errNodeNotFound nodeID)
       (subnetcmd.getMaxValidationTime network nodeID start).
Proof.
  unfold subnetcmd.getMaxValidationTime. cbv zeta.
  apply errs_bind.
  - eapply errs_weaken; [|apply errs_GetCurrentValidators]. now left.
  - intros vs w e He. right. cbn in He.
    eapply errs_findValidator, He.
Qed.

Lemma errs_assign_duration P m :
  errs P m -> errs P (subnetcmd.assign_duration m).
Proof.
  intros Hm w e. unfold subnetcmd.assign_duration, try.
  rewrite bind_run. specialize (Hm w).
  destruct (m w) as [[d|e'] w']; cbn.
  - discriminate.
  - intros [= <-]. now apply Hm.
Qed.

#[local] Hint Resolve errs_promptWeight errs_promptStart errs_promptNodeID
  errs_promptDuration : run.

Lemma errs_resolveStart : errs ofStart subnetcmd.resolveStart.
Proof.
  unfold subnetcmd.resolveStart, ofStart. cbv zeta. errs_walk.
Qed.

Lemma errs_resolveDuration network nodeID start :
  errs (ofDuration nodeID) (subnetcmd.resolveDuration network nodeID start).
Proof.
  unfold subnetcmd.resolveDuration, ofDuration. cbv zeta. errs_walk.
  - apply errs_assign_duration, errs_getMaxValidationTime.
  - apply errs_assign_duration.
    eapply errs_weaken; [|apply errs_promptDuration]. now left.
Qed.

Lemma errs_getTimeParameters network nodeID :
  errs (ofTime nodeID) (subnetcmd.getTimeParameters network nodeID).
Proof.
  unfold subnetcmd.getTimeParameters.
  apply errs_bind; [|intros start; apply errs_bind; [|intros d; apply errs_ret]].
  - eapply errs_weaken; [|apply errs_resolveStart].
    unfold ofStart, ofTime. tauto.
  - eapply errs_weaken; [|apply errs_resolveDuration].
    unfold ofDuration, ofTime. tauto.
Qed.

Lemma errs_captureKeyName : errs collab subnetcmd.captureKeyName.
Proof.
  unfold subnetcmd.captureKeyName. cbv zeta.
  apply errs_bind; [eauto with run|]. intros files.
  intros w e. unfold try. rewrite bind_run.
  pose proof (errs_CaptureList
    "Which private key should be used to issue the transaction?"
    (map (fun f => if strings.HasSuffix f constants.KeySuffix
                   then strings.TrimSuffix f constants.KeySuffix else EmptyString) files) w) as Hc.
  destruct (Prompt.CaptureList _ _ w) as [[k|e'] w']; cbn.
  - discriminate.
  - intros [= <-]. now apply Hc.
Qed.

Lemma resolveWeight_zero : subnetcmd.resolveWeight 0 = subnetcmd.promptWeight.
Proof. reflexivity. Qed.

Lemma errs_resolveWeight weight :
  errs (fun e => collab e
                 \/ (e = errIllegalWeight weight /\ weight <> 0
                     /\ (weight < constants.MinStakeWeight
                         \/ constants.MaxStakeWeight < weight)))
       (subnetcmd.resolveWeight weight).
Proof.
  unfold subnetcmd.resolveWeight.
  destruct (Z.eqb_spec weight 0) as [|Hnz].
  - eapply errs_weaken; [|apply errs_promptWeight]. now left.
  - destruct (Z.ltb_spec weight constants.MinStakeWeight);
      destruct (Z.ltb_spec constants.MaxStakeWeight weight); cbn [orb];
      solve [apply errs_ret | apply errs_fail; right; repeat split; auto].
Qed.

#[local] Hint Resolve errs_captureKeyName : run.

(** The errors of the command: the recognised failures of the workflow and
    what the collaborators hand back.  The error of an illegal weight is not
    among them. *)
Lemma errs_addValidator args : errs ofCommand (subnetcmd.addValidator args).
Proof.
  unfold subnetcmd.addValidator, ofCommand. cbv zeta.
  rewrite resolveWeight_zero.
  errs_walk.
  - apply errs_result_of. intros what. left. apply collab_intro.
  - tauto.
  - tauto.
  - do 3 right. left. now eexists.
  - eapply errs_weaken; [|apply errs_getTimeParameters].
    unfold ofTime. intros e [?|[?|[?|?]]]; eauto 6.
Qed.

End WithSetting.

End Errors.

(** ** The stake weight: the invalid-weight error *)

Section Weight.

Context `{constants.Values} `{Collaborators}.

(** Whatever the weight flag holds, the command never ends with the
    invalid-weight error: the variable that the check tests is the local
    [weight] that [addValidator] declares, which is zero when the check
    runs. *)
Lemma addValidator_never_illegal_weight (args : list string) (w : World) x :
  fst (subnetcmd.addValidator args w) <> Err (errIllegalWeight x).
Proof.
  intros Hx.
  destruct (Errors.errs_addValidator args w _ Hx)
    as [[what E]|[E|[[n E]|[[s E]|[E|E]]]]]; discriminate E.
Qed.

End Weight.

(** ** What a run leaves untouched *)

Module Frame.

Import Run.

Lemma quiet_calm {A} (m : M A) : quiet m -> calm m.
Proof. now intros [? _]. Qed.

Lemma quiet_ret {A} (a : A) : quiet (mret a).
Proof. split; apply keeps_ret. Qed.

Lemma quiet_fail {A} e : quiet (@fail A e).
Proof. split; apply keeps_fail. Qed.

Lemma quiet_lift {A} (r : Result A) : quiet (lift r).
Proof. split; apply keeps_lift. Qed.

Lemma quiet_bind {A B} (m : M A) (f : A -> M B) :
  quiet m -> (forall a, quiet (f a)) -> quiet (m ≫= f).
Proof.
  intros [Hm1 Hm2] Hf. split; apply keeps_bind; auto; intros a; apply Hf.
Qed.

Lemma quiet_try {A} (m : M A) : quiet m -> quiet (try m).
Proof. intros [? ?]. split; apply keeps_try; assumption. Qed.

Lemma calm_bind {A B} (m : M A) (f : A -> M B) :
  calm m -> (forall a, calm (f a)) -> calm (m ≫= f).
Proof. apply keeps_bind. Qed.

Ltac quiet_prim := split; intros w; reflexivity.

Lemma quiet_getVars : quiet getVars.
Proof. quiet_prim. Qed.

Lemma quiet_getDisk : quiet getDisk.
Proof. quiet_prim. Qed.

Lemma quiet_Now : quiet Now.
Proof. quiet_prim. Qed.

Lemma quiet_show o : quiet (show o).
Proof. quiet_prim. Qed.

Lemma quiet_answer : quiet answer.
Proof. split; intros w; unfold answer; destruct (script w); reflexivity. Qed.

Lemma quiet_set_keyName k : quiet (set_keyName k).
Proof. quiet_prim. Qed.

Lemma quiet_set_duration d : quiet (set_duration d).
Proof. quiet_prim. Qed.

Lemma quiet_GetCurrentValidators uri : quiet (platformvm.GetCurrentValidators uri).
Proof. quiet_prim. Qed.

Create HintDb frame.

#[export] Hint Resolve quiet_ret quiet_fail quiet_lift quiet_getVars quiet_getDisk
  quiet_Now quiet_show quiet_answer quiet_set_keyName quiet_set_duration
  quiet_GetCurrentValidators : frame.

Ltac quiet_step :=
  lazymatch goal with
  | |- quiet (mret _) => apply quiet_ret
  | |- quiet (fail _) => apply quiet_fail
  | |- quiet (lift _) => apply quiet_lift
  | |- quiet (try _) => apply quiet_try
  | |- quiet (_ ≫= _) => apply quiet_bind; [|intros ?]
  | |- quiet (if ?b then _ else _) => destruct b
  | |- quiet (match ?x with _ => _ end) => destruct x
  end.

Ltac quiet_walk := repeat (quiet_step; try solve [eauto with frame]).

Lemma quiet_PrintToUser line : quiet (PrintToUser line).
Proof. apply quiet_show. Qed.

Lemma quiet_CaptureList text options : quiet (Prompt.CaptureList text options).
Proof. unfold Prompt.CaptureList. quiet_walk. Qed.

Lemma quiet_CaptureDuration text : quiet (Prompt.CaptureDuration text).
Proof. unfold Prompt.CaptureDuration. quiet_walk. Qed.

Lemma quiet_CaptureYesNo text : quiet (Prompt.CaptureYesNo text).
Proof. unfold Prompt.CaptureYesNo. quiet_walk. Qed.

Lemma quiet_CaptureDate text : quiet (Prompt.CaptureDate text).
Proof. unfold Prompt.CaptureDate. quiet_walk. Qed.

Lemma quiet_CaptureNodeID text : quiet (Prompt.CaptureNodeID text).
Proof. unfold Prompt.CaptureNodeID. quiet_walk. Qed.

Lemma quiet_CaptureWeight text : quiet (Prompt.CaptureWeight text).
Proof. unfold Prompt.CaptureWeight. quiet_walk. Qed.

Lemma quiet_ReadKeyDir : quiet app.ReadKeyDir.
Proof. unfold app.ReadKeyDir. quiet_walk. Qed.

Lemma quiet_LoadSidecar name : quiet (app.LoadSidecar name).
Proof. unfold app.LoadSidecar. quiet_walk. Qed.

#[export] Hint Resolve quiet_PrintToUser quiet_CaptureList quiet_CaptureDuration
  quiet_CaptureYesNo quiet_CaptureDate quiet_CaptureNodeID quiet_CaptureWeight
  quiet_ReadKeyDir quiet_LoadSidecar : frame.

Lemma quiet_promptDuration_fuel start fuel :
  quiet (subnetcmd.promptDuration_fuel fuel start).
Proof.
  induction fuel as [|fuel IH]; cbn [subnetcmd.promptDuration_fuel].
  - apply quiet_fail.
  - cbv zeta. quiet_walk.
Qed.

Lemma quiet_promptDuration start : quiet (subnetcmd.promptDuration start).
Proof.
  split; intros w; unfold subnetcmd.promptDuration;
    apply (quiet_promptDuration_fuel start).
Qed.

(** The writes of the create command do show in the files. *)
Lemma WriteGenesisFile_writes name bytes w :
  genesis (disk (snd (app.WriteGenesisFile name bytes w))) !! name = Some bytes.
Proof. cbn. apply lookup_insert_eq. Qed.

Lemma CreateSidecar_writes sc w :
  sidecars (disk (snd (app.CreateSidecar sc w))) !! models.Name sc = Some sc.
Proof. cbn. apply lookup_insert_eq. Qed.

(** The deployer hands the transaction over and changes nothing else. *)
Lemma calm_AddValidator tx : calm (subnet.AddValidator tx).
Proof.
  intros w. unfold subnet.AddValidator. destruct (submission w tx); reflexivity.
Qed.

Section WithSetting.

Context `{constants.Values} `{Collaborators}.

#[local] Hint Resolve quiet_promptDuration : frame.

Lemma quiet_promptWeight : quiet subnetcmd.promptWeight.
Proof. unfold subnetcmd.promptWeight. cbv zeta. quiet_walk. Qed.

Lemma quiet_promptStart : quiet subnetcmd.promptStart.
Proof. unfold subnetcmd.promptStart. eauto with frame. Qed.

Lemma quiet_promptNodeID : quiet subnetcmd.promptNodeID.
Proof. unfold subnetcmd.promptNodeID. eauto with frame. Qed.

Lemma quiet_getMaxValidationTime network nodeID start :
  quiet (subnetcmd.getMaxValidationTime network nodeID start).
Proof. unfold subnetcmd.getMaxValidationTime. cbv zeta. quiet_walk. Qed.

Lemma quiet_assign_duration m : quiet m -> quiet (subnetcmd.assign_duration m).
Proof. intros Hm. unfold subnetcmd.assign_duration. quiet_walk. Qed.

#[local] Hint Resolve quiet_promptWeight quiet_promptStart quiet_promptNodeID
  quiet_getMaxValidationTime quiet_assign_duration : frame.

Lemma quiet_resolveStart : quiet subnetcmd.resolveStart.
Proof. unfold subnetcmd.resolveStart. cbv zeta. quiet_walk. Qed.

Lemma quiet_resolveDuration network nodeID start :
  quiet (subnetcmd.resolveDuration network nodeID start).
Proof. unfold subnetcmd.resolveDuration. cbv zeta. quiet_walk. Qed.

#[local] Hint Resolve quiet_resolveStart quiet_resolveDuration : frame.

Lemma quiet_getTimeParameters network nodeID :
  quiet (subnetcmd.getTimeParameters network nodeID).
Proof. unfold subnetcmd.getTimeParameters. quiet_walk. Qed.

Lemma quiet_captureKeyName : quiet subnetcmd.captureKeyName.
Proof. unfold subnetcmd.captureKeyName. cbv zeta. quiet_walk. Qed.

Lemma quiet_resolveWeight weight : quiet (subnetcmd.resolveWeight weight).
Proof. unfold subnetcmd.resolveWeight. quiet_walk. Qed.

#[local] Hint Resolve quiet_getTimeParameters quiet_captureKeyName
  quiet_resolveWeight : frame.

Lemma handsOver_quiet {A} (m : M A) : quiet m -> handsOver m.
Proof. intros [Hf Hi] w. split; [apply Hf|left; apply Hi]. Qed.

Lemma handsOver_bind {A B} (m : M A) (f : A -> M B) :
  quiet m -> (forall a, handsOver (f a)) -> handsOver (m ≫= f).
Proof.
  intros [Hf Hi] Hk w. rewrite bind_run.
  specialize (Hf w). specialize (Hi w).
  destruct (m w) as [[a|e] w1]; cbn [fst snd] in *.
  - destruct (Hk a w1) as [Hf1 Hi1]. split; [congruence|].
    assert (Hsub : submission w1 = submission w).
    { unfold fixedPart in Hf. congruence. }
    rewrite Hi, Hsub in Hi1. exact Hi1.
  - split; [exact Hf|left; exact Hi].
Qed.

Lemma handsOver_AddValidator tx : handsOver (subnet.AddValidator tx).
Proof.
  intros w. unfold subnet.AddValidator.
  destruct (submission w tx) as [what|] eqn:Hs; cbn [fst snd].
  - split; [reflexivity|]. right. exists tx. split; [reflexivity|].
    right. exists what. now split.
  - split; [reflexivity|]. right. exists tx. split; [reflexivity|].
    left. split; [exact Hs|now exists tt].
Qed.

Ltac handsOver_step :=
  lazymatch goal with
  | |- handsOver (subnet.AddValidator _) => apply handsOver_AddValidator
  | |- handsOver (_ ≫= _) =>
    apply handsOver_bind; [solve [quiet_walk; eauto with frame]|intros ?]
  | |- handsOver (if ?b then _ else _) => destruct b
  | |- handsOver (match ?x with _ => _ end) => destruct x
  | |- handsOver _ => apply handsOver_quiet; solve [quiet_walk; eauto with frame]
  end.

Lemma handsOver_addValidator args : handsOver (subnetcmd.addValidator args).
Proof.
  unfold subnetcmd.addValidator. cbv zeta. repeat handsOver_step.
Qed.

End WithSetting.

End Frame.

(** ** The steps of [getTimeParameters] *)

Module Steps.

Import Run.

Section WithSetting.

Context `{constants.Values} `{Collaborators}.

Lemma getTimeParameters_run network nodeID w :
  subnetcmd.getTimeParameters network nodeID w =
  match subnetcmd.resolveStart w with
  | (Ok start, w1) =>
    match subnetcmd.resolveDuration network nodeID start w1 with
    | (Ok d, w2) => (Ok (start, d), w2)
    | (Err e, w2) => (Err e, w2)
    end
  | (Err e, w1) => (Err e, w1)
  end.
Proof.
  unfold subnetcmd.getTimeParameters. rewrite bind_run.
  destruct (subnetcmd.resolveStart w) as [[start|e] w1]; [|reflexivity].
  rewrite bind_run.
  destruct (subnetcmd.resolveDuration network nodeID start w1) as [[d|e] w2];
    reflexivity.
Qed.

(** The start time of the flag: parsed, then compared with the clock. *)
Lemma resolveStart_flag w :
  strings.isEmpty (startTimeStr (vars w)) = false ->
  subnetcmd.resolveStart w =
  match time.Parse constants.TimeParseLayout (startTimeStr (vars w)) with
  | None => (Err (errParse (startTimeStr (vars w))), w)
  | Some start =>
    if time.Before start (time.Add (clock w) constants.StakingMinimumLeadTime)
    then (Err errTooSoon, w)
    else (Ok start, w)
  end.
Proof.
  intros Hflag. unfold subnetcmd.resolveStart. rewrite bind_run.
  cbn [getVars]. rewrite Hflag.
  destruct (time.Parse _ _) as [start|]; [|reflexivity].
  rewrite bind_run. cbn [Now].
  destruct (time.Before _ _); reflexivity.
Qed.

(** The default start option: the package-level [startTimeDefault]. *)
Lemma resolveStart_default w rest :
  strings.isEmpty (startTimeStr (vars w)) = true ->
  script w = AList subnetcmd.defaultStartOption :: rest ->
  exists w1,
    subnetcmd.resolveStart w = (Ok (startTimeDefault (vars w)), w1)
    /\ script w1 = rest /\ vars w1 = vars w.
Proof.
  intros Hflag Hs. destruct w as [v sc sh cl dk cv sb iss].
  cbn [script vars] in *. subst sc.
  unfold subnetcmd.resolveStart. rewrite bind_run. cbn [getVars vars].
  rewrite Hflag. cbn. eexists. split; [reflexivity|]. now split.
Qed.

(** A non-zero [duration] is returned as it is. *)
Lemma resolveDuration_flag network nodeID start w :
  duration (vars w) <> 0 ->
  subnetcmd.resolveDuration network nodeID start w = (Ok (duration (vars w)), w).
Proof.
  intros Hd. unfold subnetcmd.resolveDuration. rewrite bind_run. cbn [getVars].
  destruct (Z.eqb_spec (duration (vars w)) 0); [contradiction|reflexivity].
Qed.

End WithSetting.

End Steps.

(** ** C4: the start time of the flag *)

Section StartFlag.

Context `{constants.Values} `{Collaborators}.

(** C4.  When the start-time flag is given and parses to [t], the time
    parameters fail with the too-soon error exactly when [t] is before the
    clock reading plus StakingMinimumLeadTime; a start exactly that far in
    the future is not too soon. *)
Theorem start_flag_too_soon_iff (network : models.Network) (nodeID : ids.NodeID)
    (w : World) (t : time.Time) :
  strings.isEmpty (startTimeStr (vars w)) = false ->
  time.Parse constants.TimeParseLayout (startTimeStr (vars w)) = Some t ->
  (fst (subnetcmd.getTimeParameters network nodeID w) = Err errTooSoon
   <-> t < clock w + constants.StakingMinimumLeadTime)
  /\ (t = clock w + constants.StakingMinimumLeadTime ->
      fst (subnetcmd.resolveStart w) = Ok t).
Proof.
  intros Hflag Hparse.
  rewrite Steps.getTimeParameters_run, (Steps.resolveStart_flag w Hflag), Hparse.
  unfold time.Before, time.Add.
  destruct (Z.ltb_spec t (clock w + constants.StakingMinimumLeadTime)) as [Hlt|Hge].
  - split; [now split|]. intros ->. lia.
  - split; [|reflexivity]. split; [|lia].
    intros Hrun.
    pose proof (Errors.errs_resolveDuration network nodeID t w errTooSoon) as Hd.
    destruct (subnetcmd.resolveDuration network nodeID t w) as [[d|e] w2];
      cbn [fst] in *; [discriminate|].
    injection Hrun as ->.
    destruct (Hd eq_refl) as [[what E]|E]; discriminate E.
Qed.

End StartFlag.

(** ** C10: the default start time *)

Section DefaultStart.

Context `{constants.Values} `{Collaborators}.

(** C10.  The default start time is the clock reading at which the package
    was initialised plus StakingStartLeadTime.  Whatever the clock reads
    when the operator chooses the default start option, the start time
    resolved is that same timestamp, and the choice leaves it in place for
    the next one. *)
Theorem default_start_fixed_at_init
    (began : time.Time) (key nodeIDFlag : string) (weightFlag : Z)
    (stakingPeriod : time.Duration)
    (w : World) (network : models.Network) (nodeID : ids.NodeID)
    (rest : list Answer) :
  vars w = subnetcmd.package_init began key nodeIDFlag weightFlag EmptyString stakingPeriod ->
  script w = AList subnetcmd.defaultStartOption :: rest ->
  startTimeDefault (vars w) = began + constants.StakingStartLeadTime
  /\ (exists w1,
        subnetcmd.resolveStart w = (Ok (began + constants.StakingStartLeadTime), w1)
        /\ startTimeDefault (vars w1) = began + constants.StakingStartLeadTime)
  /\ (forall start d,
        fst (subnetcmd.getTimeParameters network nodeID w) = Ok (start, d) ->
        start = began + constants.StakingStartLeadTime).
Proof.
  intros Hvars Hs.
  assert (Hdef : startTimeDefault (vars w) = began + constants.StakingStartLeadTime)
    by (rewrite Hvars; reflexivity).
  assert (Hflag : strings.isEmpty (startTimeStr (vars w)) = true)
    by (rewrite Hvars; reflexivity).
  destruct (Steps.resolveStart_default w rest Hflag Hs) as (w1 & Hrun & _ & Hv1).
  rewrite Hdef in Hrun.
  split; [exact Hdef|]. split.
  - exists w1. split; [exact Hrun|]. now rewrite Hv1.
  - intros start d. rewrite Steps.getTimeParameters_run, Hrun.
    destruct (subnetcmd.resolveDuration _ _ _ w1) as [[d'|e] w2]; cbn [fst];
      [|discriminate].
    now intros [= <- _].
Qed.

End DefaultStart.

(** ** C1: the resolved validation window *)

Section Window.

Context `{constants.Values} `{Collaborators}.

(** C1, amended.  When the start time comes from the start-time flag, the
    resolved start is at least StakingMinimumLeadTime after the clock
    reading taken when the flag is checked; and a non-zero staking-period
    flag is the resolved duration, unchanged, so that the resolved duration
    is then different from zero. *)
Theorem window_of_flags (network : models.Network) (nodeID : ids.NodeID)
    (w : World) (start : time.Time) (d : time.Duration) :
  strings.isEmpty (startTimeStr (vars w)) = false ->
  fst (subnetcmd.getTimeParameters network nodeID w) = Ok (start, d) ->
  clock w + constants.StakingMinimumLeadTime <= start
  /\ (duration (vars w) <> 0 -> d = duration (vars w) /\ d <> 0).
Proof.
  intros Hflag. rewrite Steps.getTimeParameters_run, (Steps.resolveStart_flag w Hflag).
  destruct (time.Parse _ _) as [t|]; [|discriminate].
  unfold time.Before, time.Add.
  destruct (Z.ltb_spec t (clock w + constants.StakingMinimumLeadTime)) as [|Hge];
    [discriminate|].
  destruct (subnetcmd.resolveDuration network nodeID t w) as [[d'|e] w2] eqn:Hd;
    cbn [fst]; [|discriminate].
  intros [= <- <-]. split; [exact Hge|].
  intros Hnz. rewrite (Steps.resolveDuration_flag network nodeID t w Hnz) in Hd.
  injection Hd as <- _. now split.
Qed.

End Window.

(** ** C5: the duration until the validator expires *)

Module Expiry.

Import GoInt.

Lemma wrap_int64_small x : - two63 <= x < two63 -> wrap_int64 x = x.
Proof.
  intros Hx. unfold wrap_int64. rewrite Z.mod_small; [lia|].
  unfold two64, two63 in *. lia.
Qed.

(** [time.Unix] of an end time that the [int64] conversion and the internal
    second count both hold. *)
Lemma Unix_exact sec :
  0 <= sec < two63 - time.unixToInternal ->
  time.Unix (int64_of_uint64 sec) 0 = sec * time.Second.
Proof.
  intros Hs. unfold time.Unix. cbn [Z.ltb Z.leb orb Z.compare].
  unfold time.unixTime, int64_of_uint64.
  assert (Hu : 0 <= time.unixToInternal) by (vm_compute; congruence).
  rewrite (wrap_int64_small sec) by lia.
  rewrite (wrap_int64_small (sec + time.unixToInternal)) by lia.
  lia.
Qed.

(** [Time.Sub] is the difference when the difference is a [Duration]. *)
Lemma Sub_exact t u :
  time.minDuration <= t - u <= time.maxDuration -> time.Sub t u = t - u.
Proof.
  intros Hd. unfold time.Sub, time.Add, time.minDuration, time.maxDuration in *.
  rewrite wrap_int64_small by lia.
  destruct (Z.eqb_spec (u + (t - u)) t); [reflexivity|lia].
Qed.

Lemma findValidator_none vs nodeID start :
  subnetcmd.findValidator vs nodeID start = Err (errNodeNotFound nodeID)
  <-> Forall (fun u => v_NodeID u <> nodeID) vs.
Proof.
  induction vs as [|v vs IH]; cbn.
  - split; [constructor|reflexivity].
  - destruct (String.eqb_spec (v_NodeID v) nodeID) as [E|E].
    + split; [discriminate|]. inversion 1; contradiction.
    + rewrite IH. split; [now constructor|now inversion 1].
Qed.

Lemma findValidator_first pre v post nodeID start :
  Forall (fun u => v_NodeID u <> nodeID) pre ->
  v_NodeID v = nodeID ->
  subnetcmd.findValidator (pre ++ v :: post) nodeID start
  = Ok (time.Sub (time.Unix (int64_of_uint64 (v_EndTime v)) 0) start).
Proof.
  intros Hpre Hv. induction Hpre as [|u pre Hu _ IH]; cbn.
  - rewrite Hv, String.eqb_refl. reflexivity.
  - destruct (String.eqb_spec (v_NodeID u) nodeID); [contradiction|exact IH].
Qed.

Lemma findValidator_some vs nodeID start :
  (exists v, In v vs /\ v_NodeID v = nodeID) ->
  exists d, subnetcmd.findValidator vs nodeID start = Ok d.
Proof.
  intros (v & Hin & Hv). induction vs as [|u vs IH]; [destruct Hin|].
  cbn. destruct (String.eqb_spec (v_NodeID u) nodeID) as [|Hne]; [eauto|].
  apply IH. destruct Hin as [->|Hin]; [contradiction|exact Hin].
Qed.

End Expiry.

Section UntilExpires.

Context `{constants.Values}.

(** C5, amended.  When the platform returns a validator set: if the first
    record with the node identifier has an end time below 2^63 - 62135596800
    seconds whose distance from the start fits a 64-bit count of
    nanoseconds, the duration is that end time minus the start; if some
    record has the node identifier, a duration is returned; and the
    node-not-found error is returned exactly when no record has it. *)
Theorem until_expires_duration (network : models.Network) (nodeID : ids.NodeID)
    (start : time.Time) (w : World) (vs : list Validator) :
  currentValidators w
    (if models.Network_eqb network models.Fuji then constants.FujiAPIEndpoint
     else constants.MainnetAPIEndpoint) = Got vs ->
  (forall pre v post,
      vs = (pre ++ v :: post)%list ->
      Forall (fun u => v_NodeID u <> nodeID) pre ->
      v_NodeID v = nodeID ->
      0 <= v_EndTime v < GoInt.two63 - time.unixToInternal ->
      time.minDuration <= v_EndTime v * time.Second - start <= time.maxDuration ->
      fst (subnetcmd.getMaxValidationTime network nodeID start w)
      = Ok (v_EndTime v * time.Second - start))
  /\ ((exists v, In v vs /\ v_NodeID v = nodeID) ->
      exists d, fst (subnetcmd.getMaxValidationTime network nodeID start w) = Ok d)
  /\ (fst (subnetcmd.getMaxValidationTime network nodeID start w)
      = Err (errNodeNotFound nodeID)
      <-> Forall (fun u => v_NodeID u <> nodeID) vs).
Proof.
  intros Hgot.
  assert (Hrun : fst (subnetcmd.getMaxValidationTime network nodeID start w)
                 = subnetcmd.findValidator vs nodeID start).
  { unfold subnetcmd.getMaxValidationTime. cbv zeta. rewrite Run.bind_run.
    unfold platformvm.GetCurrentValidators. rewrite Hgot. reflexivity. }
  rewrite Hrun. split; [|split].
  - intros pre v post -> Hpre Hv Hend Hfit.
    rewrite (Expiry.findValidator_first pre v post nodeID start Hpre Hv).
    rewrite (Expiry.Unix_exact _ Hend), (Expiry.Sub_exact _ _ Hfit). reflexivity.
  - apply Expiry.findValidator_some.
  - apply Expiry.findValidator_none.
Qed.

End UntilExpires.

(** ** C8: a failed attempt leaves no trace on disk *)

Section NoTrace.

Context `{constants.Values} `{Collaborators}.

(** Every run of the command, failed or not, leaves the files as they
    were. *)
Lemma addValidator_keeps_files (args : list string) (w : World) :
  disk (snd (subnetcmd.addValidator args w)) = disk w.
Proof.
  destruct (Frame.handsOver_addValidator args w) as [Hfixed _].
  unfold Outcomes.fixedPart in Hfixed. congruence.
Qed.

(** C8.  When the command fails, the files of the application directory
    (the key directory, the sidecars, the genesis files) are what they were
    before; and either no transaction was handed to the deployer, or one was
    and the failure is the platform's answer to it. *)
Theorem failed_addValidator_writes_nothing (args : list string) (w : World)
    (e : error) :
  fst (subnetcmd.addValidator args w) = Err e ->
  disk (snd (subnetcmd.addValidator args w)) = disk w
  /\ (issued (snd (subnetcmd.addValidator args w)) = issued w
      \/ exists tx what,
           issued (snd (subnetcmd.addValidator args w)) = tx :: issued w
           /\ submission w tx = Some what
           /\ e = errCollaborator what).
Proof.
  intros Hfail. split; [apply addValidator_keeps_files|].
  destruct (Frame.handsOver_addValidator args w) as [_ [Hnone|(tx & Htx & Hend)]].
  - now left.
  - right. exists tx.
    destruct Hend as [(_ & a & Hok)|(what & Hsub & Herr)].
    + rewrite Hok in Hfail. discriminate.
    + exists what. rewrite Herr in Hfail. injection Hfail as <-. auto.
Qed.

End NoTrace.


(** ** Dates: from fields to instant and back *)

Module Civil.

Import GoInt.
Export Calendar.

Lemma in_range n x : 0 <= x < Z.of_nat n -> In x (range n).
Proof.
  intros Hx. unfold range. apply in_map_iff. exists (Z.to_nat x).
  split; [lia|]. apply in_seq. lia.
Qed.

Lemma checkCycle_true :
  forallb (fun y =>
    forallb (fun doy =>
      let '(y', d') := time.yearInCycle (cycleDays y + doy) in
      (y' =? y) && (d' =? doy) && (cycleDays y + doy <? time.daysPer400Years))
      (range (Z.to_nat (yearLength y))))
    (range 400) = true.
Proof. vm_compute. reflexivity. Qed.

Lemma yearInCycle_cycleDays y doy :
  0 <= y < 400 -> 0 <= doy < yearLength y ->
  time.yearInCycle (cycleDays y + doy) = (y, doy)
  /\ cycleDays y + doy < time.daysPer400Years.
Proof.
  intros Hy Hdoy. pose proof checkCycle_true as Hc.
  rewrite forallb_forall in Hc.
  specialize (Hc y (in_range 400 y ltac:(lia))).
  rewrite forallb_forall in Hc.
  assert (Hlen : 0 <= yearLength y)
    by (unfold yearLength; destruct (time.isLeap _); lia).
  specialize (Hc doy (in_range (Z.to_nat (yearLength y)) doy ltac:(lia))).
  destruct (time.yearInCycle (cycleDays y + doy)) as [y' d'].
  apply andb_true_iff in Hc as [Hc H3]. apply andb_true_iff in Hc as [H1 H2].
  apply Z.eqb_eq in H1, H2. apply Z.ltb_lt in H3. subst. now split.
Qed.

Lemma checkMonths_true :
  forallb (fun leap =>
    forallb (fun month =>
      forallb (fun day =>
        let doy := dayOfYear leap (month + 1) (day + 1) in
        let '(m', d') := time.monthDay leap doy in
        (m' =? month + 1) && (d' =? day + 1) && (0 <=? doy)
        && (doy <? (if leap then 366 else 365)))
        (range (Z.to_nat (daysInMonth leap (month + 1)))))
      (range 12))
    [true; false] = true.
Proof. vm_compute. reflexivity. Qed.

Lemma monthDay_dayOfYear leap month day :
  1 <= month <= 12 -> 1 <= day <= daysInMonth leap month ->
  time.monthDay leap (dayOfYear leap month day) = (month, day)
  /\ 0 <= dayOfYear leap month day < (if leap then 366 else 365).
Proof.
  intros Hm Hd. pose proof checkMonths_true as Hc.
  rewrite forallb_forall in Hc.
  specialize (Hc leap ltac:(destruct leap; simpl; auto)).
  rewrite forallb_forall in Hc.
  specialize (Hc (month - 1) (in_range 12 (month - 1) ltac:(lia))).
  rewrite forallb_forall in Hc.
  replace (month - 1 + 1) with month in Hc by lia.
  assert (Hlen : 0 <= daysInMonth leap month) by lia.
  specialize (Hc (day - 1)
                (in_range (Z.to_nat (daysInMonth leap month)) (day - 1) ltac:(lia))).
  replace (day - 1 + 1) with day in Hc by lia.
  cbv zeta in Hc.
  destruct (time.monthDay leap (dayOfYear leap month day)) as [m' d'].
  repeat (apply andb_true_iff in Hc as [Hc ?]).
  apply Z.eqb_eq in Hc. subst.
  repeat match goal with
  | H : (_ =? _) = true |- _ => apply Z.eqb_eq in H
  | H : (_ <=? _) = true |- _ => apply Z.leb_le in H
  | H : (_ <? _) = true |- _ => apply Z.ltb_lt in H
  end.
  subst. split; [reflexivity|lia].
Qed.

(** Leap years repeat every 400 years. *)
Lemma isLeap_mod400 y : 0 <= y -> time.isLeap y = time.isLeap (y mod 400).
Proof.
  intros Hy. unfold time.isLeap.
  rewrite !Z.rem_mod_nonneg by (try apply Z.mod_pos_bound; lia).
  assert (E4 : (y mod 400) mod 4 = y mod 4)
    by (Z.div_mod_to_equations; lia).
  assert (E100 : (y mod 400) mod 100 = y mod 100)
    by (Z.div_mod_to_equations; lia).
  rewrite E4, E100, Z.mod_mod by lia. reflexivity.
Qed.

Lemma daysSinceEpoch_cycle year :
  0 <= year - time.absoluteZeroYear < two64 ->
  time.daysSinceEpoch year
  = time.daysPer400Years * ((year - time.absoluteZeroYear) / 400)
    + cycleDays ((year - time.absoluteZeroYear) mod 400).
Proof.
  intros Hy. unfold time.daysSinceEpoch, cycleDays, wrap_uint64.
  rewrite Z.mod_small by exact Hy.
  set (ya := year - time.absoluteZeroYear) in *.
  cbv zeta. unfold time.daysPer400Years, time.daysPer100Years, time.daysPer4Years.
  Z.div_mod_to_equations. lia.
Qed.

Lemma wrap_uint64_small x : 0 <= x < two64 -> wrap_uint64 x = x.
Proof. intros Hx. unfold wrap_uint64. now rewrite Z.mod_small. Qed.

Lemma wrap_int64_add x c : wrap_int64 (wrap_int64 x + c) = wrap_int64 (x + c).
Proof.
  unfold wrap_int64. f_equal.
  replace ((x + two63) mod two64 - two63 + c + two63)
    with ((x + two63) mod two64 + c) by lia.
  rewrite Zplus_mod_idemp_l. f_equal. lia.
Qed.

Lemma norm_id hi lo base : 0 <= lo < base -> time.norm hi lo base = (hi, lo).
Proof.
  intros Hlo. unfold time.norm.
  destruct (Z.ltb_spec lo 0); [lia|].
  destruct (Z.leb_spec base lo); [lia|reflexivity].
Qed.

Lemma daysIn_daysInMonth month year :
  time.daysIn month year = daysInMonth (time.isLeap year) month.
Proof. reflexivity. Qed.

Lemma daysInMonth_le leap month :
  1 <= month <= 12 -> daysInMonth leap month <= 31.
Proof.
  intros Hm.
  assert (Hcases : month = 1 \/ month = 2 \/ month = 3 \/ month = 4
                   \/ month = 5 \/ month = 6 \/ month = 7 \/ month = 8
                   \/ month = 9 \/ month = 10 \/ month = 11 \/ month = 12) by lia.
  repeat (destruct Hcases as [->|Hcases]); try subst month;
    destruct leap; vm_compute; congruence.
Qed.

Lemma isLeap_yearOfCycle year :
  0 <= year -> time.isLeap (yearOfCycle year + 1) = time.isLeap year.
Proof.
  intros Hy. unfold yearOfCycle, time.absoluteZeroYear.
  rewrite (isLeap_mod400 year Hy).
  rewrite (isLeap_mod400 ((year - -292277022399) mod 400 + 1))
    by (Z.div_mod_to_equations; lia).
  f_equal. Z.div_mod_to_equations. lia.
Qed.

(** The day number of a valid date, split into cycle and day of the cycle. *)
Lemma day_number year month day :
  validDate year month day ->
  let c := cycleDays (yearOfCycle year)
           + dayOfYear (time.isLeap year) month day in
  time.daysSinceEpoch year + dayOfYear (time.isLeap year) month day
  = time.daysPer400Years * cycleOf year + c
  /\ 0 <= c < time.daysPer400Years
  /\ time.yearInCycle c
     = (yearOfCycle year, dayOfYear (time.isLeap year) month day)
  /\ 730692555 <= cycleOf year <= 730692580.
Proof.
  intros (Hy & Hm & Hd). cbv zeta.
  rewrite daysIn_daysInMonth in Hd.
  destruct (monthDay_dayOfYear (time.isLeap year) month day Hm Hd) as [_ Hdoy].
  assert (Hya : 0 <= year - time.absoluteZeroYear < two64)
    by (unfold time.absoluteZeroYear, two64; lia).
  assert (Hyc : 0 <= yearOfCycle year < 400)
    by (unfold yearOfCycle; apply Z.mod_pos_bound; lia).
  assert (Hlen : 0 <= dayOfYear (time.isLeap year) month day
                 < yearLength (yearOfCycle year)).
  { unfold yearLength. rewrite (isLeap_yearOfCycle year) by lia. exact Hdoy. }
  destruct (yearInCycle_cycleDays _ _ Hyc Hlen) as [Hyic Hlt].
  rewrite (daysSinceEpoch_cycle year Hya). fold (cycleOf year) (yearOfCycle year).
  split; [lia|]. split; [|split; [exact Hyic|]].
  - split; [|exact Hlt].
    assert (0 <= cycleDays (yearOfCycle year)).
    { unfold cycleDays, time.daysPer100Years, time.daysPer4Years.
      Z.div_mod_to_equations. lia. }
    lia.
  - unfold cycleOf, time.absoluteZeroYear. Z.div_mod_to_equations. lia.
Qed.

Lemma absDate_split n c tod :
  0 <= n -> 0 <= c < time.daysPer400Years -> 0 <= tod < time.secondsPerDay ->
  time.absDate ((time.daysPer400Years * n + c) * time.secondsPerDay + tod)
  = let '(y', yday) := time.yearInCycle c in
    let year := wrap_int64 (400 * n + y') + time.absoluteZeroYear in
    let '(month, day) := time.monthDay (time.isLeap year) yday in
    (year, month, day, yday).
Proof.
  intros Hn Hc Htod. unfold time.absDate.
  assert (E1 : ((time.daysPer400Years * n + c) * time.secondsPerDay + tod)
               / time.secondsPerDay = time.daysPer400Years * n + c).
  { symmetry. apply (Z.div_unique _ _ _ tod); [lia|]. lia. }
  rewrite E1.
  assert (E2 : (time.daysPer400Years * n + c) / time.daysPer400Years = n).
  { symmetry. apply (Z.div_unique _ _ _ c); [lia|]. lia. }
  rewrite E2.
  replace (time.daysPer400Years * n + c - time.daysPer400Years * n) with c by lia.
  reflexivity.
Qed.

Lemma absClock_split days hour min sec :
  validClock hour min sec -> 0 <= days ->
  time.absClock (days * time.secondsPerDay
                 + (hour * time.secondsPerHour + min * time.secondsPerMinute + sec))
  = (hour, min, sec).
Proof.
  intros (Hh & Hm & Hs) Hd. unfold time.absClock.
  unfold time.secondsPerDay, time.secondsPerHour, time.secondsPerMinute in *.
  set (tod := hour * (60 * 60) + min * 60 + sec).
  assert (Htod : 0 <= tod < 24 * (60 * 60)) by (subst tod; lia).
  assert (E1 : (days * (24 * (60 * 60)) + tod) mod (24 * (60 * 60)) = tod).
  { symmetry. apply (Z.mod_unique _ _ days); [lia|]. lia. }
  rewrite E1. cbv zeta.
  rewrite !Z.quot_div_nonneg; try lia.
  - assert (E2 : tod / (60 * 60) = hour).
    { symmetry. apply (Z.div_unique _ _ _ (min * 60 + sec)); subst tod; lia. }
    rewrite E2.
    assert (E3 : (tod - hour * (60 * 60)) / 60 = min).
    { symmetry. apply (Z.div_unique _ _ _ sec); subst tod; lia. }
    rewrite E3. f_equal. subst tod. lia.
  - assert (E2 : tod / (60 * 60) = hour).
    { symmetry. apply (Z.div_unique _ _ _ (min * 60 + sec)); subst tod; lia. }
    rewrite E2. subst tod. lia.
Qed.

(** The instant of a valid date and time: the seconds since the absolute
    epoch that [Time.abs] gives back are those that [Date] counted. *)
Lemma abs_Date year month day hour min sec :
  validDate year month day -> validClock hour min sec ->
  time.abs (time.Date year month day hour min sec 0)
  = (time.daysSinceEpoch year + dayOfYear (time.isLeap year) month day)
    * time.secondsPerDay
    + (hour * time.secondsPerHour + min * time.secondsPerMinute + sec).
Proof.
  intros Hdate Hclock.
  destruct (day_number year month day Hdate) as (Hnum & Hc & _ & Hcyc).
  destruct Hdate as (Hy & Hm & Hd). destruct Hclock as (Hh & Hmi & Hs).
  assert (Hd31 : day <= 31).
  { rewrite daysIn_daysInMonth in Hd.
    pose proof (daysInMonth_le (time.isLeap year) month Hm). lia. }
  unfold time.Date.
  rewrite (norm_id year (month - 1) 12) by lia.
  rewrite (norm_id sec 0 1000000000) by lia.
  rewrite (norm_id min sec 60) by lia.
  rewrite (norm_id hour min 60) by lia.
  rewrite (norm_id day hour 24) by lia.
  replace (month - 1 + 1) with month by lia.
  set (D := time.daysSinceEpoch year + dayOfYear (time.isLeap year) month day) in *.
  set (tod := hour * time.secondsPerHour + min * time.secondsPerMinute + sec).
  assert (Htod : 0 <= tod < 86400).
  { subst tod. unfold time.secondsPerHour, time.secondsPerMinute. lia. }
  assert (HD : 106751990207835 <= D < 106751994006357).
  { rewrite Hnum. unfold time.daysPer400Years in *. lia. }
  assert (E : (if time.isLeap year && (time.March <=? month)
               then time.daysSinceEpoch year + time.daysBeforeAt (month - 1) + 1
               else time.daysSinceEpoch year + time.daysBeforeAt (month - 1))
              = D - (day - 1)).
  { subst D. unfold dayOfYear.
    destruct (time.isLeap year && (time.March <=? month)); ring. }
  rewrite E.
  rewrite (wrap_uint64_small (day - 1)) by (unfold two64; lia).
  replace (D - (day - 1) + (day - 1)) with D by lia.
  rewrite (wrap_uint64_small D) by (unfold two64; lia).
  unfold time.secondsPerDay, time.secondsPerHour, time.secondsPerMinute in *.
  rewrite (wrap_uint64_small (D * _)) by (unfold two64; lia).
  rewrite (wrap_uint64_small tod) by (unfold two64; lia).
  rewrite (wrap_uint64_small (_ + tod)) by (unfold two64; lia).
  rewrite wrap_int64_add.
  assert (Hc1 : time.absoluteToInternal + time.internalToUnix = -9223372028715321600)
    by (vm_compute; reflexivity).
  assert (Hc2 : time.unixToInternal + time.internalToAbsolute = 9223372028715321600)
    by (vm_compute; reflexivity).
  assert (Hc3 : time.unixToInternal = 62135596800) by (vm_compute; reflexivity).
  rewrite Hc1.
  set (unix := D * (24 * (60 * 60)) + tod + -9223372028715321600).
  assert (Hunix : -74758377600 <= unix <= 253433923200).
  { subst unix. lia. }
  rewrite (Expiry.wrap_int64_small unix) by (unfold two63; lia).
  unfold time.unixTime. rewrite Hc3.
  rewrite (Expiry.wrap_int64_small (unix + 62135596800)) by (unfold two63; lia).
  unfold time.abs. rewrite Hc2.
  replace ((unix + 62135596800 - 62135596800) * time.Second + 0)
    with (unix * time.Second) by lia.
  rewrite Z.div_mul by (unfold time.Second; lia).
  rewrite wrap_uint64_small by (unfold two64; subst unix; lia).
  subst unix. lia.
Qed.

(** Reading back the fields of a valid date and time. *)
Lemma fields_of_Date year month day hour min sec :
  validDate year month day -> validClock hour min sec ->
  exists yday,
    time.absDate (time.abs (time.Date year month day hour min sec 0))
    = (year, month, day, yday)
    /\ time.absClock (time.abs (time.Date year month day hour min sec 0))
       = (hour, min, sec).
Proof.
  intros Hdate Hclock.
  rewrite (abs_Date year month day hour min sec Hdate Hclock).
  destruct (day_number year month day Hdate) as (Hnum & Hc & Hyic & Hcyc).
  exists (dayOfYear (time.isLeap year) month day). split.
  - rewrite Hnum.
    rewrite absDate_split;
      [|lia|exact Hc|
       destruct Hclock as (? & ? & ?);
       unfold time.secondsPerDay, time.secondsPerHour, time.secondsPerMinute; lia].
    rewrite Hyic.
    assert (Eyear : wrap_int64 (400 * cycleOf year + yearOfCycle year)
                    + time.absoluteZeroYear = year).
    { unfold cycleOf, yearOfCycle.
      rewrite <- Z.div_mod by lia.
      rewrite Expiry.wrap_int64_small; [lia|].
      destruct Hdate as (Hy & _). unfold time.absoluteZeroYear, two63. lia. }
    cbv zeta. rewrite Eyear.
    destruct Hdate as (Hy & Hm & Hd). rewrite daysIn_daysInMonth in Hd.
    destruct (monthDay_dayOfYear (time.isLeap year) month day Hm Hd) as [-> _].
    reflexivity.
  - apply absClock_split; [exact Hclock|].
    rewrite Hnum. unfold time.daysPer400Years in *. lia.
Qed.

End Civil.

(** ** Timestamps: from text to fields and back *)

Module Text.

Import GoInt.
Export Digits.

Lemma isDigitByte_In c : time.isDigitByte c = true -> In c digitChars.
Proof.
  intros Hc.
  assert (Hex : existsb (Ascii.eqb c) digitChars = true).
  { revert Hc. destruct c as [[] [] [] [] [] [] [] []]; vm_compute;
      intros Hc; first [exact Hc | reflexivity]. }
  apply existsb_exists in Hex as (x & Hin & Hx).
  apply Ascii.eqb_eq in Hx. now subst x.
Qed.

Lemma digit_range c : time.isDigitByte c = true -> 0 <= digit c <= 9.
Proof.
  unfold time.isDigitByte, digit. intros Hc.
  apply andb_true_iff in Hc as [H1 H2].
  apply Z.leb_le in H1, H2. lia.
Qed.

Lemma digit_not_space c : time.isDigitByte c = true -> Ascii.eqb c " " = false.
Proof.
  intros Hc. destruct (Ascii.eqb_spec c " ") as [->|]; [|reflexivity].
  discriminate Hc.
Qed.

Lemma two_digits_checked :
  forallb (fun a => forallb (fun b =>
    String.eqb (time.appendInt (num2 a b) 2) (String a (String b EmptyString)))
    digitChars) digitChars = true.
Proof. vm_compute. reflexivity. Qed.

Lemma four_digits_checked :
  forallb (fun a => forallb (fun b => forallb (fun c => forallb (fun d =>
    String.eqb (time.appendInt (num4 a b c d) 4)
               (String a (String b (String c (String d EmptyString))))
    && match time.atoi (String a (String b (String c (String d EmptyString)))) with
       | Some x => x =? num4 a b c d
       | None => false
       end)
    digitChars) digitChars) digitChars) digitChars = true.
Proof. vm_compute. reflexivity. Qed.

Lemma appendInt_two a b :
  time.isDigitByte a = true -> time.isDigitByte b = true ->
  time.appendInt (num2 a b) 2 = String a (String b EmptyString).
Proof.
  intros Ha Hb. pose proof two_digits_checked as Hc.
  rewrite forallb_forall in Hc. specialize (Hc a (isDigitByte_In a Ha)).
  rewrite forallb_forall in Hc. specialize (Hc b (isDigitByte_In b Hb)).
  now apply String.eqb_eq in Hc.
Qed.

Lemma four_digits a b c d :
  time.isDigitByte a = true -> time.isDigitByte b = true ->
  time.isDigitByte c = true -> time.isDigitByte d = true ->
  time.appendInt (num4 a b c d) 4 = String a (String b (String c (String d EmptyString)))
  /\ time.atoi (String a (String b (String c (String d EmptyString)))) = Some (num4 a b c d).
Proof.
  intros Ha Hb Hc Hd. pose proof four_digits_checked as H.
  rewrite forallb_forall in H. specialize (H a (isDigitByte_In a Ha)).
  rewrite forallb_forall in H. specialize (H b (isDigitByte_In b Hb)).
  rewrite forallb_forall in H. specialize (H c (isDigitByte_In c Hc)).
  rewrite forallb_forall in H. specialize (H d (isDigitByte_In d Hd)).
  apply andb_true_iff in H as [H1 H2]. apply String.eqb_eq in H1.
  split; [exact H1|].
  destruct (time.atoi _) as [x|]; [|discriminate].
  apply Z.eqb_eq in H2. now subst.
Qed.

Lemma getnum_two a b rest fixed :
  time.isDigitByte a = true -> time.isDigitByte b = true ->
  time.getnum (String a (String b rest)) fixed = Some (num2 a b, rest).
Proof.
  intros Ha Hb. unfold time.getnum, time.isDigit, time.digitVal.
  cbn [String.get Nat.eqb]. rewrite Ha, Hb. reflexivity.
Qed.

Lemma skip_empty value : time.skip value EmptyString = Some value.
Proof. reflexivity. Qed.

Lemma skip_dash rest : time.skip (String "-" rest) "-" = Some rest.
Proof. reflexivity. Qed.

Lemma skip_colon rest : time.skip (String ":" rest) ":" = Some rest.
Proof. reflexivity. Qed.

Lemma skip_space h rest :
  time.isDigitByte h = true ->
  time.skip (String " " (String h rest)) " " = Some (String h rest).
Proof.
  intros Hh. unfold time.skip. cbn [String.length time.skip_fuel].
  cbn [Ascii.eqb Bool.eqb time.byteAt String.get negb andb].
  rewrite andb_false_r. cbn [time.cutspace Ascii.eqb Bool.eqb].
  rewrite (digit_not_space h Hh). reflexivity.
Qed.

Lemma parse_year a b c d rest f :
  time.isDigitByte a = true -> time.isDigitByte b = true ->
  time.isDigitByte c = true -> time.isDigitByte d = true ->
  time.parseStd time.stdLongYear (String a (String b (String c (String d rest)))) f
  = Some (rest,
          {| time.f_year := num4 a b c d; time.f_month := time.f_month f;
             time.f_day := time.f_day f; time.f_hour := time.f_hour f;
             time.f_min := time.f_min f; time.f_sec := time.f_sec f;
             time.f_nsec := time.f_nsec f |}).
Proof.
  intros Ha Hb Hc Hd. unfold time.parseStd.
  assert (Hlen : (time.len (String a (String b (String c (String d rest)))) <? 4) = false).
  { unfold time.len. cbn [String.length]. apply Z.ltb_ge. lia. }
  rewrite Hlen. unfold time.isDigit. cbn [String.get]. rewrite Ha. cbn [negb orb].
  cbn [time.upto time.from].
  destruct (four_digits a b c d Ha Hb Hc Hd) as [_ ->]. reflexivity.
Qed.

(** What [Parse] makes of a timestamp written out in full. *)
Lemma Parse_stamp y3 y2 y1 y0 m1 m0 d1 d0 h1 h0 i1 i0 s1 s0 :
  forallb time.isDigitByte [y3; y2; y1; y0; m1; m0; d1; d0; h1; h0; i1; i0; s1; s0]
  = true ->
  time.Parse constants.TimeParseLayout
    (stamp y3 y2 y1 y0 m1 m0 d1 d0 h1 h0 i1 i0 s1 s0)
  = let year := num4 y3 y2 y1 y0 in
    let month := num2 m1 m0 in
    let day := num2 d1 d0 in
    let hour := num2 h1 h0 in
    let min := num2 i1 i0 in
    let sec := num2 s1 s0 in
    if (month <=? 0) || (12 <? month) then None
    else if (hour <? 0) || (24 <=? hour) then None
    else if (min <? 0) || (60 <=? min) then None
    else if (sec <? 0) || (60 <=? sec) then None
    else if (day <? 1) || (time.daysIn month year <? day) then None
    else Some (time.Date year month day hour min sec 0).
Proof.
  intros Hall. cbn [forallb] in Hall.
  repeat (apply andb_true_iff in Hall as [? Hall]).
  unfold time.Parse, stamp. cbn [constants.TimeParseLayout time.chunks time.suffix].
  cbn [time.parseChunks]. rewrite skip_empty.
  rewrite parse_year by assumption. cbn [time.f_month time.f_day time.f_hour
    time.f_min time.f_sec time.f_nsec time.f_year].
  rewrite skip_dash. unfold time.parseStd at 1.
  rewrite getnum_two by assumption.
  destruct ((num2 m1 m0 <=? 0) || (12 <? num2 m1 m0)); [reflexivity|].
  rewrite skip_dash. unfold time.parseStd at 1.
  rewrite getnum_two by assumption.
  rewrite skip_space by assumption. unfold time.parseStd at 1.
  rewrite getnum_two by assumption.
  destruct ((num2 h1 h0 <? 0) || (24 <=? num2 h1 h0)).
  { cbv zeta. reflexivity. }
  rewrite skip_colon. unfold time.parseStd at 1.
  rewrite getnum_two by assumption.
  destruct ((num2 i1 i0 <? 0) || (60 <=? num2 i1 i0)).
  { cbv zeta. reflexivity. }
  rewrite skip_colon. unfold time.parseStd at 1.
  rewrite getnum_two by assumption.
  destruct ((num2 s1 s0 <? 0) || (60 <=? num2 s1 s0)).
  { cbv zeta. reflexivity. }
  cbn [time.len String.length Z.of_nat Z.leb Z.compare andb].
  cbn [time.f_month time.f_day time.f_hour time.f_min time.f_sec time.f_nsec
       time.f_year].
  replace ((2 <=? time.len EmptyString) && time.commaOrPeriod (time.byteAt EmptyString 0)
           && time.isDigit EmptyString 1) with false by reflexivity.
  cbv iota beta. rewrite skip_empty.
  replace (negb (time.len EmptyString =? 0)) with false by reflexivity.
  cbn [time.f_month time.f_day time.f_hour time.f_min time.f_sec time.f_nsec
       time.f_year].
  assert (Hm : (num2 m1 m0 <? 0) = false).
  { apply Z.ltb_ge. unfold num2.
    pose proof (digit_range m1 ltac:(assumption)).
    pose proof (digit_range m0 ltac:(assumption)). lia. }
  assert (Hd : (num2 d1 d0 <? 0) = false).
  { apply Z.ltb_ge. unfold num2.
    pose proof (digit_range d1 ltac:(assumption)).
    pose proof (digit_range d0 ltac:(assumption)). lia. }
  rewrite Hm, Hd. reflexivity.
Qed.

Lemma append_empty (s : string) : s ++ EmptyString = s.
Proof.
  induction s as [|c s IH]; [reflexivity|].
  change (String c (s ++ EmptyString) = String c s). now rewrite IH.
Qed.

Lemma Format_fields t year month day yday hour min sec :
  time.absDate (time.abs t) = (year, month, day, yday) ->
  time.absClock (time.abs t) = (hour, min, sec) ->
  time.Format t constants.TimeParseLayout
  = time.appendInt year 4 ++ "-" ++ time.appendInt month 2 ++ "-"
    ++ time.appendInt day 2 ++ " " ++ time.appendInt hour 2 ++ ":"
    ++ time.appendInt min 2 ++ ":" ++ time.appendInt sec 2.
Proof.
  intros Hdate Hclock. unfold time.Format.
  cbn [constants.TimeParseLayout time.chunks time.suffix time.formatChunks].
  unfold time.formatStd. rewrite Hdate, Hclock.
  rewrite !append_empty. reflexivity.
Qed.

Lemma canonical_stamp value :
  Spec.canonical value = true ->
  exists y3 y2 y1 y0 m1 m0 d1 d0 h1 h0 i1 i0 s1 s0,
    value = stamp y3 y2 y1 y0 m1 m0 d1 d0 h1 h0 i1 i0 s1 s0
    /\ forallb time.isDigitByte
         [y3; y2; y1; y0; m1; m0; d1; d0; h1; h0; i1; i0; s1; s0] = true.
Proof.
  unfold Spec.canonical. intros Hc.
  do 19 (destruct value as [|? value]; [discriminate Hc|]).
  destruct value; [|discriminate Hc].
  do 5 (apply andb_true_iff in Hc as [Hc ?]).
  repeat match goal with
  | H : Ascii.eqb _ _ = true |- _ => apply Ascii.eqb_eq in H; subst
  end.
  do 14 eexists. split; [reflexivity|exact Hc].
Qed.

(** A timestamp written out in full that parses is formatted back to
    itself. *)
Lemma roundtrip value t :
  Spec.canonical value = true ->
  time.Parse constants.TimeParseLayout value = Some t ->
  time.Format t constants.TimeParseLayout = value.
Proof.
  intros Hc Hparse.
  destruct (canonical_stamp value Hc)
    as (y3 & y2 & y1 & y0 & m1 & m0 & d1 & d0 & h1 & h0 & i1 & i0 & s1 & s0
        & -> & Hall).
  rewrite (Parse_stamp _ _ _ _ _ _ _ _ _ _ _ _ _ _ Hall) in Hparse.
  cbv zeta in Hparse.
  cbn [forallb] in Hall. repeat (apply andb_true_iff in Hall as [? Hall]).
  repeat match goal with
  | H : time.isDigitByte ?c = true |- _ =>
    lazymatch goal with
    | _ : 0 <= digit c <= 9 |- _ => fail
    | _ => pose proof (digit_range c H)
    end
  end.
  repeat match type of Hparse with
  | (if ?b then None else _) = Some _ =>
    destruct b eqn:?; [discriminate Hparse|]
  end.
  injection Hparse as <-.
  repeat match goal with
  | H : (_ || _) = false |- _ => apply orb_false_iff in H as [? ?]
  | H : (_ <? _) = false |- _ => apply Z.ltb_ge in H
  | H : (_ <=? _) = false |- _ => apply Z.leb_gt in H
  end.
  assert (Hdate : Calendar.validDate (num4 y3 y2 y1 y0) (num2 m1 m0) (num2 d1 d0)).
  { unfold Calendar.validDate, num4, num2 in *. lia. }
  assert (Hclock : Calendar.validClock (num2 h1 h0) (num2 i1 i0) (num2 s1 s0)).
  { unfold Calendar.validClock, num2 in *. lia. }
  destruct (Civil.fields_of_Date _ _ _ _ _ _ Hdate Hclock) as (yday & Hd & Hk).
  rewrite (Format_fields _ _ _ _ _ _ _ _ Hd Hk).
  destruct (four_digits y3 y2 y1 y0) as [-> _]; try assumption.
  rewrite !appendInt_two by assumption. reflexivity.
Qed.

End Text.

(** ** C7: a timestamp parsed and formatted again *)

Section Timestamp.

Context `{constants.Values} `{Collaborators}.


End Timestamp.

(** * The theorems at concrete inputs *)

Module Examples.

Import Demo.

(** Names: letters, digits and spaces pass; a hyphen does not; neither does
    a letter outside ASCII (here e with an acute accent, bytes C3 A9). *)
Example names_checked :
  subnetcmd.checkInvalidSubnetNames "my subnet 1" = None
  /\ subnetcmd.checkInvalidSubnetNames "my-subnet" = Some errIllegalNameCharacter
  /\ subnetcmd.checkInvalidSubnetNames
       ("caf" ++ String (ascii_of_nat 195) (String (ascii_of_nat 169) EmptyString))
     = Some errIllegalNameCharacter
  /\ utf8.runes ("caf" ++ String (ascii_of_nat 195) (String (ascii_of_nat 169) EmptyString))
     = [99; 97; 102; 233].
Proof. vm_compute. repeat split; reflexivity. Qed.

(** C2.  The weight flag holds 500, above MaxStakeWeight, and the command
    does not fail with the invalid-weight error: it asks for the weight all
    the same, ends well and hands over a transaction with the default
    weight that the operator chose; so it does with the flag at -7.  The
    range test of lines 116 and 117 tests the local [weight] that line 62
    declares, which is 0 when the test runs, and not the variable of the
    flag. *)
Example weight_flag_is_not_read :
  weight (vars (scripted 500)) = 500
  /\ constants.MaxStakeWeight < 500
  /\ fst (subnetcmd.addValidator ["mysubnet"] (scripted 500)) = Ok tt
  /\ map tx_weight (issued (snd (subnetcmd.addValidator ["mysubnet"] (scripted 500))))
     = [constants.DefaultWeight]
  /\ weight (vars (scripted (-7))) = -7
  /\ fst (subnetcmd.addValidator ["mysubnet"] (scripted (-7))) = Ok tt.
Proof. vm_compute. repeat split; reflexivity. Qed.

Lemma start_flag_too_soon_iff_witness :
  (fst (subnetcmd.getTimeParameters models.Fuji nodeA boundary) = Err errTooSoon
   <-> newYear + 25 * time.Second < clock boundary + constants.StakingMinimumLeadTime)
  /\ (newYear + 25 * time.Second = clock boundary + constants.StakingMinimumLeadTime ->
      fst (subnetcmd.resolveStart boundary) = Ok (newYear + 25 * time.Second)).
Proof.
  apply (start_flag_too_soon_iff models.Fuji nodeA boundary (newYear + 25 * time.Second)).
  - reflexivity.
  - vm_compute. reflexivity.
Defined.

Lemma default_start_fixed_at_init_witness :
  startTimeDefault (vars late) = newYear + constants.StakingStartLeadTime
  /\ (exists w1,
        subnetcmd.resolveStart late = (Ok (newYear + constants.StakingStartLeadTime), w1)
        /\ startTimeDefault (vars w1) = newYear + constants.StakingStartLeadTime)
  /\ (forall start d,
        fst (subnetcmd.getTimeParameters models.Fuji nodeA late) = Ok (start, d) ->
        start = newYear + constants.StakingStartLeadTime).
Proof.
  apply (default_start_fixed_at_init newYear "alice" "NodeID-A" 0 (24 * time.Hour)
           late models.Fuji nodeA []); reflexivity.
Defined.

(** An hour after the start of the program, the default start lies in the
    past of the clock. *)
Example default_start_can_be_past :
  fst (subnetcmd.getTimeParameters models.Fuji nodeA late)
  = Ok (newYear + 5 * time.Minute, 24 * time.Hour)
  /\ newYear + 5 * time.Minute < clock late.
Proof. vm_compute. split; reflexivity. Qed.

(** C1 as stated fails for a negative staking period given by flag: the
    window resolves, with a duration that is not positive. *)
Lemma negative_duration_resolves :
  fst (subnetcmd.getTimeParameters models.Fuji nodeA backwards)
  = Ok (newYear + 24 * time.Hour, - time.Hour)
  /\ ~ (0 < - time.Hour).
Proof. split; [vm_compute; reflexivity|vm_compute; congruence]. Qed.

Lemma window_of_flags_witness :
  clock backwards + constants.StakingMinimumLeadTime <= newYear + 24 * time.Hour
  /\ (duration (vars backwards) <> 0 ->
      - time.Hour = duration (vars backwards) /\ - time.Hour <> 0).
Proof.
  apply (window_of_flags models.Fuji nodeA backwards (newYear + 24 * time.Hour)
           (- time.Hour)).
  - reflexivity.
  - vm_compute. reflexivity.
Defined.

(** C5 as stated fails for an end time more than 292 years after the start:
    the record matches, and the duration returned is the largest duration,
    not the end time minus the start. *)
Lemma distant_end_time_saturates :
  (exists v, In v distantSet /\ v_NodeID v = nodeA)
  /\ fst (subnetcmd.getMaxValidationTime models.Fuji nodeA
            (1690000000 * time.Second) distant)
     = Ok time.maxDuration
  /\ time.maxDuration <> 20000000000 * time.Second - 1690000000 * time.Second.
Proof.
  split; [|split].
  - eexists. split; [left; reflexivity|reflexivity].
  - vm_compute. reflexivity.
  - vm_compute. congruence.
Qed.

(** The spec's example: end 1700000000, start 1690000000, 10000000 seconds. *)
Lemma until_expires_duration_witness :
  fst (subnetcmd.getMaxValidationTime models.Fuji nodeA
         (1690000000 * time.Second) example)
  = Ok (10000000 * time.Second)
  /\ fst (subnetcmd.getMaxValidationTime models.Fuji nodeB
            (1690000000 * time.Second) example)
     = Err (errNodeNotFound nodeB).
Proof.
  destruct (until_expires_duration models.Fuji nodeA (1690000000 * time.Second)
              example validatorSet eq_refl) as (Hfirst & _ & _).
  destruct (until_expires_duration models.Fuji nodeB (1690000000 * time.Second)
              example validatorSet eq_refl) as (_ & _ & Hnone).
  split.
  - apply (Hfirst [] {| v_NodeID := nodeA; v_EndTime := 1700000000 |} []).
    + reflexivity.
    + constructor.
    + reflexivity.
    + vm_compute. split; congruence.
    + vm_compute. split; congruence.
  - apply Hnone. repeat constructor. vm_compute. congruence.
Defined.

Lemma failed_addValidator_writes_nothing_witness :
  disk (snd (subnetcmd.addValidator ["mysubnet"] refused)) = disk refused
  /\ (issued (snd (subnetcmd.addValidator ["mysubnet"] refused)) = issued refused
      \/ exists tx what,
           issued (snd (subnetcmd.addValidator ["mysubnet"] refused))
           = tx :: issued refused
           /\ submission refused tx = Some what
           /\ errCollaborator "rejected by the platform" = errCollaborator what).
Proof.
  apply (failed_addValidator_writes_nothing ["mysubnet"] refused
           (errCollaborator "rejected by the platform")).
  vm_compute. reflexivity.
Defined.

(** A write of the create command changes the files: leaving them alone is
    a property of the add-validator workflow, not of the world. *)
Example a_write_shows_in_the_files :
  disk (snd (app.WriteGenesisFile "mysubnet" "{}" example)) <> disk example.
Proof.
  intros Hsame.
  apply (f_equal (fun d => genesis d !! "mysubnet")) in Hsame.
  rewrite Frame.WriteGenesisFile_writes in Hsame. discriminate Hsame.
Qed.



End Examples.

(** * The create command *)
Module Names.

Section WithTables.
Context `{unicode.Tables}.

Lemma accepts_iff name :
  subnetcmd.checkInvalidSubnetNames name = None
  <-> Forall (fun b => Spec.legalChar b = true) (strings.bytes name).
Proof.
  unfold subnetcmd.checkInvalidSubnetNames, utf8.runes.
  pose proof (NameCheck.bytes_range name) as Hb. split.
  - apply NameCheck.range_fuel_accepts; [exact Hb|lia].
  - intros Hall. rewrite NameCheck.range_fuel_ascii.
    + apply NameCheck.checkRunes_None; [|exact Hall].
      eapply Forall_impl; [exact Hb|]. simpl. intros; lia.
    + lia.
    + eapply Forall_impl; [exact Hall|]. intros b. apply NameCheck.legalChar_ascii.
Qed.

Lemma bytes_app a b :
  strings.bytes (a ++ b) = (strings.bytes a ++ strings.bytes b)%list.
Proof.
  induction a as [|c a IH]; [reflexivity|].
  change (strings.byte c :: strings.bytes (a ++ b)
          = strings.byte c :: (strings.bytes a ++ strings.bytes b)%list).
  now rewrite IH.
Qed.

End WithTables.
End Names.

Section NamesCompose.
Context `{unicode.Tables}.

(** X3.  The empty name passes [checkInvalidSubnetNames], and a name made
    of two parts passes exactly when both parts pass. *)
Theorem checkInvalidSubnetNames_parts (a b : string) :
  subnetcmd.checkInvalidSubnetNames EmptyString = None
  /\ (subnetcmd.checkInvalidSubnetNames (a ++ b) = None
      <-> subnetcmd.checkInvalidSubnetNames a = None
          /\ subnetcmd.checkInvalidSubnetNames b = None).
Proof.
  split; [reflexivity|].
  rewrite !Names.accepts_iff, Names.bytes_app. apply Forall_app.
Qed.
End NamesCompose.

Module CreateRun.

Import create Chosen.

Lemma stopped_run {A B : Type} (m : C A) (f : A -> C B) (w : World) :
  (m ≫= f) w =
  match m w with
  | (Fine a, w') => f a w'
  | (Stopped e, w') => (Stopped e, w')
  end.
Proof. reflexivity. Qed.

Lemma moreThanOne_count firstSelect vmVars :
  create.moreThanOne firstSelect vmVars = true
  <-> (2 <= (if firstSelect then 1 else 0) + Chosen.selected vmVars)%nat.
Proof.
  unfold Chosen.selected. revert firstSelect.
  induction vmVars as [|val rest IH]; intros firstSelect; cbn.
  - destruct firstSelect; split; (discriminate || lia).
  - destruct firstSelect, val; cbn; rewrite ?IH; cbn; split; intros; (reflexivity || lia).
Qed.

Lemma moreThanOneVMSelected_both fl :
  create.moreThanOneVMSelected fl = true
  <-> create.useSubnetEvm fl = true /\ create.useCustom fl = true.
Proof.
  unfold create.moreThanOneVMSelected.
  destruct (create.useSubnetEvm fl), (create.useCustom fl); cbn;
    split; intros Hx; try discriminate; try tauto; destruct Hx; discriminate.
Qed.

Lemma stops_bind {A B} P (m : C A) (f : A -> C B) :
  stops P m -> (forall a, stops P (f a)) -> stops P (m ≫= f).
Proof.
  intros Hm Hf w e. rewrite stopped_run. specialize (Hm w).
  destruct (m w) as [[a|e'] w'].
  - apply Hf.
  - cbn. intros [= <-]. now apply Hm.
Qed.

Lemma stops_ret {A} P (a : A) : stops P (mret a).
Proof. intros w e He. discriminate He. Qed.

Lemma stops_stop {A} (P : createError -> Prop) e : P e -> stops P (@stop A e).
Proof. intros HP w e' He. cbn in He. congruence. Qed.

Lemma stops_returned {A} (P : createError -> Prop) (m : M A) :
  (forall e, P (errReturned e)) -> stops P (returned m).
Proof.
  intros HP w e. unfold returned. destruct (m w) as [[a|e'] w']; cbn.
  - discriminate.
  - intros [= <-]. apply HP.
Qed.

Section WithSetting.
Context `{unicode.Tables} `{Setting}.

Lemma stops_WriteGenesisFile P name bytes :
  (forall e, P (errReturned e)) -> stops P (WriteGenesisFile name bytes).
Proof.
  intros HP w e. unfold WriteGenesisFile.
  destruct (writeGenesisFails _ _ _); cbn; [intros [= <-]; apply HP|discriminate].
Qed.

Lemma stops_CreateSidecar P sc :
  (forall e, P (errReturned e)) -> stops P (CreateSidecar sc).
Proof.
  intros HP w e. unfold CreateSidecar.
  destruct (createSidecarFails _ _); cbn; [intros [= <-]; apply HP|discriminate].
Qed.

Lemma stops_chooseVM fl : stops isReturned (chooseVM fl).
Proof.
  unfold chooseVM. cbv zeta. destruct (String.eqb _ _); [|apply stops_ret].
  apply stops_bind; [|intros; apply stops_ret].
  apply stops_returned. intros e. now exists e.
Qed.

Lemma stops_configure fl name ty :
  stops (fun e => isReturned e \/ e = errNotImplemented) (configure fl name ty).
Proof.
  assert (Hr : forall e, isReturned (errReturned e) \/ errReturned e = errNotImplemented)
    by (intros e; left; now exists e).
  unfold configure. apply stops_bind.
  - destruct (String.eqb ty subnetEvm); [now apply stops_returned|].
    destruct (String.eqb ty customVM); [now apply stops_returned|].
    apply stops_stop. now right.
  - intros [bytes sc]. apply stops_bind; [now apply stops_WriteGenesisFile|].
    intros _. apply stops_bind; [now apply stops_CreateSidecar|].
    intros _. now apply stops_returned.
Qed.

(** What is left of [createGenesis] once its three checks have passed. *)
Lemma createGenesis_run fl name rest w :
  createGenesis fl (name :: rest) w =
  if GenesisExists (disk w) name && negb (forceCreate fl)
  then (Stopped errConfigExists, w)
  else match subnetcmd.checkInvalidSubnetNames name with
       | Some err => (Stopped (errInvalidName name err), w)
       | None =>
         if moreThanOneVMSelected fl then (Stopped errTooManyVMs, w)
         else (chooseVM fl ≫= configure fl name) w
       end.
Proof.
  change (createGenesis fl (name :: rest) w)
    with ((if GenesisExists (disk w) name && negb (forceCreate fl)
           then stop errConfigExists
           else match subnetcmd.checkInvalidSubnetNames name with
                | Some err => stop (errInvalidName name err)
                | None =>
                  if moreThanOneVMSelected fl then stop errTooManyVMs
                  else chooseVM fl ≫= configure fl name
                end) w).
  destruct (GenesisExists (disk w) name && negb (forceCreate fl)); [reflexivity|].
  destruct (subnetcmd.checkInvalidSubnetNames name); [reflexivity|].
  destruct (moreThanOneVMSelected fl); reflexivity.
Qed.

Lemma chooseVM_keeps fl w :
  disk (snd (chooseVM fl w)) = disk w /\ issued (snd (chooseVM fl w)) = issued w.
Proof.
  unfold chooseVM. cbv zeta. destruct (String.eqb _ _); [|split; reflexivity].
  rewrite stopped_run. unfold returned.
  destruct (Frame.quiet_CaptureList "Choose your VM" [subnetEvm; customVM])
    as [Hf Hi].
  specialize (Hf w). specialize (Hi w). unfold Outcomes.fixedPart in Hf.
  destruct (Prompt.CaptureList _ _ w) as [[a|e] w1];
    cbn [fst snd mret C_ret] in *; split; congruence.
Qed.

Lemma stops_writes name p :
  stops isReturned
    (let '(genesisBytes, sc) := p : string * models.Sidecar in
     _ ← WriteGenesisFile name genesisBytes;
     _ ← CreateSidecar sc;
     returned (PrintToUser "Successfully created subnet configuration")).
Proof.
  assert (Hr : forall e, isReturned (errReturned e)) by (intros e; now exists e).
  destruct p as [bytes sc].
  apply stops_bind; [now apply stops_WriteGenesisFile|].
  intros _. apply stops_bind; [now apply stops_CreateSidecar|].
  intros _. now apply stops_returned.
Qed.

(** An error of the command's own in [configure] is raised before anything
    is done. *)
Lemma configure_own_error fl name ty w e :
  fst (configure fl name ty w) = Stopped e ->
  (forall e', e <> errReturned e') ->
  snd (configure fl name ty w) = w.
Proof.
  intros Hrun Hown. unfold configure in *. rewrite stopped_run in *.
  assert (Hwiz : forall m : M (string * models.Sidecar),
    fst (match returned m w with
         | (Fine a, w') =>
           (let '(genesisBytes, sc) := a in
            _ ← WriteGenesisFile name genesisBytes;
            _ ← CreateSidecar sc;
            returned (PrintToUser "Successfully created subnet configuration")) w'
         | (Stopped e0, w') => (Stopped e0, w')
         end) = Stopped e -> False).
  { intros m. unfold returned at 1.
    destruct (m w) as [[p|e1] w1].
    - intros Hx. destruct (stops_writes name p w1 e Hx) as [e' ->].
      now destruct (Hown e').
    - cbn. intros [= <-]. now destruct (Hown e1). }
  destruct (String.eqb ty subnetEvm); [now destruct (Hwiz _ Hrun)|].
  destruct (String.eqb ty customVM); [now destruct (Hwiz _ Hrun)|].
  reflexivity.
Qed.

(** The world that a successful [configure] leaves. *)
Lemma configure_success fl name ty w :
  fst (configure fl name ty w) = Fine tt ->
  exists bytes sc w2,
    snd (configure fl name ty w)
    = snd (PrintToUser "Successfully created subnet configuration"
             (snd (app.CreateSidecar sc (snd (app.WriteGenesisFile name bytes w2))))).
Proof.
  unfold configure. rewrite stopped_run.
  assert (Hwiz : forall (m : M (string * models.Sidecar)) run,
    run =
      match returned m w with
      | (Fine a, w') =>
        (let '(genesisBytes, sc) := a in
         _ ← WriteGenesisFile name genesisBytes;
         _ ← CreateSidecar sc;
         returned (PrintToUser "Successfully created subnet configuration")) w'
      | (Stopped e0, w') => (Stopped e0, w')
      end ->
    fst run = Fine tt ->
    exists bytes sc w2,
      snd run
      = snd (PrintToUser "Successfully created subnet configuration"
               (snd (app.CreateSidecar sc (snd (app.WriteGenesisFile name bytes w2)))))).
  { intros m run Hr. unfold returned at 1 in Hr.
    destruct (m w) as [[[bytes sc]|e1] w2]; [|subst run; discriminate].
    rewrite stopped_run in Hr. unfold WriteGenesisFile at 1 in Hr.
    destruct (writeGenesisFails _ _ _); [subst run; discriminate|].
    cbn [returned app.WriteGenesisFile] in Hr. rewrite stopped_run in Hr.
    unfold CreateSidecar at 1 in Hr. cbn [disk] in Hr.
    destruct (createSidecarFails _ _); [subst run; discriminate|].
    intros _. exists bytes, sc, w2. subst run. reflexivity. }
  destruct (String.eqb ty subnetEvm); [eapply Hwiz; reflexivity|].
  destruct (String.eqb ty customVM); [eapply Hwiz; reflexivity|].
  discriminate.
Qed.

Lemma GenesisExists_written d name bytes :
  genesis d !! name = Some bytes -> GenesisExists d name = true.
Proof. unfold GenesisExists. now intros ->. Qed.

Lemma createGenesis_blocked fl name rest w :
  GenesisExists (disk w) name = true -> forceCreate fl = false ->
  createGenesis fl (name :: rest) w = (Stopped errConfigExists, w).
Proof.
  intros Hex Hforce. rewrite createGenesis_run, Hex, Hforce. reflexivity.
Qed.

Lemma stops_rest fl name :
  stops (fun e => isReturned e \/ e = errNotImplemented)
        (chooseVM fl ≫= configure fl name).
Proof.
  apply stops_bind.
  - intros w e He. left. exact (stops_chooseVM fl w e He).
  - intros ty. apply stops_configure.
Qed.

End WithSetting.

End CreateRun.

Section Create.

Import create.
Context `{unicode.Tables} `{create.Setting}.

(** X1.  The loop of [moreThanOneVMSelected] answers true exactly when at
    least two of the flags it runs over are set; for the two VM flags of the
    command, exactly when both are set. *)
Theorem moreThanOneVMSelected_iff (fl : create.Flags) :
  (forall vmVars, create.moreThanOne false vmVars = true
                  <-> (2 <= Chosen.selected vmVars)%nat)
  /\ (create.moreThanOneVMSelected fl = true
      <-> create.useSubnetEvm fl = true /\ create.useCustom fl = true).
Proof.
  split.
  - intros vmVars. apply (CreateRun.moreThanOne_count false vmVars).
  - apply CreateRun.moreThanOneVMSelected_both.
Qed.

(** X2.  The refusals of [createGenesis], in the order of the code.  It
    ends with the configuration-exists error exactly when the genesis of the
    subnet exists and the force flag is off; with the invalid-name error
    exactly when that check passes and the name holds a byte that is not an
    ASCII letter, an ASCII digit or a space; with the too-many-VMs error
    exactly when both checks pass and both VM flags are set.  A run that
    ends with one of these has changed nothing. *)
Theorem createGenesis_refusals (fl : create.Flags) (name : string)
    (rest : list string) (w : World) :
  let blocked := create.GenesisExists (disk w) name = true
                 /\ create.forceCreate fl = false in
  let legal := Forall (fun b => Spec.legalChar b = true) (strings.bytes name) in
  let run := create.createGenesis fl (name :: rest) w in
  (fst run = create.Stopped create.errConfigExists <-> blocked)
  /\ (fst run = create.Stopped (create.errInvalidName name errIllegalNameCharacter)
      <-> ~ blocked /\ ~ legal)
  /\ (fst run = create.Stopped create.errTooManyVMs
      <-> ~ blocked /\ legal
          /\ create.useSubnetEvm fl = true /\ create.useCustom fl = true)
  /\ ((fst run = create.Stopped create.errConfigExists
       \/ (exists n cause, fst run = create.Stopped (create.errInvalidName n cause))
       \/ fst run = create.Stopped create.errTooManyVMs) ->
      snd run = w).
Proof.
  cbv zeta. rewrite CreateRun.createGenesis_run.
  assert (Hlater : forall e,
    fst ((create.chooseVM fl ≫= create.configure fl name) w) = create.Stopped e ->
    Chosen.isReturned e \/ e = create.errNotImplemented)
    by (intros e; apply CreateRun.stops_rest).
  assert (Hb : create.GenesisExists (disk w) name && negb (create.forceCreate fl) = true
               <-> create.GenesisExists (disk w) name = true
                   /\ create.forceCreate fl = false).
  { rewrite andb_true_iff, negb_true_iff. tauto. }
  destruct (create.GenesisExists (disk w) name && negb (create.forceCreate fl)) eqn:Eb.
  { assert (Hblocked := proj1 Hb eq_refl). cbn [fst snd].
    repeat split; try tauto; try discriminate; intros Hx; tauto. }
  assert (Hnb : ~ (create.GenesisExists (disk w) name = true
                   /\ create.forceCreate fl = false)).
  { intros Hx. apply Hb in Hx. discriminate. }
  pose proof (Names.accepts_iff name) as Hacc.
  destruct (NameCheck.checkRunes_cases (utf8.runes name)) as [E|E];
    unfold subnetcmd.checkInvalidSubnetNames in *; rewrite E in *.
  2: { assert (Hill : ~ Forall (fun b => Spec.legalChar b = true) (strings.bytes name)).
       { intros Hx. apply Hacc in Hx. discriminate. }
       cbn [fst snd]. repeat split; try tauto; try discriminate; intros Hx; tauto. }
  assert (Hleg := proj1 Hacc eq_refl).
  pose proof (CreateRun.moreThanOneVMSelected_both fl) as Hboth.
  destruct (create.moreThanOneVMSelected fl) eqn:Em.
  { assert (Hb2 := proj1 Hboth eq_refl). cbn [fst snd].
    repeat split; try tauto; try discriminate; intros Hx; tauto. }
  assert (Hnboth : ~ (create.useSubnetEvm fl = true /\ create.useCustom fl = true)).
  { intros Hx. apply Hboth in Hx. discriminate. }
  assert (Hno : forall e, ~ Chosen.isReturned e -> e <> create.errNotImplemented ->
                fst ((create.chooseVM fl ≫= create.configure fl name) w)
                <> create.Stopped e).
  { intros e H1 H2 Hx. destruct (Hlater e Hx); tauto. }
  assert (N1 : ~ Chosen.isReturned create.errConfigExists) by (intros [? ?]; discriminate).
  assert (N2 : forall n c, ~ Chosen.isReturned (create.errInvalidName n c))
    by (intros n c [? ?]; discriminate).
  assert (N3 : ~ Chosen.isReturned create.errTooManyVMs) by (intros [? ?]; discriminate).
  repeat split; intros; try tauto; exfalso;
    repeat match goal with
    | Hy : _ \/ _ |- _ => destruct Hy as [Hy|Hy]
    | Hy : exists _, _ |- _ => destruct Hy as [? Hy]
    end;
    match goal with
    | Hx : fst _ = Stopped _ |- _ =>
      first [ exact (Hno _ N1 ltac:(discriminate) Hx)
            | exact (Hno _ (N2 _ _) ltac:(discriminate) Hx)
            | exact (Hno _ N3 ltac:(discriminate) Hx) ]
    end.
Qed.


(** X4.  When [createGenesis] stops with an error of its own, and not with
    one returned by the prompt, a wizard or a write, no file was written and
    nothing was handed to the deployer. *)
Theorem createGenesis_own_errors_keep_files (fl : create.Flags)
    (args : list string) (w : World) (e : create.createError) :
  fst (create.createGenesis fl args w) = create.Stopped e ->
  (forall e', e <> create.errReturned e') ->
  disk (snd (create.createGenesis fl args w)) = disk w
  /\ issued (snd (create.createGenesis fl args w)) = issued w.
Proof.
  intros Hrun Hown.
  destruct args as [|name rest]; [split; reflexivity|].
  rewrite CreateRun.createGenesis_run in *.
  destruct (create.GenesisExists (disk w) name && negb (create.forceCreate fl));
    [split; reflexivity|].
  destruct (subnetcmd.checkInvalidSubnetNames name); [split; reflexivity|].
  destruct (create.moreThanOneVMSelected fl); [split; reflexivity|].
  rewrite CreateRun.stopped_run in *.
  pose proof (CreateRun.chooseVM_keeps fl w) as Hkeep.
  pose proof (CreateRun.stops_chooseVM fl w) as Hchoose.
  destruct (create.chooseVM fl w) as [[ty|e1] w1]; cbn [fst snd] in *.
  2: { injection Hrun as ->. destruct (Hchoose e eq_refl) as [e' ->].
       now destruct (Hown e'). }
  rewrite (CreateRun.configure_own_error fl name ty w1 e Hrun Hown). exact Hkeep.
Qed.


(** X5.  After a successful [createGenesis] the genesis of the subnet and a
    sidecar are on file and the last line shown is the success message; a
    second create of the same name without the force flag is then refused
    with the configuration-exists error and changes nothing. *)
Theorem createGenesis_success_persists (fl : create.Flags) (name : string)
    (rest : list string) (w : World) :
  fst (create.createGenesis fl (name :: rest) w) = create.Fine tt ->
  let w' := snd (create.createGenesis fl (name :: rest) w) in
  (exists bytes, genesis (disk w') !! name = Some bytes)
  /\ (exists sc, sidecars (disk w') !! models.Name sc = Some sc)
  /\ head (shown w') = Some (Printed "Successfully created subnet configuration")
  /\ (forall fl' rest',
        create.forceCreate fl' = false ->
        create.createGenesis fl' (name :: rest') w'
        = (create.Stopped create.errConfigExists, w')).
Proof.
  intros Hrun w'.
  assert (Hw' : exists bytes sc w2,
    w' = snd (PrintToUser "Successfully created subnet configuration"
                (snd (app.CreateSidecar sc (snd (app.WriteGenesisFile name bytes w2)))))).
  { subst w'. rewrite CreateRun.createGenesis_run in *.
    destruct (create.GenesisExists (disk w) name && negb (create.forceCreate fl));
      [discriminate|].
    destruct (subnetcmd.checkInvalidSubnetNames name); [discriminate|].
    destruct (create.moreThanOneVMSelected fl); [discriminate|].
    rewrite CreateRun.stopped_run in *.
    destruct (create.chooseVM fl w) as [[ty|e1] w1]; [|discriminate].
    now apply CreateRun.configure_success. }
  destruct Hw' as (bytes & sc & w2 & Hw').
  assert (Hg : genesis (disk w') !! name = Some bytes).
  { rewrite Hw'. cbn. apply lookup_insert_eq. }
  split; [now exists bytes|]. split; [|split].
  - exists sc. rewrite Hw'. cbn. apply lookup_insert_eq.
  - rewrite Hw'. reflexivity.
  - intros fl' rest' Hforce. apply CreateRun.createGenesis_blocked; [|exact Hforce].
    exact (CreateRun.GenesisExists_written _ _ _ Hg).
Qed.

(** X6.  [createGenesis] writes the genesis file before the sidecar and
    does not take it back.  With the EVM flag, when the wizard and the write
    of the genesis succeed and the sidecar cannot be written, the command
    ends with the error of that write, the genesis file stays, no sidecar is
    added, and a retry without the force flag is refused. *)
Theorem evm_create_sidecar_failure (fl : create.Flags) (name : string)
    (rest : list string) (w w2 : World) (bytes : string) (sc : models.Sidecar)
    (what : string) :
  create.useSubnetEvm fl = true -> create.useCustom fl = false ->
  create.models_SubnetEvm = create.subnetEvm ->
  create.subnetEvm <> EmptyString ->
  create.GenesisExists (disk w) name && negb (create.forceCreate fl) = false ->
  subnetcmd.checkInvalidSubnetNames name = None ->
  create.CreateEvmSubnetConfig name (create.genesisFile fl) w = (Ok (bytes, sc), w2) ->
  create.writeGenesisFails (disk w2) name bytes = None ->
  (forall d, create.createSidecarFails d sc = Some what) ->
  let w' := snd (create.createGenesis fl (name :: rest) w) in
  fst (create.createGenesis fl (name :: rest) w)
  = create.Stopped (create.errReturned (errCollaborator what))
  /\ genesis (disk w') !! name = Some bytes
  /\ sidecars (disk w') = sidecars (disk w2)
  /\ (forall fl' rest',
        create.forceCreate fl' = false ->
        create.createGenesis fl' (name :: rest') w'
        = (create.Stopped create.errConfigExists, w')).
Proof.
  intros Hevm Hcustom Hmodel Hne Hfree Hname Hwiz Hwrite Hside w'.
  assert (Hrun : create.createGenesis fl (name :: rest) w
                 = (create.Stopped (create.errReturned (errCollaborator what)),
                    snd (app.WriteGenesisFile name bytes w2))).
  { rewrite CreateRun.createGenesis_run, Hfree, Hname.
    unfold create.moreThanOneVMSelected. rewrite Hevm, Hcustom. cbn [create.moreThanOne andb].
    rewrite CreateRun.stopped_run.
    unfold create.chooseVM, create.getVMFromFlag. rewrite Hevm, Hmodel. cbv zeta.
    destruct (String.eqb_spec create.subnetEvm EmptyString) as [E|_];
      [contradiction|].
    cbn [mret create.C_ret]. unfold create.configure.
    rewrite String.eqb_refl, CreateRun.stopped_run.
    unfold create.returned at 1. rewrite Hwiz.
    rewrite CreateRun.stopped_run. unfold create.WriteGenesisFile at 1. rewrite Hwrite.
    cbn [create.returned app.WriteGenesisFile]. rewrite CreateRun.stopped_run.
    unfold create.CreateSidecar at 1. rewrite Hside. reflexivity. }
  subst w'. rewrite Hrun. cbn [fst snd].
  assert (Hg : genesis (disk (snd (app.WriteGenesisFile name bytes w2))) !! name
               = Some bytes) by (cbn; apply lookup_insert_eq).
  split; [reflexivity|]. split; [exact Hg|]. split; [reflexivity|].
  intros fl' rest' Hforce. apply CreateRun.createGenesis_blocked; [|exact Hforce].
  exact (CreateRun.GenesisExists_written _ _ _ Hg).
Qed.

End Create.

(** * The dialogue of the add-validator command *)
Module Suffix.

Import strings.

Lemma append_assoc (a b c : string) : (a ++ b) ++ c = a ++ (b ++ c).
Proof.
  induction a as [|x a IH]; [reflexivity|].
  change (String x ((a ++ b) ++ c) = String x (a ++ (b ++ c))). now rewrite IH.
Qed.

Lemma append_nil (a : string) : a ++ EmptyString = a.
Proof.
  induction a as [|x a IH]; [reflexivity|].
  change (String x (a ++ EmptyString) = String x a). now rewrite IH.
Qed.

Lemma rev_acc_app s acc : rev_acc s acc = reverse s ++ acc.
Proof.
  unfold reverse. revert acc. induction s as [|c s IH]; intros acc; [reflexivity|].
  cbn [rev_acc]. rewrite IH, (IH (String c EmptyString)), append_assoc. reflexivity.
Qed.

Lemma reverse_cons c s : reverse (String c s) = reverse s ++ String c EmptyString.
Proof. unfold reverse at 1. cbn [rev_acc]. apply rev_acc_app. Qed.

Lemma reverse_app a b : reverse (a ++ b) = reverse b ++ reverse a.
Proof.
  induction a as [|c a IH].
  - change (reverse b = reverse b ++ EmptyString). now rewrite append_nil.
  - change (reverse (String c (a ++ b)) = reverse b ++ reverse (String c a)).
    rewrite !reverse_cons, IH, append_assoc. reflexivity.
Qed.

Lemma reverse_reverse s : reverse (reverse s) = s.
Proof.
  induction s as [|c s IH]; [reflexivity|].
  rewrite reverse_cons, reverse_app, IH. reflexivity.
Qed.

Lemma dropPrefix_app p r : dropPrefix p (p ++ r) = Some r.
Proof.
  induction p as [|c p IH]; [destruct r; reflexivity|].
  change (dropPrefix (String c p) (String c (p ++ r)) = Some r).
  cbn [dropPrefix]. now rewrite Ascii.eqb_refl.
Qed.

Lemma dropPrefix_Some p s r : dropPrefix p s = Some r -> s = p ++ r.
Proof.
  revert s. induction p as [|c p IH]; intros s.
  - destruct s; cbn; now intros [= <-].
  - destruct s as [|b s]; cbn [dropPrefix]; [discriminate|].
    destruct (Ascii.eqb_spec c b) as [<-|]; [|discriminate].
    intros Hd. apply IH in Hd as ->. reflexivity.
Qed.

(** [strings.HasSuffix] and [strings.TrimSuffix] by what they mean. *)
Lemma HasSuffix_iff s suffix :
  HasSuffix s suffix = true <-> exists stem, s = stem ++ suffix.
Proof.
  unfold HasSuffix. split.
  - destruct (dropPrefix _ _) as [r|] eqn:Hd; [intros _|discriminate].
    apply dropPrefix_Some in Hd. exists (reverse r).
    rewrite <- (reverse_reverse s), Hd, reverse_app, reverse_reverse. reflexivity.
  - intros [stem ->]. now rewrite reverse_app, dropPrefix_app.
Qed.

Lemma TrimSuffix_app stem suffix : TrimSuffix (stem ++ suffix) suffix = stem.
Proof.
  unfold TrimSuffix. rewrite reverse_app, dropPrefix_app. apply reverse_reverse.
Qed.

Lemma append_cancel (a b suffix : string) : a ++ suffix = b ++ suffix -> a = b.
Proof.
  intros Heq. rewrite <- (TrimSuffix_app a suffix), Heq. apply TrimSuffix_app.
Qed.

End Suffix.

Section KeyPrompt.

Context `{unicode.Tables} `{constants.Values} `{Collaborators}.

(** X7.  [captureKeyName] on a readable key directory: the prompt lists one
    option per file, in the order of the directory, the name without the key
    suffix for a file that ends in it and the empty string for any other
    file; the operator's choice is returned and stored in the package-level
    [keyName]. *)
Theorem captureKeyName_options (w : World) (files : list string) (k : string)
    (rest : list Answer) :
  keyDir (disk w) = Some files ->
  script w = AList k :: rest ->
  exists options w',
    subnetcmd.captureKeyName w = (Ok k, w')
    /\ shown w'
       = Asked KList "Which private key should be used to issue the transaction?"
               options :: shown w
    /\ Forall2 (Keys.isOption constants.KeySuffix) files options
    /\ keyName (vars w') = k
    /\ script w' = rest.
Proof.
  intros Hdir Hs.
  exists (map (fun f => if strings.HasSuffix f constants.KeySuffix
                        then strings.TrimSuffix f constants.KeySuffix
                        else EmptyString) files).
  destruct w as [v sc sh cl dk cv sb iss]. cbn [script disk shown] in *. subst sc.
  unfold subnetcmd.captureKeyName, app.ReadKeyDir.
  rewrite !Run.bind_run. cbn [getDisk disk]. rewrite Hdir.
  cbn [mret M_ret]. rewrite Run.bind_run. unfold try, Prompt.CaptureList.
  rewrite !Run.bind_run. cbn.
  eexists. split; [reflexivity|]. cbn.
  split; [reflexivity|]. split; [|split; reflexivity].
  clear. induction files as [|f files IH]; constructor; [|exact IH].
  unfold Keys.isOption.
  destruct (strings.HasSuffix f constants.KeySuffix) eqn:Hsuf.
  - split.
    + intros stem ->. apply Suffix.TrimSuffix_app.
    + intros Hno. apply Suffix.HasSuffix_iff in Hsuf as [stem ->].
      now destruct (Hno stem).
  - split; [|reflexivity].
    intros stem ->.
    assert (strings.HasSuffix (stem ++ constants.KeySuffix) constants.KeySuffix = true)
      by (apply Suffix.HasSuffix_iff; now exists stem).
    congruence.
Qed.

End KeyPrompt.



Module Stepping.

(** Run a command on a world that is known far enough. *)
Ltac run_cmd :=
  repeat first [ rewrite !Run.bind_run
               | progress cbn -[String.eqb time.Parse time.Format GoInt.itoa] ].

End Stepping.

Section Prompts.

Import Stepping.

Context `{constants.Values} `{Collaborators}.

(** X10.  The weight step of the command, which is [promptWeight]: the
    default option gives DefaultWeight after one prompt; any other option
    leads to the weight prompt, and the value that prompt hands back is
    returned as it is, whatever it is: the command applies no range check of
    its own to it. *)
Theorem prompted_weight_is_not_checked (w : World) (c : string)
    (rest : list Answer) :
  script w = AList c :: rest ->
  let label := "Default (" ++ GoInt.itoa constants.DefaultWeight ++ ")" in
  let asked := Asked KList Dialogue.weightText [label; "Custom"] in
  (c = label ->
   subnetcmd.resolveWeight 0 w
   = (Ok constants.DefaultWeight, Transcript.after w rest [asked]))
  /\ (c <> label ->
      forall x rest', rest = AWeight x :: rest' ->
      subnetcmd.resolveWeight 0 w
      = (Ok x, Transcript.after w rest' [Asked KWeight Dialogue.weightText []; asked])).
Proof.
  intros Hs label asked.
  destruct w as [v sc sh cl dk cv sb iss]. cbn [script] in Hs. subst sc.
  change (subnetcmd.resolveWeight 0) with subnetcmd.promptWeight.
  unfold subnetcmd.promptWeight. cbv zeta. fold label. clearbody label.
  unfold Prompt.CaptureList, Prompt.CaptureWeight, Transcript.after,
    Dialogue.weightText, mbind, M_bind, mret, M_ret.
  cbn -[String.eqb].
  split.
  - intros Hc. destruct (String.eqb_spec c label) as [_|]; [|contradiction].
    reflexivity.
  - intros Hne x rest' ->.
    destruct (String.eqb_spec c label) as [|_]; [contradiction|].
    reflexivity.
Qed.

(** X11.  Without a start-time flag, when the operator does not choose the
    default start, the start time is what the date prompt hands back,
    whatever it is: it is neither compared with the clock nor with
    StakingMinimumLeadTime, unlike a start given by the flag. *)
Theorem prompted_start_is_not_checked (w : World) (c : string) (t : time.Time)
    (rest : list Answer) :
  strings.isEmpty (startTimeStr (vars w)) = true ->
  script w = AList c :: ADate t :: rest ->
  c <> subnetcmd.defaultStartOption ->
  subnetcmd.resolveStart w
  = (Ok t,
     Transcript.after w rest
       [Asked KDate Dialogue.startText [];
        Asked KList "Start time" [subnetcmd.defaultStartOption; subnetcmd.custom];
        Printed Dialogue.startIntro]).
Proof.
  intros Hflag Hs Hne.
  destruct w as [v sc sh cl dk cv sb iss]. cbn [script vars] in *. subst sc.
  unfold subnetcmd.resolveStart. rewrite Run.bind_run. cbn [getVars vars].
  rewrite Hflag. cbv zeta.
  unfold PrintToUser, Prompt.CaptureList, subnetcmd.promptStart,
    Prompt.CaptureDate, mbind, M_bind, mret, M_ret.
  cbn -[String.eqb].
  destruct (String.eqb_spec c subnetcmd.defaultStartOption) as [|_];
    [contradiction|].
  reflexivity.
Qed.

(** X9.  The command cannot run without an operator: whatever the flags,
    with no answer to come it fails with an error of a prompt, or of the
    read of the key directory when no key is given and the directory cannot
    be read, and hands nothing to the deployer. *)
Theorem addValidator_needs_operator (args : list string) (w : World) :
  script w = [] ->
  exists what,
    fst (subnetcmd.addValidator args w) = Err (errCollaborator what)
    /\ issued (snd (subnetcmd.addValidator args w)) = issued w
    /\ (what = "EOF"
        \/ (what = "ReadDir" /\ keyName (vars w) = EmptyString
            /\ keyDir (disk w) = None)).
Proof.
  intros Hs. destruct w as [v sc sh cl dk cv sb iss]. cbn [script] in Hs. subst sc.
  destruct v as [key nid wt st du sd]. destruct dk as [kd sds gen].
  unfold subnetcmd.addValidator. cbv zeta.
  destruct key as [|c key].
  - destruct kd as [files|].
    + exists "EOF". unfold subnetcmd.captureKeyName, app.ReadKeyDir, try,
        Prompt.CaptureList, set_keyName. run_cmd.
      split; [reflexivity|]. split; [reflexivity|now left].
    + exists "ReadDir". unfold subnetcmd.captureKeyName, app.ReadKeyDir, try,
        set_keyName. run_cmd.
      split; [reflexivity|]. split; [reflexivity|now right].
  - exists "EOF". unfold Prompt.CaptureList. run_cmd.
    split; [reflexivity|]. split; [reflexivity|now left].
Qed.

(** X8.  When no key is given and the key directory cannot be read, the
    command fails with the error of the read before it shows anything or
    takes any answer, and hands nothing to the deployer. *)
Theorem unreadable_keys_stop_the_command (args : list string) (w : World) :
  keyName (vars w) = EmptyString ->
  keyDir (disk w) = None ->
  fst (subnetcmd.addValidator args w) = Err (errCollaborator "ReadDir")
  /\ shown (snd (subnetcmd.addValidator args w)) = shown w
  /\ script (snd (subnetcmd.addValidator args w)) = script w
  /\ issued (snd (subnetcmd.addValidator args w)) = issued w.
Proof.
  intros Hkey Hdir. destruct w as [v sc sh cl dk cv sb iss].
  destruct v as [key nid wt st du sd]. destruct dk as [kd sds gen].
  cbn in Hkey, Hdir. subst key kd.
  unfold subnetcmd.addValidator, subnetcmd.captureKeyName, app.ReadKeyDir, try,
    set_keyName.
  run_cmd. repeat split.
Qed.

(** X12.  When the sidecar of the subnet has no entry for the chosen
    network, or an entry with the empty subnet ID, the command fails with
    [errNoSubnetID] right after the network prompt: no other prompt is
    shown and nothing else changes. *)
Theorem undeployed_subnet_is_refused (args : list string) (w : World)
    (s : string) (rest : list Answer) (name : string) (more : list string)
    (sc : models.Sidecar) :
  strings.isEmpty (keyName (vars w)) = false ->
  script w = AList s :: rest ->
  validateSubnetNameAndGetChains (disk w) args = Got (name :: more) ->
  sidecars (disk w) !! name = Some sc ->
  (forall nd,
      models.Networks sc !! models.Network_String (NetworkFromString s) = Some nd ->
      models.SubnetID nd = ids.Empty) ->
  subnetcmd.addValidator args w
  = (Err errNoSubnetID,
     Transcript.after w rest
       [Asked KList Dialogue.networkText Dialogue.networkOptions]).
Proof.
  intros Hkey Hs Hchains Hsc Hid.
  destruct w as [v scr sh cl dk cv sb iss]. cbn [script vars disk] in *. subst scr.
  unfold subnetcmd.addValidator. cbv zeta.
  rewrite Run.bind_run. cbn [getVars vars]. rewrite Hkey.
  rewrite Run.bind_run. cbn [mret M_ret].
  unfold Prompt.CaptureList at 1. run_cmd.
  rewrite Hchains. run_cmd.
  unfold app.LoadSidecar. run_cmd. rewrite Hsc. run_cmd.
  unfold Transcript.after, Dialogue.networkText, Dialogue.networkOptions. cbn [vars script shown clock disk currentValidators submission issued app].
  destruct (models.Networks sc !! models.Network_String (NetworkFromString s))
    as [nd|] eqn:Hnd.
  - rewrite (Hid nd eq_refl). reflexivity.
  - reflexivity.
Qed.

End Prompts.

(** * The weight flag and the transaction *)
Module Blindness.

Import Run Flag.

Lemma blind_ret {A} (a : A) : blind (mret a).
Proof. intros x w. reflexivity. Qed.

Lemma blind_fail {A} e : blind (@fail A e).
Proof. intros x w. reflexivity. Qed.

Lemma blind_lift {A} (r : Result A) : blind (lift r).
Proof. intros x w. reflexivity. Qed.

Lemma blind_bind {A B} (m : M A) (f : A -> M B) :
  blind m -> (forall a, blind (f a)) -> blind (m ≫= f).
Proof.
  intros Hm Hf x w. rewrite !bind_run, Hm.
  destruct (m w) as [[a|e] w1]; cbn [fst snd]; [apply Hf|reflexivity].
Qed.

Lemma blind_try {A} (m : M A) : blind m -> blind (try m).
Proof.
  intros Hm x w. unfold try. rewrite Hm. destruct (m w) as [r w1]. reflexivity.
Qed.

(** A step that reads the variables is blind when what follows does not
    look at the weight among them. *)
Lemma blind_getVars {B} (f : Vars -> M B) :
  (forall v, blind (f v)) ->
  (forall v x, f {| keyName := keyName v; nodeIDStr := nodeIDStr v; weight := x;
                    startTimeStr := startTimeStr v; duration := duration v;
                    startTimeDefault := startTimeDefault v |} = f v) ->
  blind (getVars ≫= f).
Proof.
  intros Hf Hsame x w. rewrite !bind_run. cbn [getVars].
  unfold withWeight at 1. cbn [vars]. rewrite Hsame. apply Hf.
Qed.

Lemma blind_getDisk : blind getDisk.
Proof. intros x w. reflexivity. Qed.

Lemma blind_Now : blind Now.
Proof. intros x w. reflexivity. Qed.

Lemma blind_show o : blind (show o).
Proof. intros x w. reflexivity. Qed.

Lemma blind_answer : blind answer.
Proof. intros x w. unfold answer. cbn [withWeight script]. destruct (script w); reflexivity. Qed.

Lemma blind_set_keyName k : blind (set_keyName k).
Proof. intros x w. reflexivity. Qed.

Lemma blind_set_duration d : blind (set_duration d).
Proof. intros x w. reflexivity. Qed.

Lemma blind_GetCurrentValidators uri : blind (platformvm.GetCurrentValidators uri).
Proof. intros x w. reflexivity. Qed.

Lemma blind_AddValidator tx : blind (subnet.AddValidator tx).
Proof.
  intros x w. unfold subnet.AddValidator. cbn [withWeight submission].
  destruct (submission w tx); reflexivity.
Qed.

Create HintDb blind.

#[export] Hint Resolve blind_ret blind_fail blind_lift blind_getDisk blind_Now
  blind_show blind_answer blind_set_keyName blind_set_duration
  blind_GetCurrentValidators blind_AddValidator : blind.

Ltac blind_step :=
  lazymatch goal with
  | |- blind (getVars ≫= _) =>
    apply blind_getVars; [intros ?|intros [] ?; reflexivity]
  | |- blind (_ ≫= _) => apply blind_bind; [|intros ?]
  | |- blind (try _) => apply blind_try
  | |- blind (if ?b then _ else _) => destruct b
  | |- blind (match ?x with _ => _ end) => destruct x
  end.

Ltac blind_walk := repeat (blind_step; try solve [eauto with blind]).

Lemma blind_PrintToUser line : blind (PrintToUser line).
Proof. apply blind_show. Qed.

Lemma blind_CaptureList text options : blind (Prompt.CaptureList text options).
Proof. unfold Prompt.CaptureList. blind_walk. Qed.

Lemma blind_CaptureDuration text : blind (Prompt.CaptureDuration text).
Proof. unfold Prompt.CaptureDuration. blind_walk. Qed.

Lemma blind_CaptureYesNo text : blind (Prompt.CaptureYesNo text).
Proof. unfold Prompt.CaptureYesNo. blind_walk. Qed.

Lemma blind_CaptureDate text : blind (Prompt.CaptureDate text).
Proof. unfold Prompt.CaptureDate. blind_walk. Qed.

Lemma blind_CaptureNodeID text : blind (Prompt.CaptureNodeID text).
Proof. unfold Prompt.CaptureNodeID. blind_walk. Qed.

Lemma blind_CaptureWeight text : blind (Prompt.CaptureWeight text).
Proof. unfold Prompt.CaptureWeight. blind_walk. Qed.

Lemma blind_ReadKeyDir : blind app.ReadKeyDir.
Proof. unfold app.ReadKeyDir. blind_walk. Qed.

Lemma blind_LoadSidecar name : blind (app.LoadSidecar name).
Proof. unfold app.LoadSidecar. blind_walk. Qed.

#[export] Hint Resolve blind_PrintToUser blind_CaptureList blind_CaptureDuration
  blind_CaptureYesNo blind_CaptureDate blind_CaptureNodeID blind_CaptureWeight
  blind_ReadKeyDir blind_LoadSidecar : blind.

Lemma blind_promptDuration_fuel start fuel :
  blind (subnetcmd.promptDuration_fuel fuel start).
Proof.
  induction fuel as [|fuel IH]; cbn [subnetcmd.promptDuration_fuel];
    [apply blind_fail|].
  blind_walk.
Qed.

Lemma blind_promptDuration start : blind (subnetcmd.promptDuration start).
Proof.
  intros x w. unfold subnetcmd.promptDuration. cbn [withWeight script].
  apply blind_promptDuration_fuel.
Qed.

Section WithSetting.

Context `{constants.Values} `{Collaborators}.

#[local] Hint Resolve blind_promptDuration : blind.

Lemma blind_promptWeight : blind subnetcmd.promptWeight.
Proof. unfold subnetcmd.promptWeight. cbv zeta. blind_walk. Qed.

Lemma blind_promptStart : blind subnetcmd.promptStart.
Proof. unfold subnetcmd.promptStart. eauto with blind. Qed.

Lemma blind_promptNodeID : blind subnetcmd.promptNodeID.
Proof. unfold subnetcmd.promptNodeID. eauto with blind. Qed.

Lemma blind_getMaxValidationTime network nodeID start :
  blind (subnetcmd.getMaxValidationTime network nodeID start).
Proof. unfold subnetcmd.getMaxValidationTime. cbv zeta. blind_walk. Qed.

Lemma blind_assign_duration m : blind m -> blind (subnetcmd.assign_duration m).
Proof. intros Hm. unfold subnetcmd.assign_duration. blind_walk. Qed.

#[local] Hint Resolve blind_promptWeight blind_promptStart blind_promptNodeID
  blind_getMaxValidationTime blind_assign_duration : blind.

Lemma blind_resolveStart : blind subnetcmd.resolveStart.
Proof. unfold subnetcmd.resolveStart. cbv zeta. blind_walk. Qed.

Lemma blind_resolveDuration network nodeID start :
  blind (subnetcmd.resolveDuration network nodeID start).
Proof. unfold subnetcmd.resolveDuration. cbv zeta. blind_walk. Qed.

#[local] Hint Resolve blind_resolveStart blind_resolveDuration : blind.

Lemma blind_getTimeParameters network nodeID :
  blind (subnetcmd.getTimeParameters network nodeID).
Proof. unfold subnetcmd.getTimeParameters. blind_walk. Qed.

Lemma blind_captureKeyName : blind subnetcmd.captureKeyName.
Proof. unfold subnetcmd.captureKeyName. cbv zeta. blind_walk. Qed.

#[local] Hint Resolve blind_getTimeParameters blind_captureKeyName : blind.

Lemma blind_addValidator args : blind (subnetcmd.addValidator args).
Proof.
  unfold subnetcmd.addValidator. cbv zeta.
  change (subnetcmd.resolveWeight 0) with subnetcmd.promptWeight.
  blind_walk.
Qed.

End WithSetting.

End Blindness.

Section WeightFlag.

Context `{constants.Values} `{Collaborators}.

(** X13.  The variable of the weight flag has no effect on the command:
    started with any other value in it, the command ends with the same
    result, shows the same lines, hands over the same transactions, and
    leaves the same world but for that value, which it leaves in place. *)
Theorem weight_flag_has_no_effect (args : list string) (w : World) (x : Z) :
  let run := subnetcmd.addValidator args w in
  let run' := subnetcmd.addValidator args (Flag.withWeight x w) in
  fst run' = fst run
  /\ snd run' = Flag.withWeight x (snd run)
  /\ issued (snd run') = issued (snd run)
  /\ shown (snd run') = shown (snd run).
Proof.
  cbv zeta. rewrite (Blindness.blind_addValidator args x w). cbn [fst snd].
  repeat split.
Qed.

End WeightFlag.

Module Delivery.

Import Run Frame Handing.

Lemma not_longer {X} (x : X) (l : list X) : l <> x :: l.
Proof.
  intros Heq. apply (f_equal (@length X)) in Heq. cbn in Heq. lia.
Qed.

Lemma mustHand_fail {A} e : mustHand (@fail A e).
Proof. intros w a Hok. discriminate Hok. Qed.

Lemma mustHand_bind {A B} (m : M A) (f : A -> M B) :
  keeps issued m -> (forall a, mustHand (f a)) -> mustHand (m ≫= f).
Proof.
  intros Hm Hf w b. rewrite bind_run. specialize (Hm w).
  destruct (m w) as [[a|e] w1]; cbn [fst snd] in *; [|discriminate].
  intros Hok. destruct (Hf a w1 b Hok) as [tx Htx]. exists tx. congruence.
Qed.

Lemma mustHand_AddValidator tx : mustHand (subnet.AddValidator tx).
Proof.
  intros w a _. exists tx. unfold subnet.AddValidator.
  destruct (submission w tx); reflexivity.
Qed.

Lemma hands_quiet {A} d0 P (m : M A) : quiet m -> hands d0 P m.
Proof.
  intros [_ Hi] w tx _ Htx. rewrite Hi in Htx. now destruct (not_longer tx (issued w)).
Qed.

(** What a step hands on to the rest of the command, when the files are
    [d0]. *)
Lemma hands_bind {A B} d0 P (m : M A) (f : A -> M B) :
  quiet m ->
  (forall a, (exists w, disk w = d0 /\ fst (m w) = Ok a) -> hands d0 P (f a)) ->
  hands d0 P (m ≫= f).
Proof.
  intros [Hf Hi] Hk w tx Hd. rewrite bind_run.
  specialize (Hf w). specialize (Hi w).
  destruct (m w) as [[a|e] w1] eqn:Hrun; cbn [fst snd] in *.
  - intros Htx. apply (Hk a).
    + exists w. rewrite Hrun. now split.
    + unfold fixedPart in Hf. congruence.
    + congruence.
  - intros Htx. rewrite Hi in Htx. now destruct (not_longer tx (issued w)).
Qed.

Lemma quiet_keeps_issued {A} (m : M A) : quiet m -> keeps issued m.
Proof. now intros [_ ?]. Qed.

Ltac quietly := solve [Frame.quiet_walk; eauto with frame].

Ltac mustHand_step :=
  lazymatch goal with
  | |- mustHand (subnet.AddValidator _) => apply mustHand_AddValidator
  | |- mustHand (fail _) => apply mustHand_fail
  | |- mustHand (_ ≫= _) =>
    apply mustHand_bind; [apply quiet_keeps_issued; quietly|intros ?]
  | |- mustHand (if ?b then _ else _) => destruct b
  | |- mustHand (match ?x with _ => _ end) => destruct x
  end.

Section WithSetting.

Context `{constants.Values} `{Collaborators}.

#[local] Hint Resolve Frame.quiet_getTimeParameters Frame.quiet_captureKeyName
  Frame.quiet_resolveWeight Frame.quiet_promptNodeID : frame.

Lemma mustHand_addValidator args : mustHand (subnetcmd.addValidator args).
Proof.
  unfold subnetcmd.addValidator. cbv zeta. repeat mustHand_step.
Qed.

(** The world after the summary was shown and [tx] handed over. *)
Lemma summary_run (l1 l2 l3 l4 l5 l6 : string) (mk : Vars -> Tx) w :
  snd ((_ ← PrintToUser l1;
        _ ← PrintToUser l2;
        _ ← PrintToUser l3;
        _ ← PrintToUser l4;
        _ ← PrintToUser l5;
        _ ← PrintToUser l6;
        v' ← getVars;
        subnet.AddValidator (mk v')) w)
  = {| vars := vars w; script := script w;
       shown := [Printed l6; Printed l5; Printed l4; Printed l3; Printed l2;
                 Printed l1] ++ shown w;
       clock := clock w; disk := disk w;
       currentValidators := currentValidators w;
       submission := submission w; issued := mk (vars w) :: issued w |}.
Proof.
  unfold PrintToUser, subnet.AddValidator.
  repeat (rewrite bind_run;
          cbn [show getVars vars script shown clock disk currentValidators
               submission issued]).
  destruct (submission w (mk (vars w))); reflexivity.
Qed.

(** The last lines of [addValidator]: the summary, then the transaction. *)
Lemma hands_summary args d0 network subnetID nodeID x start d :
  subnetID <> ids.Empty ->
  (exists name more sc nd,
      validateSubnetNameAndGetChains d0 args = Got (name :: more)
      /\ sidecars d0 !! name = Some sc
      /\ models.Networks sc !! models.Network_String network = Some nd
      /\ models.SubnetID nd = subnetID) ->
  hands d0 (described args d0)
    (_ ← PrintToUser ("NodeID: " ++ NodeID_String nodeID);
     _ ← PrintToUser ("Network: " ++ models.Network_String network);
     _ ← PrintToUser ("Start time: " ++ time.Format start constants.TimeParseLayout);
     _ ← PrintToUser ("End time: "
                      ++ time.Format (time.Add start d) constants.TimeParseLayout);
     _ ← PrintToUser ("Weight: " ++ GoInt.itoa x);
     _ ← PrintToUser "Inputs complete, issuing transaction to add the provided validator information...";
     v' ← getVars;
     subnet.AddValidator
       {| tx_keyPath := GetKeyPath (keyName v'); tx_network := network;
          tx_subnetID := subnetID; tx_nodeID := nodeID;
          tx_weight := GoInt.uint64_of_int64 x;
          tx_start := start; tx_duration := d |}).
Proof.
  intros Hne Hdep w tx Hd.
  rewrite (summary_run _ _ _ _ _ _
             (fun v' => {| tx_keyPath := GetKeyPath (keyName v'); tx_network := network;
                           tx_subnetID := subnetID; tx_nodeID := nodeID;
                           tx_weight := GoInt.uint64_of_int64 x;
                           tx_start := start; tx_duration := d |}) w).
  cbn [issued]. intros [= <-].
  split; [exact Hne|]. split; [exact Hdep|]. split; [|reflexivity].
  exists x, (shown w). split; reflexivity.
Qed.

Lemma hands_addValidator args d0 :
  hands d0 (described args d0) (subnetcmd.addValidator args).
Proof.
  unfold subnetcmd.addValidator. cbv zeta.
  apply hands_bind; [quietly|intros v _].
  apply hands_bind; [quietly|intros _ _].
  apply hands_bind; [quietly|intros networkStr _].
  apply hands_bind; [quietly|intros d (w0 & Hd0 & Hget)].
  cbn in Hget. injection Hget as <-. rewrite Hd0.
  apply hands_bind; [quietly|intros chains (wc & _ & Hchains)].
  apply hands_bind; [quietly|intros subnetName (wn & _ & Hname)].
  apply hands_bind; [quietly|intros sc (w1 & Hd1 & Hload)].
  match goal with
  | |- hands _ _ (if String.eqb ?a ?b then _ else _) =>
    destruct (String.eqb_spec a b) as [|Hne]; [apply hands_quiet; quietly|]
  end.
  apply hands_bind; [quietly|intros nodeID _].
  apply hands_bind; [quietly|intros x _].
  apply hands_bind; [quietly|intros r _].
  apply hands_bind; [quietly|intros [start du] _].
  apply hands_summary; [exact Hne|].
  destruct chains as [|name more]; [discriminate Hname|].
  cbn in Hname. injection Hname as <-.
  destruct (models.Networks sc !! models.Network_String (NetworkFromString networkStr))
    as [nd|] eqn:Hnd; [|contradiction].
  exists name, more, sc, nd. split; [|split; [|split; [exact Hnd|reflexivity]]].
  - cbn in Hchains. destruct (validateSubnetNameAndGetChains d0 args);
      cbn in Hchains; congruence.
  - unfold app.LoadSidecar in Hload. rewrite bind_run in Hload. cbn [getDisk] in Hload.
    rewrite Hd1 in Hload.
    destruct (sidecars d0 !! name); [|discriminate Hload].
    cbn in Hload. congruence.
Qed.

End WithSetting.

End Delivery.

Section Transactions.

Context `{constants.Values} `{Collaborators}.

(** X14.  When the command ends well it has handed exactly one transaction
    to the deployer, and the platform accepted it. *)
Theorem addValidator_success_is_one_transaction (args : list string) (w : World) :
  fst (subnetcmd.addValidator args w) = Ok tt ->
  exists tx,
    issued (snd (subnetcmd.addValidator args w)) = tx :: issued w
    /\ submission w tx = None.
Proof.
  intros Hok.
  destruct (Delivery.mustHand_addValidator args w tt Hok) as [tx Htx].
  exists tx. split; [exact Htx|].
  destruct (Frame.handsOver_addValidator args w) as [_ [Hnone|(tx' & Htx' & Hend)]].
  - rewrite Hnone in Htx. now destruct (Delivery.not_longer tx (issued w)).
  - assert (tx' = tx) as -> by congruence.
    destruct Hend as [(Hacc & _)|(what & _ & Herr)]; [exact Hacc|congruence].
Qed.

(** X15.  The transaction that the command hands over names a subnet ID
    that is not empty and is the one that the sidecar of the first chain of
    [validateSubnetNameAndGetChains] records for the network of the
    transaction. *)
Theorem addValidator_names_the_deployed_subnet (args : list string) (w : World)
    (tx : Tx) :
  issued (snd (subnetcmd.addValidator args w)) = tx :: issued w ->
  tx_subnetID tx <> ids.Empty
  /\ exists name more sc nd,
       validateSubnetNameAndGetChains (disk w) args = Got (name :: more)
       /\ sidecars (disk w) !! name = Some sc
       /\ models.Networks sc !! models.Network_String (tx_network tx) = Some nd
       /\ models.SubnetID nd = tx_subnetID tx.
Proof.
  intros Htx.
  destruct (Delivery.hands_addValidator args (disk w) w tx eq_refl Htx)
    as (Hne & Hdep & _).
  split; [exact Hne|exact Hdep].
Qed.


End Transactions.

(** * Expiry, the calendar and the confirmation loop *)
Module Saturation.

Import GoInt.

(** [Time.Sub] has the sign of the difference, stays within the durations
    and never goes past the difference. *)
Lemma Sub_between t u :
  time.minDuration <= time.Sub t u <= time.maxDuration
  /\ (u <= t -> 0 <= time.Sub t u /\ u + time.Sub t u <= t)
  /\ (t < u -> time.Sub t u < 0 /\ t <= u + time.Sub t u).
Proof.
  unfold time.Sub, time.Add, time.Before, time.minDuration, time.maxDuration.
  cbv zeta.
  assert (Hw : - two63 <= wrap_int64 (t - u) < two63).
  { unfold wrap_int64.
    pose proof (Z.mod_pos_bound (t - u + two63) two64 ltac:(reflexivity)) as Hm.
    unfold two64, two63 in *. lia. }
  assert (H63 : two63 = 9223372036854775808) by reflexivity.
  destruct (Z.eqb_spec (u + wrap_int64 (t - u)) t) as [Heq|Hne].
  - assert (wrap_int64 (t - u) = t - u) as -> by lia. lia.
  - assert (Hout : ~ (- two63 <= t - u < two63)).
    { intros Hfit. apply Hne. rewrite (Expiry.wrap_int64_small _ Hfit). lia. }
    destruct (Z.ltb_spec t u); lia.
Qed.

End Saturation.

Section Expired.

Context `{constants.Values}.

(** X17.  The duration until the validator expires, whatever the start:
    when the first record with the node identifier has an end time below
    2^63 - 62135596800 seconds, [getMaxValidationTime] returns a duration
    without an error and leaves the world alone; when the end is not before
    the start the duration is not negative and start plus duration is not
    after the end; when the end is before the start the duration is
    negative. *)
Theorem until_expires_stays_within (network : models.Network)
    (nodeID : ids.NodeID) (start : time.Time) (w : World)
    (pre : list Validator) (v : Validator) (post : list Validator) :
  currentValidators w
    (if models.Network_eqb network models.Fuji then constants.FujiAPIEndpoint
     else constants.MainnetAPIEndpoint) = Got (pre ++ v :: post)%list ->
  Forall (fun u => v_NodeID u <> nodeID) pre ->
  v_NodeID v = nodeID ->
  0 <= v_EndTime v < GoInt.two63 - time.unixToInternal ->
  let expiry := v_EndTime v * time.Second in
  exists d,
    subnetcmd.getMaxValidationTime network nodeID start w = (Ok d, w)
    /\ time.minDuration <= d <= time.maxDuration
    /\ (start <= expiry -> 0 <= d /\ time.Add start d <= expiry)
    /\ (expiry < start -> d < 0 /\ expiry <= time.Add start d).
Proof.
  intros Hgot Hpre Hv Hend expiry.
  exists (time.Sub expiry start). split.
  - unfold subnetcmd.getMaxValidationTime. cbv zeta. rewrite Run.bind_run.
    unfold platformvm.GetCurrentValidators. rewrite Hgot. cbn [result_of lift].
    rewrite (Expiry.findValidator_first pre v post nodeID start Hpre Hv).
    rewrite (Expiry.Unix_exact _ Hend). reflexivity.
  - unfold time.Add. apply Saturation.Sub_between.
Qed.

End Expired.



Module StampRun.

Import Digits StampCheck.

Lemma Parse_possible y3 y2 y1 y0 m1 m0 d1 d0 h1 h0 i1 i0 s1 s0 :
  forallb time.isDigitByte [y3; y2; y1; y0; m1; m0; d1; d0; h1; h0; i1; i0; s1; s0]
  = true ->
  (possible y3 y2 y1 y0 m1 m0 d1 d0 h1 h0 i1 i0 s1 s0 ->
   time.Parse constants.TimeParseLayout
     (stamp y3 y2 y1 y0 m1 m0 d1 d0 h1 h0 i1 i0 s1 s0)
   = Some (time.Date (num4 y3 y2 y1 y0) (num2 m1 m0) (num2 d1 d0)
                     (num2 h1 h0) (num2 i1 i0) (num2 s1 s0) 0))
  /\ (~ possible y3 y2 y1 y0 m1 m0 d1 d0 h1 h0 i1 i0 s1 s0 ->
      time.Parse constants.TimeParseLayout
        (stamp y3 y2 y1 y0 m1 m0 d1 d0 h1 h0 i1 i0 s1 s0) = None).
Proof.
  intros Hall. rewrite (Text.Parse_stamp _ _ _ _ _ _ _ _ _ _ _ _ _ _ Hall).
  cbv zeta. unfold possible.
  cbn [forallb] in Hall.
  repeat match goal with
  | Hx : _ && _ = true |- _ => apply andb_true_iff in Hx as [? ?]
  end.
  assert (Hh : 0 <= num2 h1 h0).
  { unfold num2. pose proof (Text.digit_range h1 ltac:(assumption)).
    pose proof (Text.digit_range h0 ltac:(assumption)). lia. }
  assert (Hi : 0 <= num2 i1 i0).
  { unfold num2. pose proof (Text.digit_range i1 ltac:(assumption)).
    pose proof (Text.digit_range i0 ltac:(assumption)). lia. }
  assert (Hs : 0 <= num2 s1 s0).
  { unfold num2. pose proof (Text.digit_range s1 ltac:(assumption)).
    pose proof (Text.digit_range s0 ltac:(assumption)). lia. }
  destruct (Z.leb_spec (num2 m1 m0) 0); destruct (Z.ltb_spec 12 (num2 m1 m0));
    cbn [orb]; try (split; [intros; lia|reflexivity]).
  destruct (Z.ltb_spec (num2 h1 h0) 0); destruct (Z.leb_spec 24 (num2 h1 h0));
    cbn [orb]; try (split; [intros; lia|reflexivity]).
  destruct (Z.ltb_spec (num2 i1 i0) 0); destruct (Z.leb_spec 60 (num2 i1 i0));
    cbn [orb]; try (split; [intros; lia|reflexivity]).
  destruct (Z.ltb_spec (num2 s1 s0) 0); destruct (Z.leb_spec 60 (num2 s1 s0));
    cbn [orb]; try (split; [intros; lia|reflexivity]).
  destruct (Z.ltb_spec (num2 d1 d0) 1);
    destruct (Z.ltb_spec (time.daysIn (num2 m1 m0) (num4 y3 y2 y1 y0)) (num2 d1 d0));
    cbn [orb]; try (split; [intros; lia|reflexivity]).
  split; [reflexivity|]. intros Hno. exfalso. apply Hno. lia.
Qed.

End StampRun.

Section StartFlagCalendar.

Context `{constants.Values} `{Collaborators}.

(** X18.  A start-time flag of the form YYYY-MM-DD HH:MM:SS, all digits, is
    refused with the parse error, and nothing changes, exactly when its
    month is not 1 to 12, its day is not a day of that month in that year,
    its hour is not below 24 or its minute or second not below 60;
    otherwise the start is that date, or the too-soon error. *)
Theorem start_flag_refuses_impossible_dates
    (y3 y2 y1 y0 m1 m0 d1 d0 h1 h0 i1 i0 s1 s0 : ascii) (w : World) :
  forallb time.isDigitByte [y3; y2; y1; y0; m1; m0; d1; d0; h1; h0; i1; i0; s1; s0]
  = true ->
  startTimeStr (vars w) = Digits.stamp y3 y2 y1 y0 m1 m0 d1 d0 h1 h0 i1 i0 s1 s0 ->
  (subnetcmd.resolveStart w = (Err (errParse (startTimeStr (vars w))), w)
   <-> ~ StampCheck.possible y3 y2 y1 y0 m1 m0 d1 d0 h1 h0 i1 i0 s1 s0)
  /\ (StampCheck.possible y3 y2 y1 y0 m1 m0 d1 d0 h1 h0 i1 i0 s1 s0 ->
      fst (subnetcmd.resolveStart w) = Err errTooSoon
      \/ fst (subnetcmd.resolveStart w)
         = Ok (time.Date (Digits.num4 y3 y2 y1 y0) (Digits.num2 m1 m0)
                 (Digits.num2 d1 d0) (Digits.num2 h1 h0) (Digits.num2 i1 i0)
                 (Digits.num2 s1 s0) 0)).
Proof.
  intros Hall Hflag.
  assert (Hne : strings.isEmpty (startTimeStr (vars w)) = false)
    by (rewrite Hflag; reflexivity).
  rewrite (Steps.resolveStart_flag w Hne). rewrite Hflag.
  destruct (StampRun.Parse_possible _ _ _ _ _ _ _ _ _ _ _ _ _ _ Hall) as [Hyes Hno].
  split.
  - split.
    + intros Hrun Hp. rewrite (Hyes Hp) in Hrun.
      destruct (time.Before _ _); discriminate Hrun.
    + intros Hp. now rewrite (Hno Hp).
  - intros Hp. rewrite (Hyes Hp).
    destruct (time.Before _ _); [now left|now right].
Qed.

End StartFlagCalendar.

Section DurationLoop.


End DurationLoop.

(** * The key of the transaction and the default window *)
Module KeyKept.

Import Run Handing.

Ltac keeps_prim := intros w; reflexivity.

Lemma key_getVars : keeps key getVars.
Proof. keeps_prim. Qed.

Lemma key_getDisk : keeps key getDisk.
Proof. keeps_prim. Qed.

Lemma key_Now : keeps key Now.
Proof. keeps_prim. Qed.

Lemma key_show o : keeps key (show o).
Proof. keeps_prim. Qed.

Lemma key_answer : keeps key answer.
Proof. intros w. unfold answer. destruct (script w); reflexivity. Qed.

Lemma key_set_duration d : keeps key (set_duration d).
Proof. keeps_prim. Qed.

Lemma key_GetCurrentValidators uri : keeps key (platformvm.GetCurrentValidators uri).
Proof. keeps_prim. Qed.

Lemma key_AddValidator tx : keeps key (subnet.AddValidator tx).
Proof.
  intros w. unfold subnet.AddValidator. destruct (submission w tx); reflexivity.
Qed.

Create HintDb key.

#[export] Hint Resolve keeps_ret keeps_fail keeps_lift key_getVars key_getDisk
  key_Now key_show key_answer key_set_duration key_GetCurrentValidators
  key_AddValidator : key.

Ltac key_step :=
  lazymatch goal with
  | |- keeps key (mret _) => apply keeps_ret
  | |- keeps key (fail _) => apply keeps_fail
  | |- keeps key (lift _) => apply keeps_lift
  | |- keeps key (try _) => apply keeps_try
  | |- keeps key (_ ≫= _) => apply keeps_bind; [|intros ?]
  | |- keeps key (if ?b then _ else _) => destruct b
  | |- keeps key (match ?x with _ => _ end) => destruct x
  end.

Ltac key_walk := repeat (key_step; try solve [eauto with key]).

Lemma key_PrintToUser line : keeps key (PrintToUser line).
Proof. apply key_show. Qed.

Lemma key_CaptureList text options : keeps key (Prompt.CaptureList text options).
Proof. unfold Prompt.CaptureList. key_walk. Qed.

Lemma key_CaptureDuration text : keeps key (Prompt.CaptureDuration text).
Proof. unfold Prompt.CaptureDuration. key_walk. Qed.

Lemma key_CaptureYesNo text : keeps key (Prompt.CaptureYesNo text).
Proof. unfold Prompt.CaptureYesNo. key_walk. Qed.

Lemma key_CaptureDate text : keeps key (Prompt.CaptureDate text).
Proof. unfold Prompt.CaptureDate. key_walk. Qed.

Lemma key_CaptureNodeID text : keeps key (Prompt.CaptureNodeID text).
Proof. unfold Prompt.CaptureNodeID. key_walk. Qed.

Lemma key_CaptureWeight text : keeps key (Prompt.CaptureWeight text).
Proof. unfold Prompt.CaptureWeight. key_walk. Qed.

Lemma key_LoadSidecar name : keeps key (app.LoadSidecar name).
Proof. unfold app.LoadSidecar. key_walk. Qed.

#[export] Hint Resolve key_PrintToUser key_CaptureList key_CaptureDuration
  key_CaptureYesNo key_CaptureDate key_CaptureNodeID key_CaptureWeight
  key_LoadSidecar : key.

Lemma key_promptDuration_fuel start fuel :
  keeps key (subnetcmd.promptDuration_fuel fuel start).
Proof.
  induction fuel as [|fuel IH]; cbn [subnetcmd.promptDuration_fuel];
    [apply keeps_fail|].
  cbv zeta. key_walk.
Qed.

Lemma key_promptDuration start : keeps key (subnetcmd.promptDuration start).
Proof.
  intros w. unfold subnetcmd.promptDuration. apply key_promptDuration_fuel.
Qed.

Section WithSetting.

Context `{constants.Values} `{Collaborators}.

#[local] Hint Resolve key_promptDuration : key.

Lemma key_promptWeight : keeps key subnetcmd.promptWeight.
Proof. unfold subnetcmd.promptWeight. cbv zeta. key_walk. Qed.

Lemma key_promptStart : keeps key subnetcmd.promptStart.
Proof. unfold subnetcmd.promptStart. eauto with key. Qed.

Lemma key_promptNodeID : keeps key subnetcmd.promptNodeID.
Proof. unfold subnetcmd.promptNodeID. eauto with key. Qed.

Lemma key_getMaxValidationTime network nodeID start :
  keeps key (subnetcmd.getMaxValidationTime network nodeID start).
Proof. unfold subnetcmd.getMaxValidationTime. cbv zeta. key_walk. Qed.

Lemma key_assign_duration m : keeps key m -> keeps key (subnetcmd.assign_duration m).
Proof. intros Hm. unfold subnetcmd.assign_duration. key_walk. Qed.

#[local] Hint Resolve key_promptWeight key_promptStart key_promptNodeID
  key_getMaxValidationTime key_assign_duration : key.

Lemma key_resolveStart : keeps key subnetcmd.resolveStart.
Proof. unfold subnetcmd.resolveStart. cbv zeta. key_walk. Qed.

Lemma key_resolveDuration network nodeID start :
  keeps key (subnetcmd.resolveDuration network nodeID start).
Proof. unfold subnetcmd.resolveDuration. cbv zeta. key_walk. Qed.

#[local] Hint Resolve key_resolveStart key_resolveDuration : key.

Lemma key_getTimeParameters network nodeID :
  keeps key (subnetcmd.getTimeParameters network nodeID).
Proof. unfold subnetcmd.getTimeParameters. key_walk. Qed.

#[local] Hint Resolve key_getTimeParameters : key.

(** With a key given, the command is what follows the key step, and that
    leaves the key alone. *)
Lemma key_given args w :
  strings.isEmpty (keyName (vars w)) = false ->
  key (snd (subnetcmd.addValidator args w)) = key w.
Proof.
  intros Hkey. unfold subnetcmd.addValidator. cbv zeta.
  change (subnetcmd.resolveWeight 0) with subnetcmd.promptWeight.
  rewrite bind_run. cbn [getVars]. rewrite Hkey.
  match goal with
  | |- key (snd (?m w)) = key w => enough (Hk : keeps key m) by apply Hk
  end.
  key_walk.
Qed.

End WithSetting.

End KeyKept.

Section KeyFlag.

Context `{constants.Values} `{Collaborators}.

(** X20.  A key given by the flag is the key of the transaction: the command
    leaves the package-level [keyName] as the flag set it, and a transaction
    that it hands over has the key path of that key. *)
Theorem key_flag_is_the_key_used (args : list string) (w : World) :
  strings.isEmpty (keyName (vars w)) = false ->
  keyName (vars (snd (subnetcmd.addValidator args w))) = keyName (vars w)
  /\ (forall tx,
        issued (snd (subnetcmd.addValidator args w)) = tx :: issued w ->
        tx_keyPath tx = GetKeyPath (keyName (vars w))).
Proof.
  intros Hkey.
  pose proof (KeyKept.key_given args w Hkey) as Hkept. unfold Handing.key in Hkept.
  split; [exact Hkept|].
  intros tx Htx.
  destruct (Delivery.hands_addValidator args (disk w) w tx eq_refl Htx)
    as (_ & _ & _ & Hpath).
  now rewrite Hpath, Hkept.
Qed.

End KeyFlag.

Module Walk.

(** Run a command step by step on a world that is known far enough. *)
Ltac go :=
  repeat first
    [ rewrite Run.bind_run
    | progress cbn [getVars setVars show answer mret M_ret lift result_of
                    platformvm.GetCurrentValidators Z.eqb
                    vars script shown clock disk currentValidators submission
                    issued] ].

End Walk.

Section BothDefaults.

Import Walk.
Context `{constants.Values} `{Collaborators}.

(** X21.  With neither a start-time nor a staking-period flag, when the
    operator chooses the default start and the duration until the validator
    expires, the validation starts at the default start time and ends
    exactly when the primary-network validator does, provided the end time
    of the validator is below 2^63 - 62135596800 seconds and its distance
    from the start fits a 64-bit count of nanoseconds; the duration is also
    left in the package-level [duration]. *)
Theorem default_window_ends_with_the_validator
    (network : models.Network) (nodeID : ids.NodeID) (w : World)
    (rest : list Answer) (pre : list Validator) (v : Validator)
    (post : list Validator) :
  strings.isEmpty (startTimeStr (vars w)) = true ->
  duration (vars w) = 0 ->
  script w = AList subnetcmd.defaultStartOption
             :: AList subnetcmd.defaultDurationOption :: rest ->
  currentValidators w
    (if models.Network_eqb network models.Fuji then constants.FujiAPIEndpoint
     else constants.MainnetAPIEndpoint) = Got (pre ++ v :: post)%list ->
  Forall (fun u => v_NodeID u <> nodeID) pre ->
  v_NodeID v = nodeID ->
  0 <= v_EndTime v < GoInt.two63 - time.unixToInternal ->
  time.minDuration <= v_EndTime v * time.Second - startTimeDefault (vars w)
                   <= time.maxDuration ->
  exists start d w',
    subnetcmd.getTimeParameters network nodeID w = (Ok (start, d), w')
    /\ start = startTimeDefault (vars w)
    /\ time.Add start d = v_EndTime v * time.Second
    /\ duration (vars w') = d
    /\ script w' = rest.
Proof.
  intros Hflag Hzero Hs Hgot Hpre Hv Hend Hfit.
  destruct w as [vs sc sh cl dk cv sb iss]. cbn [script vars currentValidators] in *.
  subst sc.
  exists (startTimeDefault vs), (v_EndTime v * time.Second - startTimeDefault vs).
  eexists.
  unfold subnetcmd.getTimeParameters, subnetcmd.resolveStart.
  rewrite !Run.bind_run. cbn [getVars vars]. rewrite Hflag. cbv zeta.
  unfold PrintToUser, Prompt.CaptureList. go.
  rewrite String.eqb_refl. go.
  unfold subnetcmd.resolveDuration. go.
  rewrite Hzero. go.
  unfold Prompt.CaptureList. go.
  rewrite String.eqb_refl.
  unfold subnetcmd.assign_duration, try, subnetcmd.getMaxValidationTime.
  cbv zeta. go.
  rewrite Hgot. go.
  rewrite (Expiry.findValidator_first pre v post nodeID _ Hpre Hv).
  rewrite (Expiry.Unix_exact _ Hend), (Expiry.Sub_exact _ _ Hfit).
  unfold set_duration. go.
  split; [reflexivity|]. split; [reflexivity|].
  split; [unfold time.Add; lia|]. split; reflexivity.
Qed.

End BothDefaults.

(** * The weight prompt of the command *)

Module Shows.

Import Run Frame Routing.

Lemma grows_same {A} (m : M A) : keeps shown m -> grows m.
Proof. intros Hm w. exists []. apply Hm. Qed.

Lemma grows_ret {A} (a : A) : grows (mret a).
Proof. intros w. now exists []. Qed.

Lemma grows_fail {A} e : grows (@fail A e).
Proof. intros w. now exists []. Qed.

Lemma grows_lift {A} (r : Result A) : grows (lift r).
Proof. intros w. now exists []. Qed.

Lemma grows_bind {A B} (m : M A) (f : A -> M B) :
  grows m -> (forall a, grows (f a)) -> grows (m ≫= f).
Proof.
  intros Hm Hf w. rewrite bind_run. destruct (Hm w) as [new Hnew].
  destruct (m w) as [[a|e] w1]; cbn [fst snd] in *.
  - destruct (Hf a w1) as [new1 Hnew1]. exists (new1 ++ new)%list.
    rewrite Hnew1, Hnew. apply app_assoc.
  - now exists new.
Qed.

Lemma grows_try {A} (m : M A) : grows m -> grows (try m).
Proof.
  intros Hm w. unfold try. destruct (Hm w) as [new Hnew].
  destruct (m w) as [r w1]. now exists new.
Qed.

Lemma grows_getVars : grows getVars.
Proof. intros w. now exists []. Qed.

Lemma grows_getDisk : grows getDisk.
Proof. intros w. now exists []. Qed.

Lemma grows_Now : grows Now.
Proof. intros w. now exists []. Qed.

Lemma grows_show o : grows (show o).
Proof. intros w. now exists [o]. Qed.

Lemma grows_answer : grows answer.
Proof. intros w. exists []. unfold answer. destruct (script w); reflexivity. Qed.

Lemma grows_set_keyName k : grows (set_keyName k).
Proof. intros w. now exists []. Qed.

Lemma grows_set_duration d : grows (set_duration d).
Proof. intros w. now exists []. Qed.

Lemma grows_GetCurrentValidators uri : grows (platformvm.GetCurrentValidators uri).
Proof. intros w. now exists []. Qed.

Lemma grows_AddValidator tx : grows (subnet.AddValidator tx).
Proof.
  intros w. exists []. unfold subnet.AddValidator.
  destruct (submission w tx); reflexivity.
Qed.

Create HintDb shows.

#[export] Hint Resolve grows_ret grows_fail grows_lift grows_getVars grows_getDisk
  grows_Now grows_show grows_answer grows_set_keyName grows_set_duration
  grows_GetCurrentValidators grows_AddValidator : shows.

Ltac grows_step :=
  lazymatch goal with
  | |- grows (mret _) => apply grows_ret
  | |- grows (fail _) => apply grows_fail
  | |- grows (lift _) => apply grows_lift
  | |- grows (try _) => apply grows_try
  | |- grows (_ ≫= _) => apply grows_bind; [|intros ?]
  | |- grows (if ?b then _ else _) => destruct b
  | |- grows (match ?x with _ => _ end) => destruct x
  end.

Ltac grows_walk := repeat (grows_step; try solve [eauto with shows]).

Lemma grows_PrintToUser line : grows (PrintToUser line).
Proof. apply grows_show. Qed.

Lemma grows_CaptureList text options : grows (Prompt.CaptureList text options).
Proof. unfold Prompt.CaptureList. grows_walk. Qed.

Lemma grows_CaptureDuration text : grows (Prompt.CaptureDuration text).
Proof. unfold Prompt.CaptureDuration. grows_walk. Qed.

Lemma grows_CaptureYesNo text : grows (Prompt.CaptureYesNo text).
Proof. unfold Prompt.CaptureYesNo. grows_walk. Qed.

Lemma grows_CaptureDate text : grows (Prompt.CaptureDate text).
Proof. unfold Prompt.CaptureDate. grows_walk. Qed.

Lemma grows_CaptureNodeID text : grows (Prompt.CaptureNodeID text).
Proof. unfold Prompt.CaptureNodeID. grows_walk. Qed.

Lemma grows_CaptureWeight text : grows (Prompt.CaptureWeight text).
Proof. unfold Prompt.CaptureWeight. grows_walk. Qed.

Lemma grows_ReadKeyDir : grows app.ReadKeyDir.
Proof. unfold app.ReadKeyDir. grows_walk. Qed.

Lemma grows_LoadSidecar name : grows (app.LoadSidecar name).
Proof. unfold app.LoadSidecar. grows_walk. Qed.

#[export] Hint Resolve grows_PrintToUser grows_CaptureList grows_CaptureDuration
  grows_CaptureYesNo grows_CaptureDate grows_CaptureNodeID grows_CaptureWeight
  grows_ReadKeyDir grows_LoadSidecar : shows.

Lemma grows_promptDuration_fuel start fuel :
  grows (subnetcmd.promptDuration_fuel fuel start).
Proof.
  induction fuel as [|fuel IH]; cbn [subnetcmd.promptDuration_fuel];
    [apply grows_fail|].
  cbv zeta. grows_walk.
Qed.

Lemma grows_promptDuration start : grows (subnetcmd.promptDuration start).
Proof.
  intros w. unfold subnetcmd.promptDuration. apply grows_promptDuration_fuel.
Qed.

Section WithSetting.

Context `{constants.Values} `{Collaborators}.

#[local] Hint Resolve grows_promptDuration : shows.

Lemma grows_promptStart : grows subnetcmd.promptStart.
Proof. unfold subnetcmd.promptStart. eauto with shows. Qed.

Lemma grows_promptNodeID : grows subnetcmd.promptNodeID.
Proof. unfold subnetcmd.promptNodeID. eauto with shows. Qed.

Lemma grows_getMaxValidationTime network nodeID start :
  grows (subnetcmd.getMaxValidationTime network nodeID start).
Proof. unfold subnetcmd.getMaxValidationTime. cbv zeta. grows_walk. Qed.

Lemma grows_assign_duration m : grows m -> grows (subnetcmd.assign_duration m).
Proof. intros Hm. unfold subnetcmd.assign_duration. grows_walk. Qed.

#[local] Hint Resolve grows_promptStart grows_promptNodeID
  grows_getMaxValidationTime grows_assign_duration : shows.

Lemma grows_resolveStart : grows subnetcmd.resolveStart.
Proof. unfold subnetcmd.resolveStart. cbv zeta. grows_walk. Qed.

Lemma grows_resolveDuration network nodeID start :
  grows (subnetcmd.resolveDuration network nodeID start).
Proof. unfold subnetcmd.resolveDuration. cbv zeta. grows_walk. Qed.

#[local] Hint Resolve grows_resolveStart grows_resolveDuration : shows.

Lemma grows_getTimeParameters network nodeID :
  grows (subnetcmd.getTimeParameters network nodeID).
Proof. unfold subnetcmd.getTimeParameters. grows_walk. Qed.

Lemma grows_captureKeyName : grows subnetcmd.captureKeyName.
Proof. unfold subnetcmd.captureKeyName. cbv zeta. grows_walk. Qed.

(** The weight step shows the weight prompt before anything else, whatever
    the operator answers and also when no answer comes. *)
Lemma firstShows_promptWeight : firstShows subnetcmd.promptWeight.
Proof.
  intros w. unfold subnetcmd.promptWeight. cbv zeta.
  unfold Prompt.CaptureList. rewrite !bind_run. cbn [show].
  rewrite !bind_run. unfold answer at 1. cbn [script shown].
  destruct (script w) as [|a rest]; [now exists []|].
  destruct a as [c|d|b|t|n|x|what]; try (now exists []).
  cbn [mret M_ret].
  destruct (String.eqb _ _); [now exists []|].
  destruct (grows_CaptureWeight
              "What stake weight would you like to assign to the validator?"
              {| vars := vars w; script := rest;
                 shown := Asked KList
                            "What stake weight would you like to assign to the validator?"
                            ["Default (" ++ GoInt.itoa constants.DefaultWeight ++ ")";
                             "Custom"] :: shown w;
                 clock := clock w; disk := disk w;
                 currentValidators := currentValidators w;
                 submission := submission w; issued := issued w |})
    as [new Hnew].
  exists new. exact Hnew.
Qed.

(** What comes after a step that shows the weight prompt first only adds to
    the terminal. *)
Lemma firstShows_bind {A B} (m : M A) (f : A -> M B) :
  firstShows m -> (forall a, grows (f a)) -> firstShows (m ≫= f).
Proof.
  intros Hm Hf w. rewrite bind_run. destruct (Hm w) as [later Hlater].
  destruct (m w) as [[a|e] w1]; cbn [fst snd] in *.
  - destruct (Hf a w1) as [new Hnew]. exists (new ++ later)%list.
    rewrite Hnew, Hlater. apply app_assoc.
  - now exists later.
Qed.

Lemma routed_quiet {A} (m : M A) : quiet m -> routed m.
Proof.
  intros [_ Hi] w tx Htx. rewrite Hi in Htx.
  now destruct (Delivery.not_longer tx (issued w)).
Qed.

Lemma routed_bind {A B} (m : M A) (f : A -> M B) :
  quiet m -> grows m -> (forall a, routed (f a)) -> routed (m ≫= f).
Proof.
  intros [_ Hi] Hg Hf w tx. rewrite bind_run.
  specialize (Hi w). destruct (Hg w) as [new Hnew].
  destruct (m w) as [[a|e] w1]; cbn [fst snd] in *.
  - intros Htx. rewrite <- Hi in Htx.
    destruct (Hf a w1 tx Htx) as (later & earlier & Hshown).
    exists later, (earlier ++ new)%list.
    rewrite Hshown, Hnew, <- app_assoc. reflexivity.
  - intros Htx. rewrite Hi in Htx.
    now destruct (Delivery.not_longer tx (issued w)).
Qed.

Lemma routed_firstShows {A} (m : M A) : firstShows m -> routed m.
Proof.
  intros Hm w tx _. destruct (Hm w) as [later Hlater].
  exists later, []. exact Hlater.
Qed.

(** What follows the weight step in [addValidator]. *)
Lemma firstShows_weight_step (network : models.Network) (subnetID : ids.ID)
    (nodeID : ids.NodeID) :
  firstShows
    (weight ← subnetcmd.resolveWeight 0;
     r ← try (subnetcmd.getTimeParameters network nodeID);
     '(start, duration) ←
       match r with
       | Ok (start, d) => _ ← set_duration d; mret (start, d)
       | Err e => _ ← set_duration 0; fail e
       end;
     _ ← PrintToUser ("NodeID: " ++ NodeID_String nodeID);
     _ ← PrintToUser ("Network: " ++ models.Network_String network);
     _ ← PrintToUser ("Start time: " ++ time.Format start constants.TimeParseLayout);
     _ ← PrintToUser ("End time: "
                      ++ time.Format (time.Add start duration) constants.TimeParseLayout);
     _ ← PrintToUser ("Weight: " ++ GoInt.itoa weight);
     _ ← PrintToUser "Inputs complete, issuing transaction to add the provided validator information...";
     v' ← getVars;
     subnet.AddValidator
       {| tx_keyPath := GetKeyPath (keyName v'); tx_network := network;
          tx_subnetID := subnetID; tx_nodeID := nodeID;
          tx_weight := GoInt.uint64_of_int64 weight;
          tx_start := start; tx_duration := duration |}).
Proof.
  change (subnetcmd.resolveWeight 0) with subnetcmd.promptWeight.
  apply firstShows_bind; [apply firstShows_promptWeight|].
  intros weight.
  pose proof (grows_getTimeParameters network nodeID) as Htime.
  grows_walk.
Qed.

#[local] Hint Resolve Frame.quiet_captureKeyName Frame.quiet_promptNodeID : frame.
#[local] Hint Resolve grows_captureKeyName : shows.

Lemma routed_addValidator args : routed (subnetcmd.addValidator args).
Proof.
  unfold subnetcmd.addValidator. cbv zeta.
  apply routed_bind; [Delivery.quietly|eauto with shows|intros v].
  apply routed_bind; [Delivery.quietly|grows_walk|intros _].
  apply routed_bind; [Delivery.quietly|eauto with shows|intros networkStr].
  apply routed_bind; [Delivery.quietly|eauto with shows|intros d].
  apply routed_bind; [Delivery.quietly|eauto with shows|intros chains].
  apply routed_bind; [Delivery.quietly|grows_walk|intros subnetName].
  apply routed_bind; [Delivery.quietly|eauto with shows|intros sc].
  match goal with
  | |- routed (if ?b then _ else _) =>
    destruct b; [apply routed_quiet; Delivery.quietly|]
  end.
  apply routed_bind; [Delivery.quietly|grows_walk|intros nodeID].
  apply routed_firstShows, firstShows_weight_step.
Qed.

(** With the steps before the weight step passed, the command goes on from
    the world after the network prompt: the weight prompt is what it shows
    next, and without an answer to it the command ends with the error of
    the prompt. *)
Lemma weight_step_reached args w s rest name more sc nd n :
  strings.isEmpty (keyName (vars w)) = false ->
  script w = AList s :: rest ->
  validateSubnetNameAndGetChains (disk w) args = Got (name :: more) ->
  sidecars (disk w) !! name = Some sc ->
  models.Networks sc !! models.Network_String (NetworkFromString s) = Some nd ->
  models.SubnetID nd <> ids.Empty ->
  strings.isEmpty (nodeIDStr (vars w)) = false ->
  NodeIDFromString (nodeIDStr (vars w)) = Some n ->
  (exists later,
      shown (snd (subnetcmd.addValidator args w))
      = (later ++ [weightPrompt;
                   Asked KList Dialogue.networkText Dialogue.networkOptions]
               ++ shown w)%list)
  /\ (rest = [] ->
      fst (subnetcmd.addValidator args w) = Err (errCollaborator "EOF")).
Proof.
  intros Hkey Hs Hchains Hsc Hnd Hne Hnode Hparse.
  destruct w as [v scr sh cl dk cv sb iss]. cbn [script vars disk shown] in *.
  subst scr.
  assert (Hreach : forall answers,
    subnetcmd.addValidator args
      {| vars := v; script := AList s :: answers; shown := sh; clock := cl;
         disk := dk; currentValidators := cv; submission := sb; issued := iss |}
    = (weight ← subnetcmd.resolveWeight 0;
       r ← try (subnetcmd.getTimeParameters (NetworkFromString s) n);
       '(start, duration) ←
         match r with
         | Ok (start, d) => _ ← set_duration d; mret (start, d)
         | Err e => _ ← set_duration 0; fail e
         end;
       _ ← PrintToUser ("NodeID: " ++ NodeID_String n);
       _ ← PrintToUser ("Network: " ++ models.Network_String (NetworkFromString s));
       _ ← PrintToUser ("Start time: " ++ time.Format start constants.TimeParseLayout);
       _ ← PrintToUser ("End time: "
                        ++ time.Format (time.Add start duration) constants.TimeParseLayout);
       _ ← PrintToUser ("Weight: " ++ GoInt.itoa weight);
       _ ← PrintToUser "Inputs complete, issuing transaction to add the provided validator information...";
       v' ← getVars;
       subnet.AddValidator
         {| tx_keyPath := GetKeyPath (keyName v');
            tx_network := NetworkFromString s;
            tx_subnetID := models.SubnetID nd; tx_nodeID := n;
            tx_weight := GoInt.uint64_of_int64 weight;
            tx_start := start; tx_duration := duration |})
      {| vars := v; script := answers;
         shown := Asked KList Dialogue.networkText Dialogue.networkOptions :: sh;
         clock := cl; disk := dk; currentValidators := cv; submission := sb;
         issued := iss |}).
  { intros answers. unfold subnetcmd.addValidator. cbv zeta.
    rewrite bind_run. cbn [getVars vars]. rewrite Hkey, Hnode, Hparse.
    rewrite bind_run. cbn [mret M_ret].
    unfold Prompt.CaptureList at 1.
    repeat (rewrite bind_run;
            cbn [show answer mret M_ret getDisk vars script shown clock disk
                 currentValidators submission issued]).
    rewrite Hchains. cbn [result_of lift].
    repeat (rewrite bind_run; cbn [mret M_ret]).
    unfold app.LoadSidecar.
    repeat (rewrite bind_run; cbn [getDisk disk]).
    rewrite Hsc. cbn [mret M_ret]. rewrite Hnd.
    destruct (String.eqb_spec (models.SubnetID nd) ids.Empty) as [|_];
      [contradiction|].
    rewrite (bind_run (mret n)). cbn [mret M_ret]. reflexivity. }
  split.
  - rewrite Hreach.
    exact (firstShows_weight_step (NetworkFromString s) (models.SubnetID nd) n
             {| vars := v; script := rest;
                shown := Asked KList Dialogue.networkText Dialogue.networkOptions :: sh;
                clock := cl; disk := dk; currentValidators := cv;
                submission := sb; issued := iss |}).
  - intros ->. rewrite Hreach.
    change (subnetcmd.resolveWeight 0) with subnetcmd.promptWeight.
    unfold subnetcmd.promptWeight. cbv zeta. unfold Prompt.CaptureList.
    rewrite !bind_run. reflexivity.
Qed.

End WithSetting.

End Shows.

Section ZeroWeight.

Context `{constants.Values} `{Collaborators}.

(** C9.  With the weight flag at 0 the command never ends with the
    invalid-weight error, although 0 is below MinStakeWeight: it goes to the
    interactive weight prompt.  Every run that ends well, and every run that
    hands a transaction to the deployer, has shown the weight prompt on the
    way; and when the steps before the weight step pass (here with the key
    and the node given by flags), the weight prompt is what the command
    shows next after the network prompt, whatever happens later, and
    without an answer to it the command ends with the error of the prompt.
    The invalid-weight error is reached for no value of the flag at all, and
    so for no value other than a non-zero one outside the legal range.  (The
    hypothesis on the flag is the one of the claim; the command tests the
    local [weight] of line 62 and does the same whatever the flag holds.) *)
Theorem zero_weight_goes_to_prompt (args : list string) (w : World) :
  weight (vars w) = 0 ->
  let run := subnetcmd.addValidator args w in
  (forall x, fst run <> Err (errIllegalWeight x))
  /\ (fst run = Ok tt -> Routing.asksWeight w (snd run))
  /\ (forall tx, issued (snd run) = tx :: issued w ->
                 Routing.asksWeight w (snd run))
  /\ (forall s rest name more sc nd n,
        strings.isEmpty (keyName (vars w)) = false ->
        script w = AList s :: rest ->
        validateSubnetNameAndGetChains (disk w) args = Got (name :: more) ->
        sidecars (disk w) !! name = Some sc ->
        models.Networks sc !! models.Network_String (NetworkFromString s) = Some nd ->
        models.SubnetID nd <> ids.Empty ->
        strings.isEmpty (nodeIDStr (vars w)) = false ->
        NodeIDFromString (nodeIDStr (vars w)) = Some n ->
        (exists later,
            shown (snd run)
            = (later ++ [Routing.weightPrompt;
                         Asked KList Dialogue.networkText Dialogue.networkOptions]
                     ++ shown w)%list)
        /\ (rest = [] -> fst run = Err (errCollaborator "EOF")))
  /\ (forall w0 x,
        fst (subnetcmd.addValidator args w0) <> Err (errIllegalWeight x)).
Proof.
  intros _ run. subst run. split; [|split; [|split; [|split]]].
  - intros x. apply addValidator_never_illegal_weight.
  - intros Hok.
    destruct (Delivery.mustHand_addValidator args w tt Hok) as [tx Htx].
    exact (Shows.routed_addValidator args w tx Htx).
  - intros tx Htx. exact (Shows.routed_addValidator args w tx Htx).
  - intros s rest name more sc nd n. apply Shows.weight_step_reached.
  - intros w0 x. apply addValidator_never_illegal_weight.
Qed.

End ZeroWeight.

(** * The further theorems at concrete inputs *)

Module Cases.

Import Demo Scenes.

(** The operator chooses a VM that the command does not know. *)
Lemma createGenesis_own_errors_keep_files_witness :
  let w := desk [AList "Other"] in
  let run := create.createGenesis (flags false false false) ["newsubnet"] w in
  fst run = create.Stopped create.errNotImplemented
  /\ disk (snd run) = disk w /\ issued (snd run) = issued w.
Proof.
  intros w run. split; [vm_compute; reflexivity|].
  apply (createGenesis_own_errors_keep_files
           (flags false false false) ["newsubnet"] w create.errNotImplemented).
  - vm_compute. reflexivity.
  - intros e'. discriminate.
Defined.

(** A create with the EVM flag, and the same create once more. *)
Lemma createGenesis_success_persists_witness :
  let fl := flags false true false in
  let w' := snd (create.createGenesis fl ["newsubnet"] (desk [])) in
  (exists bytes, genesis (disk w') !! "newsubnet" = Some bytes)
  /\ (exists sc, sidecars (disk w') !! models.Name sc = Some sc)
  /\ head (shown w') = Some (Printed "Successfully created subnet configuration")
  /\ (forall fl' rest',
        create.forceCreate fl' = false ->
        create.createGenesis fl' ("newsubnet" :: rest') w'
        = (create.Stopped create.errConfigExists, w')).
Proof.
  intros fl.
  apply (createGenesis_success_persists fl "newsubnet" [] (desk [])).
  vm_compute. reflexivity.
Defined.

(** The same create where the sidecar directory cannot be written. *)
Lemma evm_create_sidecar_failure_witness :
  let fl := flags false true false in
  let run := @create.createGenesis tables readOnlySidecars fl ["newsubnet"] (desk []) in
  fst run = create.Stopped (create.errReturned (errCollaborator "permission denied"))
  /\ genesis (disk (snd run)) !! "newsubnet" = Some evmGenesis
  /\ sidecars (disk (snd run)) = sidecars (disk (desk []))
  /\ (forall fl' rest',
        create.forceCreate fl' = false ->
        @create.createGenesis tables readOnlySidecars fl' ("newsubnet" :: rest') (snd run)
        = (create.Stopped create.errConfigExists, snd run)).
Proof.
  intros fl.
  apply (@evm_create_sidecar_failure tables readOnlySidecars fl "newsubnet" []
           (desk []) (desk []) evmGenesis (fresh "newsubnet") "permission denied").
  - reflexivity.
  - reflexivity.
  - reflexivity.
  - discriminate.
  - reflexivity.
  - vm_compute. reflexivity.
  - reflexivity.
  - reflexivity.
  - intros d. reflexivity.
Defined.

(** The key directory of [Demo.files] holds a key file and a file of notes:
    the prompt shows the key and an empty option. *)
Lemma captureKeyName_options_witness :
  exists options w',
    subnetcmd.captureKeyName keyless = (Ok "alice", w')
    /\ shown w'
       = Asked KList "Which private key should be used to issue the transaction?"
               options :: shown keyless
    /\ Forall2 (Keys.isOption constants.KeySuffix) ["alice.pk"; "notes.txt"] options
    /\ keyName (vars w') = "alice"
    /\ script w' = [AList "Fuji"].
Proof.
  apply (captureKeyName_options keyless ["alice.pk"; "notes.txt"] "alice"
           [AList "Fuji"]); reflexivity.
Defined.

Lemma unreadable_keys_stop_the_command_witness :
  let run := subnetcmd.addValidator ["mysubnet"] lockedOut in
  fst run = Err (errCollaborator "ReadDir")
  /\ shown (snd run) = shown lockedOut
  /\ script (snd run) = script lockedOut
  /\ issued (snd run) = issued lockedOut.
Proof.
  apply (unreadable_keys_stop_the_command ["mysubnet"] lockedOut); reflexivity.
Defined.

(** Every flag is given and nobody is at the terminal. *)
Lemma addValidator_needs_operator_witness :
  exists what,
    fst (subnetcmd.addValidator ["mysubnet"] boundary) = Err (errCollaborator what)
    /\ issued (snd (subnetcmd.addValidator ["mysubnet"] boundary)) = issued boundary
    /\ (what = "EOF"
        \/ (what = "ReadDir" /\ keyName (vars boundary) = EmptyString
            /\ keyDir (disk boundary) = None)).
Proof.
  apply (addValidator_needs_operator ["mysubnet"] boundary). reflexivity.
Defined.

(** A weight of 5000, far above MaxStakeWeight, comes back from the weight
    step. *)
Lemma prompted_weight_is_not_checked_witness :
  constants.MaxStakeWeight < 5000
  /\ fst (subnetcmd.resolveWeight 0 heavy) = Ok 5000.
Proof.
  split; [reflexivity|].
  destruct (prompted_weight_is_not_checked heavy "Custom" [AWeight 5000] eq_refl)
    as [_ Hcustom].
  rewrite (Hcustom ltac:(discriminate) 5000 [] eq_refl). reflexivity.
Defined.

(** A start at the Unix epoch, decades before the clock reading. *)
Lemma prompted_start_is_not_checked_witness :
  0 < clock bygone /\ fst (subnetcmd.resolveStart bygone) = Ok 0.
Proof.
  split; [reflexivity|].
  rewrite (prompted_start_is_not_checked bygone "Custom" 0 []
             eq_refl eq_refl ltac:(discriminate)).
  reflexivity.
Defined.

(** The subnet of [Demo.files] is deployed on Fuji only. *)
Lemma undeployed_subnet_is_refused_witness :
  subnetcmd.addValidator ["mysubnet"] elsewhere
  = (Err errNoSubnetID,
     Transcript.after elsewhere []
       [Asked KList Dialogue.networkText Dialogue.networkOptions]).
Proof.
  apply (undeployed_subnet_is_refused ["mysubnet"] elsewhere "Mainnet" []
           "mysubnet" [] sidecar).
  - reflexivity.
  - reflexivity.
  - reflexivity.
  - reflexivity.
  - intros nd Hnd. vm_compute in Hnd. discriminate Hnd.
Defined.

Lemma addValidator_success_is_one_transaction_witness :
  exists tx,
    issued (snd (subnetcmd.addValidator ["mysubnet"] (scripted 0)))
    = tx :: issued (scripted 0)
    /\ submission (scripted 0) tx = None.
Proof.
  apply (addValidator_success_is_one_transaction ["mysubnet"] (scripted 0)).
  vm_compute. reflexivity.
Defined.

Lemma addValidator_names_the_deployed_subnet_witness :
  tx_subnetID sent <> ids.Empty
  /\ exists name more sc nd,
       validateSubnetNameAndGetChains (disk (scripted 0)) ["mysubnet"]
       = Got (name :: more)
       /\ sidecars (disk (scripted 0)) !! name = Some sc
       /\ models.Networks sc !! models.Network_String (tx_network sent) = Some nd
       /\ models.SubnetID nd = tx_subnetID sent.
Proof.
  apply (addValidator_names_the_deployed_subnet ["mysubnet"] (scripted 0) sent).
  vm_compute. reflexivity.
Defined.


(** The validator of [Demo.validatorSet] expired in November 2023, before
    the start at [newYear]: the duration is negative. *)
Lemma until_expires_stays_within_witness :
  exists d,
    subnetcmd.getMaxValidationTime models.Fuji nodeA newYear example = (Ok d, example)
    /\ time.minDuration <= d <= time.maxDuration
    /\ (newYear <= 1700000000 * time.Second ->
        0 <= d /\ time.Add newYear d <= 1700000000 * time.Second)
    /\ (1700000000 * time.Second < newYear ->
        d < 0 /\ 1700000000 * time.Second <= time.Add newYear d).
Proof.
  apply (until_expires_stays_within models.Fuji nodeA newYear example []
           {| v_NodeID := nodeA; v_EndTime := 1700000000 |} []).
  - reflexivity.
  - constructor.
  - reflexivity.
  - vm_compute. split; [discriminate|reflexivity].
Defined.

(** The thirtieth of February is refused. *)
Lemma start_flag_refuses_impossible_dates_witness :
  subnetcmd.resolveStart february = (Err (errParse "2024-02-30 00:00:00"), february).
Proof.
  destruct (start_flag_refuses_impossible_dates
              "2" "0" "2" "4" "0" "2" "3" "0" "0" "0" "0" "0" "0" "0" february
              eq_refl eq_refl) as [Hrefused _].
  apply Hrefused. unfold StampCheck.possible. vm_compute. intros (_ & [_ Hday] & _).
  apply Hday. reflexivity.
Defined.

(** The key of the flag, alice, is the key of the transaction. *)
Lemma key_flag_is_the_key_used_witness :
  keyName (vars (snd (subnetcmd.addValidator ["mysubnet"] (scripted 0)))) = "alice"
  /\ (forall tx,
        issued (snd (subnetcmd.addValidator ["mysubnet"] (scripted 0)))
        = tx :: issued (scripted 0) ->
        tx_keyPath tx = GetKeyPath "alice").
Proof.
  apply (key_flag_is_the_key_used ["mysubnet"] (scripted 0)). reflexivity.
Defined.

(** Both defaults: the validation starts five minutes after the program was
    started and ends with the validator, on 1 January 2025. *)
Lemma default_window_ends_with_the_validator_witness :
  exists start d w',
    subnetcmd.getTimeParameters models.Fuji nodeA defaults = (Ok (start, d), w')
    /\ start = startTimeDefault (vars defaults)
    /\ time.Add start d = 1735689600 * time.Second
    /\ duration (vars w') = d
    /\ script w' = [].
Proof.
  apply (default_window_ends_with_the_validator models.Fuji nodeA defaults []
           [] {| v_NodeID := nodeA; v_EndTime := 1735689600 |} []).
  - reflexivity.
  - reflexivity.
  - reflexivity.
  - reflexivity.
  - constructor.
  - reflexivity.
  - vm_compute. split; [discriminate|reflexivity].
  - vm_compute. split; discriminate.
Defined.

(** The flag at 0, every other input by flag: the command shows the
    network prompt, then the weight prompt, and ends well. *)
Lemma zero_weight_goes_to_prompt_witness :
  let run := subnetcmd.addValidator ["mysubnet"] (scripted 0) in
  weight (vars (scripted 0)) = 0
  /\ fst run = Ok tt
  /\ (forall x, fst run <> Err (errIllegalWeight x))
  /\ Routing.asksWeight (scripted 0) (snd run)
  /\ (exists later,
        shown (snd run)
        = (later ++ [Routing.weightPrompt;
                     Asked KList Dialogue.networkText Dialogue.networkOptions]
                 ++ shown (scripted 0))%list).
Proof.
  intros run.
  destruct (zero_weight_goes_to_prompt ["mysubnet"] (scripted 0) eq_refl)
    as (Hnever & Hok & _ & Hreach & _).
  assert (Hrun : fst run = Ok tt) by (vm_compute; reflexivity).
  split; [reflexivity|]. split; [exact Hrun|]. split; [exact Hnever|].
  split; [exact (Hok Hrun)|].
  apply (Hreach "Fuji" [AList "Default (20)"] "mysubnet" [] sidecar
           {| models.SubnetID := "subnet-on-fuji";
              models.BlockchainID := "chain-on-fuji" |} "NodeID-A").
  - reflexivity.
  - reflexivity.
  - reflexivity.
  - reflexivity.
  - vm_compute. reflexivity.
  - discriminate.
  - reflexivity.
  - reflexivity.
Defined.

End Cases.
